(** * school-bloom-theme: the storage schema, its row-level security and
      triggers, and the admin panels that write through them.

    The first part embeds the SQL migration: the tables of schema [public],
    the [has_role] function, the row-level security policies, the two trigger
    functions and the foreign keys. The migration is declarative, so its
    embedding is data (rows, policies, table descriptions) together with the
    rules by which PostgreSQL runs a statement against such declarations:
    which policies apply to a command, that a [USING] condition filters the
    rows a statement reaches while a [WITH CHECK] condition rejects the
    statement, the order of triggers, policies and constraints, and the
    referential actions of foreign keys.

    The second part embeds the three admin panels ([NewsManager],
    [StaffManager], [ActivitiesManager]): their state, and their handlers as
    functions on that state and on the store they call; then what they
    render, and the page [Admin] that holds them.

    The third part states and proves the properties. *)

From Stdlib Require Import ZArith Lia.
From stdpp Require Import base tactics option list relations sorting strings.

(** ** SQL values *)

(** A [UUID] in its canonical text form, the form in which the panels hold
    and send it. *)
Abbreviation uuid := string (only parsing).

(** [TIMESTAMP WITH TIME ZONE]: an instant, in microseconds since the epoch. *)
Abbreviation timestamptz := Z (only parsing).

(** [CREATE TYPE public.app_role AS ENUM ('admin', 'user')]. *)
Inductive app_role := admin | user.

Global Instance app_role_eq_dec : EqDecision app_role.
Proof. solve_decision. Defined.

(** A column holds a value or [NULL]: every column is an [option], and
    [NOT NULL] is a constraint checked when a row is written. *)

(** SQL's three-valued logic: [None] is the unknown truth value. *)
Definition sql_eq {A} `{EqDecision A} (x y : option A) : option bool :=
  match x, y with
  | Some a, Some b => Some (bool_decide (a = b))
  | _, _ => None
  end.

Definition sql_and (x y : option bool) : option bool :=
  match x, y with
  | Some false, _ | _, Some false => Some false
  | Some true, Some true => Some true
  | _, _ => None
  end.

(** A [WHERE], [USING] or [WITH CHECK] condition lets a row through only when
    it is true: false and unknown both reject. *)
Definition holds (b : option bool) : bool :=
  match b with Some true => true | _ => false end.

(** A JSON value as far as [->>] tells values apart: [null], a string, or any
    other value, kept by its JSON text. *)
Inductive json := JNull | JString (s : string) | JOther (text : string).

(** A [jsonb] object (keys are unique in [jsonb]). *)
Definition jsonb := list (string * json).

(** [j ->> key]: the member as text; [NULL] when [j] is [NULL], when the key
    is missing, or when the member is JSON [null]. *)
Definition json_get_text (j : option jsonb) (key : string) : option string :=
  match j with
  | None => None
  | Some fields =>
      match list_find (fun kv => kv.1 = key) fields with
      | Some (_, (_, JString s)) => Some s
      | Some (_, (_, JOther text)) => Some text
      | Some (_, (_, JNull)) | None => None
      end
  end.

(** [COALESCE(x, y)] with a non-null second argument. *)
Definition COALESCE {A} (x : option A) (y : A) : option A :=
  match x with Some a => Some a | None => Some y end.

(** A column of an [INSERT] or of an [UPDATE ... SET]: left out, or given
    (possibly as [NULL]). *)
Inductive arg (A : Type) := absent | given (v : option A).
Arguments absent {A}.
Arguments given {A} v.

(** The value an [INSERT] stores: the column's [DEFAULT] when left out. *)
Definition or_default {A} (a : arg A) (dflt : option A) : option A :=
  match a with absent => dflt | given v => v end.

(** The value an [UPDATE] stores: the old one when the column is not set. *)
Definition or_keep {A} (a : arg A) (old : option A) : option A :=
  match a with absent => old | given v => v end.

(** ** The tables *)

(** [auth.users], as far as the migration reads it. *)
Module auth_users.
Record row := {
  id : option uuid;
  email : option string;
  raw_user_meta_data : option jsonb;
}.
End auth_users.

Module profiles.
Record row := {
  id : option uuid;           (* PRIMARY KEY REFERENCES auth.users(id) ON DELETE CASCADE *)
  email : option string;      (* NOT NULL *)
  full_name : option string;
  avatar_url : option string;
  created_at : option timestamptz;   (* DEFAULT NOW() *)
  updated_at : option timestamptz;   (* DEFAULT NOW() *)
}.
Record args := {
  id' : arg uuid;
  email' : arg string;
  full_name' : arg string;
  avatar_url' : arg string;
  created_at' : arg timestamptz;
  updated_at' : arg timestamptz;
}.
End profiles.

Module user_roles.
Record row := {
  id : option uuid;           (* PRIMARY KEY DEFAULT uuid_generate_v4() *)
  user_id : option uuid;      (* REFERENCES profiles(id) ON DELETE CASCADE NOT NULL *)
  role : option app_role;     (* NOT NULL DEFAULT 'user' *)
  created_at : option timestamptz;   (* DEFAULT NOW() *)
}.
Record args := {
  id' : arg uuid;
  user_id' : arg uuid;
  role' : arg app_role;
  created_at' : arg timestamptz;
}.
End user_roles.

Module news.
Record row := {
  id : option uuid;           (* PRIMARY KEY DEFAULT uuid_generate_v4() *)
  title : option string;      (* NOT NULL *)
  content : option string;    (* NOT NULL *)
  image_url : option string;
  published_date : option timestamptz;   (* DEFAULT NOW() *)
  created_by : option uuid;   (* REFERENCES profiles(id) *)
  created_at : option timestamptz;   (* DEFAULT NOW() *)
  updated_at : option timestamptz;   (* DEFAULT NOW() *)
}.
Record args := {
  id' : arg uuid;
  title' : arg string;
  content' : arg string;
  image_url' : arg string;
  published_date' : arg timestamptz;
  created_by' : arg uuid;
  created_at' : arg timestamptz;
  updated_at' : arg timestamptz;
}.
End news.

Module staff.
Record row := {
  id : option uuid;           (* PRIMARY KEY DEFAULT uuid_generate_v4() *)
  full_name : option string;  (* NOT NULL *)
  position : option string;   (* NOT NULL *)
  department : option string;
  email : option string;
  phone : option string;
  image_url : option string;
  bio : option string;
  created_by : option uuid;   (* REFERENCES profiles(id) *)
  created_at : option timestamptz;   (* DEFAULT NOW() *)
  updated_at : option timestamptz;   (* DEFAULT NOW() *)
}.
Record args := {
  id' : arg uuid;
  full_name' : arg string;
  position' : arg string;
  department' : arg string;
  email' : arg string;
  phone' : arg string;
  image_url' : arg string;
  bio' : arg string;
  created_by' : arg uuid;
  created_at' : arg timestamptz;
  updated_at' : arg timestamptz;
}.
End staff.

Module activities.
Record row := {
  id : option uuid;           (* PRIMARY KEY DEFAULT uuid_generate_v4() *)
  title : option string;      (* NOT NULL *)
  description : option string;       (* NOT NULL *)
  activity_date : option timestamptz;   (* NOT NULL *)
  location : option string;
  image_url : option string;
  created_by : option uuid;   (* REFERENCES profiles(id) *)
  created_at : option timestamptz;   (* DEFAULT NOW() *)
  updated_at : option timestamptz;   (* DEFAULT NOW() *)
}.
Record args := {
  id' : arg uuid;
  title' : arg string;
  description' : arg string;
  activity_date' : arg timestamptz;
  location' : arg string;
  image_url' : arg string;
  created_by' : arg uuid;
  created_at' : arg timestamptz;
  updated_at' : arg timestamptz;
}.
End activities.

(** The store: the rows of each table. *)
Record database := {
  auth_users_rows : list auth_users.row;
  profiles_rows : list profiles.row;
  user_roles_rows : list user_roles.row;
  news_rows : list news.row;
  staff_rows : list staff.row;
  activities_rows : list activities.row;
}.

Definition empty_database : database :=
  {| auth_users_rows := []; profiles_rows := []; user_roles_rows := [];
     news_rows := []; staff_rows := []; activities_rows := [] |}.

(** ** Callers *)

(** The database roles the API connects as. *)
Inductive db_role := anon | authenticated.

Global Instance db_role_eq_dec : EqDecision db_role.
Proof. solve_decision. Defined.

(** Who issues a statement through the API: nobody signed in (role [anon],
    no identity), or a signed-in identity (role [authenticated]). *)
Inductive caller := Anonymous | SignedIn (uid : uuid).

Definition current_role (c : caller) : db_role :=
  match c with Anonymous => anon | SignedIn _ => authenticated end.

(** [auth.uid()]: the caller's identity, [NULL] when nobody is signed in. *)
Definition auth_uid (c : caller) : option uuid :=
  match c with Anonymous => None | SignedIn uid => Some uid end.

(** ** [public.has_role] *)

(** [SELECT EXISTS (SELECT 1 FROM public.user_roles
                    WHERE user_id = _user_id AND role = _role)].
    The function is [SECURITY DEFINER]: it reads every row of [user_roles],
    whatever the caller may see. *)
Definition has_role (db : database) (_user_id : option uuid) (_role : option app_role) : bool :=
  existsb
    (fun r => holds (sql_and (sql_eq (user_roles.user_id r) _user_id)
                             (sql_eq (user_roles.role r) _role)))
    (user_roles_rows db).

(** ** Row-level security *)

Inductive command := SELECT | INSERT | UPDATE | DELETE.

Global Instance command_eq_dec : EqDecision command.
Proof. solve_decision. Defined.

Inductive policy_for := FOR_ALL | FOR (cmd : command).
Inductive policy_to := TO_PUBLIC | TO (r : db_role).

(** A condition of a policy: it reads the store, the caller and the row. *)
Definition condition (R : Type) := database -> caller -> R -> option bool.

(** [CREATE POLICY name ON table FOR cmd TO role USING (..) WITH CHECK (..)]. *)
Record policy (R : Type) := {
  pol_name : string;
  pol_for : policy_for;
  pol_to : policy_to;
  pol_using : option (condition R);
  pol_with_check : option (condition R);
}.
Arguments pol_name {R}.
Arguments pol_for {R}.
Arguments pol_to {R}.
Arguments pol_using {R}.
Arguments pol_with_check {R}.

(** [USING (true)]. *)
Definition sql_true {R} : condition R := fun _ _ _ => Some true.

(** [USING (public.has_role(auth.uid(), 'admin'))]. *)
Definition caller_is_admin {R} : condition R :=
  fun db c _ => Some (has_role db (auth_uid c) (Some admin)).

Definition profiles_policies : list (policy profiles.row) := [
  {| pol_name := "Public profiles are viewable by everyone";
     pol_for := FOR SELECT; pol_to := TO_PUBLIC;
     pol_using := Some sql_true; pol_with_check := None |};
  {| pol_name := "Users can update own profile";
     pol_for := FOR UPDATE; pol_to := TO_PUBLIC;
     pol_using := Some (fun _ c r => sql_eq (auth_uid c) (profiles.id r));
     pol_with_check := None |};
  {| pol_name := "Users can insert own profile";
     pol_for := FOR INSERT; pol_to := TO_PUBLIC;
     pol_using := None;
     pol_with_check := Some (fun _ c r => sql_eq (auth_uid c) (profiles.id r)) |}
].

Definition user_roles_policies : list (policy user_roles.row) := [
  {| pol_name := "User roles viewable by authenticated users";
     pol_for := FOR SELECT; pol_to := TO authenticated;
     pol_using := Some sql_true; pol_with_check := None |};
  {| pol_name := "Only admins can manage user roles";
     pol_for := FOR_ALL; pol_to := TO_PUBLIC;
     pol_using := Some caller_is_admin; pol_with_check := None |}
].

Definition news_policies : list (policy news.row) := [
  {| pol_name := "News viewable by everyone";
     pol_for := FOR SELECT; pol_to := TO_PUBLIC;
     pol_using := Some sql_true; pol_with_check := None |};
  {| pol_name := "Admins can manage news";
     pol_for := FOR_ALL; pol_to := TO_PUBLIC;
     pol_using := Some caller_is_admin; pol_with_check := None |}
].

Definition staff_policies : list (policy staff.row) := [
  {| pol_name := "Staff viewable by everyone";
     pol_for := FOR SELECT; pol_to := TO_PUBLIC;
     pol_using := Some sql_true; pol_with_check := None |};
  {| pol_name := "Admins can manage staff";
     pol_for := FOR_ALL; pol_to := TO_PUBLIC;
     pol_using := Some caller_is_admin; pol_with_check := None |}
].

Definition activities_policies : list (policy activities.row) := [
  {| pol_name := "Activities viewable by everyone";
     pol_for := FOR SELECT; pol_to := TO_PUBLIC;
     pol_using := Some sql_true; pol_with_check := None |};
  {| pol_name := "Admins can manage activities";
     pol_for := FOR_ALL; pol_to := TO_PUBLIC;
     pol_using := Some caller_is_admin; pol_with_check := None |}
].

(** Whether a policy is among those of a command issued by a caller: its
    [FOR] names the command or [ALL], its [TO] names the caller's role or
    nobody in particular. *)
Definition applies {R} (p : policy R) (cmd : command) (c : caller) : bool :=
  match pol_for p with
  | FOR_ALL => true
  | FOR k => bool_decide (k = cmd)
  end
  && match pol_to p with
     | TO_PUBLIC => true
     | TO r => bool_decide (r = current_role c)
     end.

(** The condition a policy puts on a row being written: its [WITH CHECK],
    and its [USING] when it declares no [WITH CHECK] (PostgreSQL, CREATE
    POLICY: if only a USING clause is specified, that clause will be used
    for both USING and WITH CHECK cases). *)
Definition check_condition {R} (p : policy R) : option (condition R) :=
  match pol_with_check p with
  | Some e => Some e
  | None => pol_using p
  end.

Definition condition_holds {R} (e : option (condition R))
    (db : database) (c : caller) (r : R) : bool :=
  match e with
  | Some e => holds (e db c r)
  | None => false
  end.

(** Row-level security is enabled on every table and every policy is
    permissive: an existing row is available to a command when the [USING]
    of some policy of that command holds of it, and to no command when no
    policy applies (the default is to deny). *)
Definition using_passes {R} (ps : list (policy R)) (cmd : command)
    (db : database) (c : caller) (r : R) : bool :=
  existsb (fun p => applies p cmd c && condition_holds (pol_using p) db c r) ps.

(** A row being written is accepted when the check condition of some policy
    of the command holds of it. *)
Definition check_passes {R} (ps : list (policy R)) (cmd : command)
    (db : database) (c : caller) (r : R) : bool :=
  existsb (fun p => applies p cmd c && condition_holds (check_condition p) db c r) ps.

(** ** Statements *)

(** The errors a statement ends with (their SQLSTATE in the comment). *)
Inductive sql_error :=
| insufficient_privilege   (* 42501: new row violates row-level security policy *)
| not_null_violation       (* 23502 *)
| unique_violation         (* 23505 *)
| foreign_key_violation    (* 23503 *)
| invalid_datetime_format. (* 22007: invalid input syntax for a timestamp *)

Inductive result (A : Type) := Ok (a : A) | Err (e : sql_error).
Arguments Ok {A} a.
Arguments Err {A} e.

(** Statements run in the error monad: the first failing check ends the
    statement, and nothing of it is kept. *)
Global Instance result_bind : MBind result := fun A B k m =>
  match m with
  | Ok a => k a
  | Err e => Err e
  end.

(** A check that ends the statement with [e] when it fails. *)
Definition require (b : bool) (e : sql_error) : result unit :=
  if b then Ok tt else Err e.

(** [x IS NULL]. *)
Definition is_null {A} (x : option A) : bool :=
  match x with None => true | Some _ => false end.

(** A foreign key value resolves when it is [NULL] or among the keys. *)
Definition resolves (k : option uuid) (keys : list (option uuid)) : bool :=
  is_null k || existsb (fun k' => holds (sql_eq k k')) keys.

(** A key is referenced when some foreign key value equals it. *)
Definition referenced (k : option uuid) (refs : list (option uuid)) : bool :=
  existsb (fun k' => holds (sql_eq k' k)) refs.

(** What a statement draws from outside the store: the time [NOW()] gives
    throughout its transaction, and the identifier [uuid_generate_v4()]
    produces for it. *)
Record moment := { NOW : timestamptz; uuid_generate_v4 : uuid }.

(** What the migration declares about one table: where its rows live, its
    policies, how a row is built and changed, its triggers and constraints. *)
Record table (R A : Type) := {
  rows : database -> list R;
  with_rows : list R -> database -> database;
  policies : list (policy R);
  (* INSERT: the given columns, and the DEFAULT of the others *)
  new_row : moment -> A -> R;
  (* UPDATE ... SET: the given columns over the old row *)
  set_row : A -> R -> R;
  (* the BEFORE UPDATE ... FOR EACH ROW triggers *)
  before_update : moment -> R -> R;
  (* the NOT NULL columns (those of the primary key among them) are set *)
  not_null : R -> bool;
  (* two rows share the primary key, or a UNIQUE key *)
  conflicts : R -> R -> bool;
  (* the column that REFERENCES another table, and the keys of that table *)
  foreign_key : R -> option uuid;
  target : database -> list (option uuid);
  (* a key of the old row that the new row no longer has is referenced *)
  key_in_use : database -> R -> R -> bool;
  (* the referential actions of the foreign keys that reference the row *)
  on_delete : R -> database -> result database;
}.
Arguments rows {R A}.
Arguments with_rows {R A}.
Arguments policies {R A}.
Arguments new_row {R A}.
Arguments set_row {R A}.
Arguments before_update {R A}.
Arguments not_null {R A}.
Arguments conflicts {R A}.
Arguments foreign_key {R A}.
Arguments target {R A}.
Arguments key_in_use {R A}.
Arguments on_delete {R A}.

Section Statements.
Context {R A : Type} (T : table R A).

(** The foreign key of a row resolves. *)
Definition references_ok (db : database) (r : R) : bool :=
  resolves (foreign_key T r) (target T db).

(** The rows a [SELECT] returns to the caller. *)
Definition exec_select (c : caller) (where_ : R -> bool) (db : database) : list R :=
  List.filter (fun r => where_ r && using_passes (policies T) SELECT db c r)
              (rows T db).

(** The constraints of a new row, and the row stored. This is the whole of
    an [INSERT] for the owner of the table, whom row-level security does
    not bind: the [SECURITY DEFINER] trigger functions run as the owner. *)
Definition insert_row (new : R) (db : database) : result database :=
  _ ← require (not_null T new) not_null_violation;
  _ ← require (negb (existsb (conflicts T new) (rows T db))) unique_violation;
  _ ← require (references_ok db new) foreign_key_violation;
  Ok (with_rows T (rows T db ++ [new]) db).

(** [INSERT INTO table (..) VALUES (..)] through the API, nothing returned.
    The policies are checked on the new row before its constraints are,
    and a row they do not accept is an error (new row violates row-level
    security policy). *)
Definition exec_insert (c : caller) (m : moment) (a : A) (db : database)
    : result database :=
  let new := new_row T m a in
  _ ← require (check_passes (policies T) INSERT db c new) insufficient_privilege;
  insert_row new db.

(** The rows an [UPDATE] or [DELETE] with a [WHERE] reaches: those the
    caller may read and the command's [USING] lets through. The others are
    passed over without an error (PostgreSQL, CREATE POLICY: rows for
    which the USING expression returns false or null will not be available
    for modification; such rows are silently suppressed, no error is
    reported). *)
Definition reaches (cmd : command) (c : caller) (where_ : R -> bool)
    (db : database) (r : R) : bool :=
  where_ r && using_passes (policies T) SELECT db c r
           && using_passes (policies T) cmd db c r.

(** One row of an [UPDATE]: the [SET] columns, the triggers, the policies
    on the new row (it must pass the [UPDATE] check and stay readable),
    then the constraints against the other rows of the table. *)
Definition update_row (c : caller) (m : moment) (a : A) (db : database)
    (others : list R) (old : R) : result R :=
  let new := before_update T m (set_row T a old) in
  _ ← require (check_passes (policies T) UPDATE db c new
               && using_passes (policies T) SELECT db c new) insufficient_privilege;
  _ ← require (not_null T new) not_null_violation;
  _ ← require (negb (existsb (conflicts T new) others)) unique_violation;
  _ ← require (references_ok db new && negb (key_in_use T db old new))
              foreign_key_violation;
  Ok new.

(** The rows of the table, one after the other; [done] are the rows already
    gone through. The result counts the rows updated. *)
Fixpoint update_rows (hit : R -> bool) (upd : list R -> R -> result R)
    (done todo : list R) : result (list R * nat) :=
  match todo with
  | [] => Ok (done, 0)
  | r :: rest =>
      if hit r then
        r' ← upd (done ++ rest) r;
        res ← update_rows hit upd (done ++ [r']) rest;
        Ok (res.1, S res.2)
      else update_rows hit upd (done ++ [r]) rest
  end.

(** [UPDATE table SET .. WHERE ..] through the API: the new store and the
    number of rows updated. *)
Definition exec_update (c : caller) (m : moment) (a : A)
    (where_ : R -> bool) (db : database) : result (database * nat) :=
  res ← update_rows (reaches UPDATE c where_ db) (update_row c m a db)
                    [] (rows T db);
  Ok (with_rows T res.1 db, res.2).

(** The referential actions for each deleted row, in turn. *)
Fixpoint delete_actions (victims : list R) (db : database) : result database :=
  match victims with
  | [] => Ok db
  | r :: rest => db' ← on_delete T r db; delete_actions rest db'
  end.

(** The rows [hit] leave the table and the foreign keys that reference them
    act. This is the whole of a [DELETE] for the owner of the table, and
    of a cascade into the table: referential actions are not subject to
    row-level security. *)
Definition delete_rows (hit : R -> bool) (db : database) : result (database * nat) :=
  let victims := List.filter hit (rows T db) in
  db' ← delete_actions victims
          (with_rows T (List.filter (fun r => negb (hit r)) (rows T db)) db);
  Ok (db', length victims).

(** [DELETE FROM table WHERE ..] through the API: the new store and the
    number of rows deleted. *)
Definition exec_delete (c : caller) (where_ : R -> bool) (db : database)
    : result (database * nat) :=
  delete_rows (reaches DELETE c where_ db) db.
End Statements.

(** ** The schema as table descriptions *)

Definition with_auth_users_rows (l : list auth_users.row) (db : database) : database :=
  {| auth_users_rows := l; profiles_rows := profiles_rows db;
     user_roles_rows := user_roles_rows db; news_rows := news_rows db;
     staff_rows := staff_rows db; activities_rows := activities_rows db |}.

Definition with_profiles_rows (l : list profiles.row) (db : database) : database :=
  {| auth_users_rows := auth_users_rows db; profiles_rows := l;
     user_roles_rows := user_roles_rows db; news_rows := news_rows db;
     staff_rows := staff_rows db; activities_rows := activities_rows db |}.

Definition with_user_roles_rows (l : list user_roles.row) (db : database) : database :=
  {| auth_users_rows := auth_users_rows db; profiles_rows := profiles_rows db;
     user_roles_rows := l; news_rows := news_rows db;
     staff_rows := staff_rows db; activities_rows := activities_rows db |}.

Definition with_news_rows (l : list news.row) (db : database) : database :=
  {| auth_users_rows := auth_users_rows db; profiles_rows := profiles_rows db;
     user_roles_rows := user_roles_rows db; news_rows := l;
     staff_rows := staff_rows db; activities_rows := activities_rows db |}.

Definition with_staff_rows (l : list staff.row) (db : database) : database :=
  {| auth_users_rows := auth_users_rows db; profiles_rows := profiles_rows db;
     user_roles_rows := user_roles_rows db; news_rows := news_rows db;
     staff_rows := l; activities_rows := activities_rows db |}.

Definition with_activities_rows (l : list activities.row) (db : database) : database :=
  {| auth_users_rows := auth_users_rows db; profiles_rows := profiles_rows db;
     user_roles_rows := user_roles_rows db; news_rows := news_rows db;
     staff_rows := staff_rows db; activities_rows := l |}.

(** *** [handle_updated_at] *)

(** The tables with an [updated_at] column. *)
Class has_updated_at (R : Type) := {
  get_updated_at : R -> option timestamptz;
  set_updated_at : option timestamptz -> R -> R;
}.

Global Instance profiles_updated_at : has_updated_at profiles.row := {|
  get_updated_at := profiles.updated_at;
  set_updated_at t r :=
    {| profiles.id := profiles.id r; profiles.email := profiles.email r;
       profiles.full_name := profiles.full_name r;
       profiles.avatar_url := profiles.avatar_url r;
       profiles.created_at := profiles.created_at r;
       profiles.updated_at := t |} |}.

Global Instance news_updated_at : has_updated_at news.row := {|
  get_updated_at := news.updated_at;
  set_updated_at t r :=
    {| news.id := news.id r; news.title := news.title r;
       news.content := news.content r; news.image_url := news.image_url r;
       news.published_date := news.published_date r;
       news.created_by := news.created_by r;
       news.created_at := news.created_at r; news.updated_at := t |} |}.

Global Instance staff_updated_at : has_updated_at staff.row := {|
  get_updated_at := staff.updated_at;
  set_updated_at t r :=
    {| staff.id := staff.id r; staff.full_name := staff.full_name r;
       staff.position := staff.position r; staff.department := staff.department r;
       staff.email := staff.email r; staff.phone := staff.phone r;
       staff.image_url := staff.image_url r; staff.bio := staff.bio r;
       staff.created_by := staff.created_by r;
       staff.created_at := staff.created_at r; staff.updated_at := t |} |}.

Global Instance activities_updated_at : has_updated_at activities.row := {|
  get_updated_at := activities.updated_at;
  set_updated_at t r :=
    {| activities.id := activities.id r; activities.title := activities.title r;
       activities.description := activities.description r;
       activities.activity_date := activities.activity_date r;
       activities.location := activities.location r;
       activities.image_url := activities.image_url r;
       activities.created_by := activities.created_by r;
       activities.created_at := activities.created_at r;
       activities.updated_at := t |} |}.

(** [CREATE FUNCTION public.handle_updated_at() RETURNS TRIGGER]:
    [NEW.updated_at = NOW(); RETURN NEW;]. *)
Definition handle_updated_at {R} `{has_updated_at R} (m : moment) (NEW : R) : R :=
  set_updated_at (Some (NOW m)) NEW.

(** *** [public.profiles] *)

(** The foreign keys that reference [profiles(id)] without an [ON DELETE] or
    [ON UPDATE] clause: the [created_by] of the three content tables. *)
Definition authored (db : database) (k : option uuid) : bool :=
  referenced k (map news.created_by (news_rows db))
  || referenced k (map staff.created_by (staff_rows db))
  || referenced k (map activities.created_by (activities_rows db)).

(** A profile's key is in use while a role assignment or a content row names
    it. *)
Definition in_use (db : database) (k : option uuid) : bool :=
  referenced k (map user_roles.user_id (user_roles_rows db)) || authored db k.

Definition profiles_table : table profiles.row profiles.args := {|
  rows := profiles_rows;
  with_rows := with_profiles_rows;
  policies := profiles_policies;
  new_row m a :=
    {| profiles.id := or_default (profiles.id' a) None;
       profiles.email := or_default (profiles.email' a) None;
       profiles.full_name := or_default (profiles.full_name' a) None;
       profiles.avatar_url := or_default (profiles.avatar_url' a) None;
       profiles.created_at := or_default (profiles.created_at' a) (Some (NOW m));
       profiles.updated_at := or_default (profiles.updated_at' a) (Some (NOW m)) |};
  set_row a old :=
    {| profiles.id := or_keep (profiles.id' a) (profiles.id old);
       profiles.email := or_keep (profiles.email' a) (profiles.email old);
       profiles.full_name := or_keep (profiles.full_name' a) (profiles.full_name old);
       profiles.avatar_url := or_keep (profiles.avatar_url' a) (profiles.avatar_url old);
       profiles.created_at := or_keep (profiles.created_at' a) (profiles.created_at old);
       profiles.updated_at := or_keep (profiles.updated_at' a) (profiles.updated_at old) |};
  (* update_profiles_updated_at *)
  before_update := handle_updated_at;
  not_null r := negb (is_null (profiles.id r)) && negb (is_null (profiles.email r));
  conflicts r1 r2 := holds (sql_eq (profiles.id r1) (profiles.id r2));
  (* id REFERENCES auth.users(id) *)
  foreign_key := profiles.id;
  target db := map auth_users.id (auth_users_rows db);
  (* user_roles.user_id and the created_by columns reference id; none of them
     has an ON UPDATE clause *)
  key_in_use db old new :=
    negb (holds (sql_eq (profiles.id old) (profiles.id new)))
    && in_use db (profiles.id old);
  (* created_by REFERENCES profiles(id): no action, the delete fails while a
     content row names the profile;
     user_roles.user_id REFERENCES profiles(id) ON DELETE CASCADE *)
  on_delete r db :=
    _ ← require (negb (authored db (profiles.id r))) foreign_key_violation;
    Ok (with_user_roles_rows
          (List.filter (fun ur => negb (holds (sql_eq (user_roles.user_id ur) (profiles.id r))))
                       (user_roles_rows db))
          db);
|}.

(** *** [public.user_roles] *)

Definition user_roles_table : table user_roles.row user_roles.args := {|
  rows := user_roles_rows;
  with_rows := with_user_roles_rows;
  policies := user_roles_policies;
  new_row m a :=
    {| user_roles.id := or_default (user_roles.id' a) (Some (uuid_generate_v4 m));
       user_roles.user_id := or_default (user_roles.user_id' a) None;
       user_roles.role := or_default (user_roles.role' a) (Some user);
       user_roles.created_at := or_default (user_roles.created_at' a) (Some (NOW m)) |};
  set_row a old :=
    {| user_roles.id := or_keep (user_roles.id' a) (user_roles.id old);
       user_roles.user_id := or_keep (user_roles.user_id' a) (user_roles.user_id old);
       user_roles.role := or_keep (user_roles.role' a) (user_roles.role old);
       user_roles.created_at := or_keep (user_roles.created_at' a) (user_roles.created_at old) |};
  before_update _ r := r;
  not_null r :=
    negb (is_null (user_roles.id r)) && negb (is_null (user_roles.user_id r))
    && negb (is_null (user_roles.role r));
  (* PRIMARY KEY (id), UNIQUE (user_id, role) *)
  conflicts r1 r2 :=
    holds (sql_eq (user_roles.id r1) (user_roles.id r2))
    || holds (sql_and (sql_eq (user_roles.user_id r1) (user_roles.user_id r2))
                      (sql_eq (user_roles.role r1) (user_roles.role r2)));
  (* user_id REFERENCES profiles(id) *)
  foreign_key := user_roles.user_id;
  target db := map profiles.id (profiles_rows db);
  key_in_use _ _ _ := false;
  on_delete _ db := Ok db;
|}.

(** *** [public.news], [public.staff], [public.activities] *)

Definition news_table : table news.row news.args := {|
  rows := news_rows;
  with_rows := with_news_rows;
  policies := news_policies;
  new_row m a :=
    {| news.id := or_default (news.id' a) (Some (uuid_generate_v4 m));
       news.title := or_default (news.title' a) None;
       news.content := or_default (news.content' a) None;
       news.image_url := or_default (news.image_url' a) None;
       news.published_date := or_default (news.published_date' a) (Some (NOW m));
       news.created_by := or_default (news.created_by' a) None;
       news.created_at := or_default (news.created_at' a) (Some (NOW m));
       news.updated_at := or_default (news.updated_at' a) (Some (NOW m)) |};
  set_row a old :=
    {| news.id := or_keep (news.id' a) (news.id old);
       news.title := or_keep (news.title' a) (news.title old);
       news.content := or_keep (news.content' a) (news.content old);
       news.image_url := or_keep (news.image_url' a) (news.image_url old);
       news.published_date := or_keep (news.published_date' a) (news.published_date old);
       news.created_by := or_keep (news.created_by' a) (news.created_by old);
       news.created_at := or_keep (news.created_at' a) (news.created_at old);
       news.updated_at := or_keep (news.updated_at' a) (news.updated_at old) |};
  (* update_news_updated_at *)
  before_update := handle_updated_at;
  not_null r :=
    negb (is_null (news.id r)) && negb (is_null (news.title r))
    && negb (is_null (news.content r));
  conflicts r1 r2 := holds (sql_eq (news.id r1) (news.id r2));
  (* created_by REFERENCES profiles(id) *)
  foreign_key := news.created_by;
  target db := map profiles.id (profiles_rows db);
  key_in_use _ _ _ := false;
  on_delete _ db := Ok db;
|}.

Definition staff_table : table staff.row staff.args := {|
  rows := staff_rows;
  with_rows := with_staff_rows;
  policies := staff_policies;
  new_row m a :=
    {| staff.id := or_default (staff.id' a) (Some (uuid_generate_v4 m));
       staff.full_name := or_default (staff.full_name' a) None;
       staff.position := or_default (staff.position' a) None;
       staff.department := or_default (staff.department' a) None;
       staff.email := or_default (staff.email' a) None;
       staff.phone := or_default (staff.phone' a) None;
       staff.image_url := or_default (staff.image_url' a) None;
       staff.bio := or_default (staff.bio' a) None;
       staff.created_by := or_default (staff.created_by' a) None;
       staff.created_at := or_default (staff.created_at' a) (Some (NOW m));
       staff.updated_at := or_default (staff.updated_at' a) (Some (NOW m)) |};
  set_row a old :=
    {| staff.id := or_keep (staff.id' a) (staff.id old);
       staff.full_name := or_keep (staff.full_name' a) (staff.full_name old);
       staff.position := or_keep (staff.position' a) (staff.position old);
       staff.department := or_keep (staff.department' a) (staff.department old);
       staff.email := or_keep (staff.email' a) (staff.email old);
       staff.phone := or_keep (staff.phone' a) (staff.phone old);
       staff.image_url := or_keep (staff.image_url' a) (staff.image_url old);
       staff.bio := or_keep (staff.bio' a) (staff.bio old);
       staff.created_by := or_keep (staff.created_by' a) (staff.created_by old);
       staff.created_at := or_keep (staff.created_at' a) (staff.created_at old);
       staff.updated_at := or_keep (staff.updated_at' a) (staff.updated_at old) |};
  (* update_staff_updated_at *)
  before_update := handle_updated_at;
  not_null r :=
    negb (is_null (staff.id r)) && negb (is_null (staff.full_name r))
    && negb (is_null (staff.position r));
  conflicts r1 r2 := holds (sql_eq (staff.id r1) (staff.id r2));
  (* created_by REFERENCES profiles(id) *)
  foreign_key := staff.created_by;
  target db := map profiles.id (profiles_rows db);
  key_in_use _ _ _ := false;
  on_delete _ db := Ok db;
|}.

Definition activities_table : table activities.row activities.args := {|
  rows := activities_rows;
  with_rows := with_activities_rows;
  policies := activities_policies;
  new_row m a :=
    {| activities.id := or_default (activities.id' a) (Some (uuid_generate_v4 m));
       activities.title := or_default (activities.title' a) None;
       activities.description := or_default (activities.description' a) None;
       activities.activity_date := or_default (activities.activity_date' a) None;
       activities.location := or_default (activities.location' a) None;
       activities.image_url := or_default (activities.image_url' a) None;
       activities.created_by := or_default (activities.created_by' a) None;
       activities.created_at := or_default (activities.created_at' a) (Some (NOW m));
       activities.updated_at := or_default (activities.updated_at' a) (Some (NOW m)) |};
  set_row a old :=
    {| activities.id := or_keep (activities.id' a) (activities.id old);
       activities.title := or_keep (activities.title' a) (activities.title old);
       activities.description := or_keep (activities.description' a) (activities.description old);
       activities.activity_date := or_keep (activities.activity_date' a) (activities.activity_date old);
       activities.location := or_keep (activities.location' a) (activities.location old);
       activities.image_url := or_keep (activities.image_url' a) (activities.image_url old);
       activities.created_by := or_keep (activities.created_by' a) (activities.created_by old);
       activities.created_at := or_keep (activities.created_at' a) (activities.created_at old);
       activities.updated_at := or_keep (activities.updated_at' a) (activities.updated_at old) |};
  (* update_activities_updated_at *)
  before_update := handle_updated_at;
  not_null r :=
    negb (is_null (activities.id r)) && negb (is_null (activities.title r))
    && negb (is_null (activities.description r))
    && negb (is_null (activities.activity_date r));
  conflicts r1 r2 := holds (sql_eq (activities.id r1) (activities.id r2));
  (* created_by REFERENCES profiles(id) *)
  foreign_key := activities.created_by;
  target db := map profiles.id (profiles_rows db);
  key_in_use _ _ _ := false;
  on_delete _ db := Ok db;
|}.

(** ** The auth service's statements on [auth.users] *)

(** [CREATE FUNCTION public.handle_new_user() RETURNS TRIGGER ... SECURITY
    DEFINER]: [INSERT INTO public.profiles (id, email, full_name) VALUES
    (NEW.id, NEW.email, COALESCE(NEW.raw_user_meta_data->>'full_name', ''))]. *)
Definition handle_new_user (m : moment) (NEW : auth_users.row) (db : database)
    : result database :=
  insert_row profiles_table
    (new_row profiles_table m
       {| profiles.id' := given (auth_users.id NEW);
          profiles.email' := given (auth_users.email NEW);
          profiles.full_name' :=
            given (COALESCE (json_get_text (auth_users.raw_user_meta_data NEW) "full_name") "");
          profiles.avatar_url' := absent;
          profiles.created_at' := absent;
          profiles.updated_at' := absent |})
    db.

(** Registration: the auth service inserts the identity into [auth.users]
    (whose primary key is [id]), and [on_auth_user_created] runs
    [handle_new_user] [AFTER INSERT ... FOR EACH ROW] in the same
    transaction. An error of either step leaves nothing behind. *)
Definition register (m : moment) (u : auth_users.row) (db : database) : result database :=
  _ ← require (negb (is_null (auth_users.id u))) not_null_violation;
  _ ← require (negb (existsb (fun u' => holds (sql_eq (auth_users.id u) (auth_users.id u')))
                              (auth_users_rows db))) unique_violation;
  handle_new_user m u (with_auth_users_rows (auth_users_rows db ++ [u]) db).

(** [WHERE id = pid] on [profiles]. *)
Definition keyed (pid : uuid) (r : profiles.row) : bool :=
  holds (sql_eq (profiles.id r) (Some pid)).

(** Deletion of a profile by key, as the owner of the table or by a cascade. *)
Definition delete_profile (pid : uuid) (db : database) : result (database * nat) :=
  delete_rows profiles_table (keyed pid) db.

(** The auth service deletes an identity: [profiles.id REFERENCES
    auth.users(id) ON DELETE CASCADE] deletes its profile with it. *)
Definition delete_user (uid : uuid) (db : database) : result database :=
  res ← delete_profile uid
          (with_auth_users_rows
             (List.filter (fun u => negb (holds (sql_eq (auth_users.id u) (Some uid))))
                          (auth_users_rows db))
             db);
  Ok res.1.

(** [has_role(auth.uid(), 'admin')] for the caller. *)
Definition is_admin (db : database) (c : caller) : bool :=
  has_role db (auth_uid c) (Some admin).

(** ** Storage *)

(** [storage.buckets], the columns the migration sets. *)
Module storage_buckets.
Record row := {
  id : option string;
  name : option string;
  public : option bool;
}.
End storage_buckets.

(** [INSERT INTO storage.buckets (id, name, public) VALUES ...]: the buckets
    the migration creates. *)
Definition storage_buckets_rows : list storage_buckets.row := [
  {| storage_buckets.id := Some "news-images";
     storage_buckets.name := Some "news-images";
     storage_buckets.public := Some true |};
  {| storage_buckets.id := Some "staff-images";
     storage_buckets.name := Some "staff-images";
     storage_buckets.public := Some true |};
  {| storage_buckets.id := Some "activity-images";
     storage_buckets.name := Some "activity-images";
     storage_buckets.public := Some true |}
].

(** [storage.objects], as far as the policies of the migration read it: the
    bucket an object lies in. *)
Module storage_objects.
Record row := { bucket_id : option string }.
End storage_objects.

(** [USING (bucket_id = b)]. *)
Definition in_bucket (b : string) : condition storage_objects.row :=
  fun _ _ o => sql_eq (storage_objects.bucket_id o) (Some b).

(** [bucket_id = b AND public.has_role(auth.uid(), 'admin')]. *)
Definition in_bucket_as_admin (b : string) : condition storage_objects.row :=
  fun db c o =>
    sql_and (sql_eq (storage_objects.bucket_id o) (Some b))
            (Some (has_role db (auth_uid c) (Some admin))).

(** The policies the migration creates on [storage.objects], in its order.
    Row-level security is enabled on that table by the platform, so they are
    read by the rules above: the policies are permissive, and an object no
    policy of a command lets through is not available to the command. *)
Definition storage_objects_policies : list (policy storage_objects.row) := [
  {| pol_name := "News images are publicly accessible";
     pol_for := FOR SELECT; pol_to := TO_PUBLIC;
     pol_using := Some (in_bucket "news-images"); pol_with_check := None |};
  {| pol_name := "Admins can upload news images";
     pol_for := FOR INSERT; pol_to := TO_PUBLIC;
     pol_using := None;
     pol_with_check := Some (in_bucket_as_admin "news-images") |};
  {| pol_name := "Admins can update news images";
     pol_for := FOR UPDATE; pol_to := TO_PUBLIC;
     pol_using := Some (in_bucket_as_admin "news-images"); pol_with_check := None |};
  {| pol_name := "Admins can delete news images";
     pol_for := FOR DELETE; pol_to := TO_PUBLIC;
     pol_using := Some (in_bucket_as_admin "news-images"); pol_with_check := None |};
  {| pol_name := "Staff images are publicly accessible";
     pol_for := FOR SELECT; pol_to := TO_PUBLIC;
     pol_using := Some (in_bucket "staff-images"); pol_with_check := None |};
  {| pol_name := "Admins can upload staff images";
     pol_for := FOR INSERT; pol_to := TO_PUBLIC;
     pol_using := None;
     pol_with_check := Some (in_bucket_as_admin "staff-images") |};
  {| pol_name := "Admins can update staff images";
     pol_for := FOR UPDATE; pol_to := TO_PUBLIC;
     pol_using := Some (in_bucket_as_admin "staff-images"); pol_with_check := None |};
  {| pol_name := "Admins can delete staff images";
     pol_for := FOR DELETE; pol_to := TO_PUBLIC;
     pol_using := Some (in_bucket_as_admin "staff-images"); pol_with_check := None |};
  {| pol_name := "Activity images are publicly accessible";
     pol_for := FOR SELECT; pol_to := TO_PUBLIC;
     pol_using := Some (in_bucket "activity-images"); pol_with_check := None |};
  {| pol_name := "Admins can upload activity images";
     pol_for := FOR INSERT; pol_to := TO_PUBLIC;
     pol_using := None;
     pol_with_check := Some (in_bucket_as_admin "activity-images") |};
  {| pol_name := "Admins can update activity images";
     pol_for := FOR UPDATE; pol_to := TO_PUBLIC;
     pol_using := Some (in_bucket_as_admin "activity-images"); pol_with_check := None |};
  {| pol_name := "Admins can delete activity images";
     pol_for := FOR DELETE; pol_to := TO_PUBLIC;
     pol_using := Some (in_bucket_as_admin "activity-images"); pol_with_check := None |}
].

(** * The admin panels *)

(** ** What the panels run on *)

(** The conversions between instants and text that happen outside the
    repository: in the API, in the store and in the browser. The panels are
    embedded over any such platform. *)
Class platform := {
  (* the text of a timestamptz in the JSON the API returns *)
  timestamptz_out : timestamptz -> string;
  (* the instant the store reads from text; None: invalid input syntax *)
  timestamptz_in : string -> option timestamptz;
  (* new Date(s).toISOString(); None: RangeError, the date is invalid *)
  Date_toISOString : string -> option string;
}.

(** Under which a handler runs: who is signed in at the client, what the
    store draws for the statement, and whether the API can be reached. *)
Record env := { who : caller; at_ : moment; online : bool }.

Inductive failure := database_error (e : sql_error) | fetch_failed.

(** The [{ data, error }] of a call of the client. *)
Inductive response (A : Type) := data (a : A) | error (e : failure).
Arguments data {A} a.
Arguments error {A} e.

Definition request {A} (e : env) (r : result A) : response A :=
  if online e then
    match r with
    | Ok a => data a
    | Err x => error (database_error x)
    end
  else error fetch_failed.

(** [x || ""] on a [string | null]: the empty string for [null] (and for the
    empty string, which is falsy too). *)
Definition or_empty (x : option string) : string :=
  match x with
  | Some s => if bool_decide (s = "") then "" else s
  | None => ""
  end.

(** [if (editingId)]: the identifier when it is truthy, that is neither
    [null] nor the empty string. *)
Definition truthy (x : option string) : option string :=
  match x with
  | Some s => if bool_decide (s = "") then None else Some s
  | None => None
  end.

(** [ORDER BY key DESC]: [NULL]s come first, then the later instants before
    the earlier ones. *)
Definition desc_nulls_first (x y : option timestamptz) : Prop :=
  match x, y with
  | None, _ => True
  | Some _, None => False
  | Some a, Some b => (b <= a)%Z
  end.

Global Instance desc_nulls_first_dec x y : Decision (desc_nulls_first x y).
Proof. destruct x, y; simpl; apply _. Defined.

(** [.order(column, { ascending: false })]. *)
Definition order_desc {R} (key : R -> option timestamptz) (l : list R) : list R :=
  merge_sort (fun a b => desc_nulls_first (key a) (key b)) l.

Inductive toast := toast_success | toast_error.

(** ** [NewsManager] *)

Module NewsManager.

Module News.
Record t := {
  id : string;
  title : string;
  content : string;
  image_url : option string;
  published_date : string;
}.
End News.

Module formData.
Record t := { title : string; content : string; image_url : string }.
End formData.

Record state := {
  newsList : list News.t;
  loading : bool;
  editingId : option string;
  formData : formData.t;
  toasts : list toast;
}.

Definition empty_form : formData.t :=
  {| formData.title := ""; formData.content := ""; formData.image_url := "" |}.

(** The state the component mounts with. *)
Definition initial : state :=
  {| newsList := []; loading := true; editingId := None;
     formData := empty_form; toasts := [] |}.

Definition setNewsList (l : list News.t) (st : state) : state :=
  {| newsList := l; loading := loading st; editingId := editingId st;
     formData := formData st; toasts := toasts st |}.
Definition setLoading (b : bool) (st : state) : state :=
  {| newsList := newsList st; loading := b; editingId := editingId st;
     formData := formData st; toasts := toasts st |}.
Definition setEditingId (i : option string) (st : state) : state :=
  {| newsList := newsList st; loading := loading st; editingId := i;
     formData := formData st; toasts := toasts st |}.
Definition setFormData (f : formData.t) (st : state) : state :=
  {| newsList := newsList st; loading := loading st; editingId := editingId st;
     formData := f; toasts := toasts st |}.
Definition show (t : toast) (st : state) : state :=
  {| newsList := newsList st; loading := loading st; editingId := editingId st;
     formData := formData st; toasts := toasts st ++ [t] |}.

(** The three inputs of the form: [setFormData({ ...formData, field: value })]. *)
Definition onChange_title (v : string) (st : state) : state :=
  setFormData {| formData.title := v;
                 formData.content := formData.content (formData st);
                 formData.image_url := formData.image_url (formData st) |} st.
Definition onChange_content (v : string) (st : state) : state :=
  setFormData {| formData.title := formData.title (formData st);
                 formData.content := v;
                 formData.image_url := formData.image_url (formData st) |} st.
Definition onChange_image_url (v : string) (st : state) : state :=
  setFormData {| formData.title := formData.title (formData st);
                 formData.content := formData.content (formData st);
                 formData.image_url := v |} st.

(** The columns the form sends, in [insert([formData])] and in
    [update(formData)] alike. *)
Definition body (f : formData.t) : news.args :=
  {| news.id' := absent;
     news.title' := given (Some (formData.title f));
     news.content' := given (Some (formData.content f));
     news.image_url' := given (Some (formData.image_url f));
     news.published_date' := absent;
     news.created_by' := absent;
     news.created_at' := absent;
     news.updated_at' := absent |}.

(** [.eq("id", id)]. *)
Definition eq_id (i : uuid) (r : news.row) : bool :=
  holds (sql_eq (news.id r) (Some i)).

Section Handlers.
Context `{platform}.

(** A row of [select("*")] read at the interface [News]. The interface
    declares [id], [title], [content] and [published_date] as strings;
    should the store hold a [NULL] there the empty string stands for it
    here. *)
Definition of_row (r : news.row) : News.t :=
  {| News.id := default "" (news.id r);
     News.title := default "" (news.title r);
     News.content := default "" (news.content r);
     News.image_url := news.image_url r;
     News.published_date := default "" (timestamptz_out <$> news.published_date r) |}.

Definition fetchNews (e : env) (st : state) (db : database) : state :=
  match request e (Ok (order_desc news.published_date
                         (exec_select news_table (who e) (fun _ => true) db))) with
  | data rows => setLoading false (setNewsList (map of_row rows) st)
  | error _ => setLoading false (show toast_error st)
  end.

(** The call [handleSubmit] awaits: an update of the row being edited,
    or else an insert. *)
Definition save (e : env) (st : state) (db : database) : response database :=
  match truthy (editingId st) with
  | Some i =>
      request e (res ← exec_update news_table (who e) (at_ e)
                         (body (formData st)) (eq_id i) db;
                 Ok res.1)
  | None =>
      request e (exec_insert news_table (who e) (at_ e) (body (formData st)) db)
  end.

Definition handleSubmit (e : env) (st : state) (db : database) : state * database :=
  match save e st db with
  | data db' =>
      let st := show toast_success st in
      let st := setFormData empty_form st in
      let st := setEditingId None st in
      (fetchNews e st db', db')
  | error _ => (show toast_error st, db)
  end.

Definition handleEdit (news : News.t) (st : state) : state :=
  let st := setEditingId (Some (News.id news)) st in
  setFormData {| formData.title := News.title news;
                 formData.content := News.content news;
                 formData.image_url := or_empty (News.image_url news) |} st.

(** [confirmed] is the answer to the [confirm] dialog. *)
Definition handleDelete (confirmed : bool) (i : string) (e : env)
    (st : state) (db : database) : state * database :=
  if negb confirmed then (st, db)
  else
    match request e (exec_delete news_table (who e) (eq_id i) db) with
    | data res =>
        let st := show toast_success st in
        (fetchNews e st res.1, res.1)
    | error _ => (show toast_error st, db)
    end.

Definition handleCancel (st : state) : state :=
  let st := setEditingId None st in
  setFormData empty_form st.
End Handlers.

End NewsManager.

(** ** [StaffManager] *)

Module StaffManager.

Module Staff.
Record t := {
  id : string;
  full_name : string;
  position : string;
  department : option string;
  email : option string;
  phone : option string;
  image_url : option string;
  bio : option string;
}.
End Staff.

Module formData.
Record t := {
  full_name : string;
  position : string;
  department : string;
  email : string;
  phone : string;
  image_url : string;
  bio : string;
}.
End formData.

Record state := {
  staffList : list Staff.t;
  loading : bool;
  editingId : option string;
  formData : formData.t;
  toasts : list toast;
}.

Definition empty_form : formData.t :=
  {| formData.full_name := ""; formData.position := "";
     formData.department := ""; formData.email := ""; formData.phone := "";
     formData.image_url := ""; formData.bio := "" |}.

Definition initial : state :=
  {| staffList := []; loading := true; editingId := None;
     formData := empty_form; toasts := [] |}.

Definition setStaffList (l : list Staff.t) (st : state) : state :=
  {| staffList := l; loading := loading st; editingId := editingId st;
     formData := formData st; toasts := toasts st |}.
Definition setLoading (b : bool) (st : state) : state :=
  {| staffList := staffList st; loading := b; editingId := editingId st;
     formData := formData st; toasts := toasts st |}.
Definition setEditingId (i : option string) (st : state) : state :=
  {| staffList := staffList st; loading := loading st; editingId := i;
     formData := formData st; toasts := toasts st |}.
Definition setFormData (f : formData.t) (st : state) : state :=
  {| staffList := staffList st; loading := loading st; editingId := editingId st;
     formData := f; toasts := toasts st |}.
Definition show (t : toast) (st : state) : state :=
  {| staffList := staffList st; loading := loading st; editingId := editingId st;
     formData := formData st; toasts := toasts st ++ [t] |}.

(** The inputs of the form, [setFormData({ ...formData, field: value })];
    [field] selects the input. *)
Inductive field := full_name | position | department | email | phone | image_url | bio.

Definition onChange (fd : field) (v : string) (st : state) : state :=
  let f := formData st in
  let pick (k : field) (old : string) : string :=
    match fd, k with
    | full_name, full_name | position, position | department, department
    | email, email | phone, phone | image_url, image_url | bio, bio => v
    | _, _ => old
    end in
  setFormData {| formData.full_name := pick full_name (formData.full_name f);
                 formData.position := pick position (formData.position f);
                 formData.department := pick department (formData.department f);
                 formData.email := pick email (formData.email f);
                 formData.phone := pick phone (formData.phone f);
                 formData.image_url := pick image_url (formData.image_url f);
                 formData.bio := pick bio (formData.bio f) |} st.

Definition body (f : formData.t) : staff.args :=
  {| staff.id' := absent;
     staff.full_name' := given (Some (formData.full_name f));
     staff.position' := given (Some (formData.position f));
     staff.department' := given (Some (formData.department f));
     staff.email' := given (Some (formData.email f));
     staff.phone' := given (Some (formData.phone f));
     staff.image_url' := given (Some (formData.image_url f));
     staff.bio' := given (Some (formData.bio f));
     staff.created_by' := absent;
     staff.created_at' := absent;
     staff.updated_at' := absent |}.

Definition eq_id (i : uuid) (r : staff.row) : bool :=
  holds (sql_eq (staff.id r) (Some i)).

(** A row of [select("*")] read at the interface [Staff] (a [NULL] where
    the interface declares a string reads as the empty string). *)
Definition of_row (r : staff.row) : Staff.t :=
  {| Staff.id := default "" (staff.id r);
     Staff.full_name := default "" (staff.full_name r);
     Staff.position := default "" (staff.position r);
     Staff.department := staff.department r;
     Staff.email := staff.email r;
     Staff.phone := staff.phone r;
     Staff.image_url := staff.image_url r;
     Staff.bio := staff.bio r |}.

Definition fetchStaff (e : env) (st : state) (db : database) : state :=
  match request e (Ok (order_desc staff.created_at
                         (exec_select staff_table (who e) (fun _ => true) db))) with
  | data rows => setLoading false (setStaffList (map of_row rows) st)
  | error _ => setLoading false (show toast_error st)
  end.

(** The call [handleSubmit] awaits: an update of the row being edited, or
    else an insert. *)
Definition save (e : env) (st : state) (db : database) : response database :=
  match truthy (editingId st) with
  | Some i =>
      request e (res ← exec_update staff_table (who e) (at_ e)
                         (body (formData st)) (eq_id i) db;
                 Ok res.1)
  | None =>
      request e (exec_insert staff_table (who e) (at_ e) (body (formData st)) db)
  end.

Definition handleSubmit (e : env) (st : state) (db : database) : state * database :=
  match save e st db with
  | data db' =>
      let st := show toast_success st in
      let st := setFormData empty_form st in
      let st := setEditingId None st in
      (fetchStaff e st db', db')
  | error _ => (show toast_error st, db)
  end.

Definition handleEdit (staff : Staff.t) (st : state) : state :=
  let st := setEditingId (Some (Staff.id staff)) st in
  setFormData {| formData.full_name := Staff.full_name staff;
                 formData.position := Staff.position staff;
                 formData.department := or_empty (Staff.department staff);
                 formData.email := or_empty (Staff.email staff);
                 formData.phone := or_empty (Staff.phone staff);
                 formData.image_url := or_empty (Staff.image_url staff);
                 formData.bio := or_empty (Staff.bio staff) |} st.

Definition handleDelete (confirmed : bool) (i : string) (e : env)
    (st : state) (db : database) : state * database :=
  if negb confirmed then (st, db)
  else
    match request e (exec_delete staff_table (who e) (eq_id i) db) with
    | data res =>
        let st := show toast_success st in
        (fetchStaff e st res.1, res.1)
    | error _ => (show toast_error st, db)
    end.

Definition handleCancel (st : state) : state :=
  let st := setEditingId None st in
  setFormData empty_form st.

End StaffManager.

(** ** [ActivitiesManager] *)

Module ActivitiesManager.

Module Activity.
Record t := {
  id : string;
  title : string;
  description : string;
  activity_date : string;
  location : option string;
  image_url : option string;
}.
End Activity.

Module formData.
Record t := {
  title : string;
  description : string;
  activity_date : string;
  location : string;
  image_url : string;
}.
End formData.

Record state := {
  activitiesList : list Activity.t;
  loading : bool;
  editingId : option string;
  formData : formData.t;
  toasts : list toast;
}.

Definition empty_form : formData.t :=
  {| formData.title := ""; formData.description := "";
     formData.activity_date := ""; formData.location := "";
     formData.image_url := "" |}.

Definition initial : state :=
  {| activitiesList := []; loading := true; editingId := None;
     formData := empty_form; toasts := [] |}.

Definition setActivitiesList (l : list Activity.t) (st : state) : state :=
  {| activitiesList := l; loading := loading st; editingId := editingId st;
     formData := formData st; toasts := toasts st |}.
Definition setLoading (b : bool) (st : state) : state :=
  {| activitiesList := activitiesList st; loading := b; editingId := editingId st;
     formData := formData st; toasts := toasts st |}.
Definition setEditingId (i : option string) (st : state) : state :=
  {| activitiesList := activitiesList st; loading := loading st; editingId := i;
     formData := formData st; toasts := toasts st |}.
Definition setFormData (f : formData.t) (st : state) : state :=
  {| activitiesList := activitiesList st; loading := loading st;
     editingId := editingId st; formData := f; toasts := toasts st |}.
Definition show (t : toast) (st : state) : state :=
  {| activitiesList := activitiesList st; loading := loading st;
     editingId := editingId st; formData := formData st;
     toasts := toasts st ++ [t] |}.

Inductive field := title | description | activity_date | location | image_url.

Definition onChange (fd : field) (v : string) (st : state) : state :=
  let f := formData st in
  let pick (k : field) (old : string) : string :=
    match fd, k with
    | title, title | description, description | activity_date, activity_date
    | location, location | image_url, image_url => v
    | _, _ => old
    end in
  setFormData {| formData.title := pick title (formData.title f);
                 formData.description := pick description (formData.description f);
                 formData.activity_date := pick activity_date (formData.activity_date f);
                 formData.location := pick location (formData.location f);
                 formData.image_url := pick image_url (formData.image_url f) |} st.

Definition eq_id (i : uuid) (r : activities.row) : bool :=
  holds (sql_eq (activities.id r) (Some i)).

Section Handlers.
Context `{platform}.

(** The columns the form sends. The store reads [activity_date] from
    the text of the [datetime-local] input, and the statement fails when
    it cannot. *)
Definition body (f : formData.t) : result activities.args :=
  match timestamptz_in (formData.activity_date f) with
  | None => Err invalid_datetime_format
  | Some t =>
      Ok {| activities.id' := absent;
            activities.title' := given (Some (formData.title f));
            activities.description' := given (Some (formData.description f));
            activities.activity_date' := given (Some t);
            activities.location' := given (Some (formData.location f));
            activities.image_url' := given (Some (formData.image_url f));
            activities.created_by' := absent;
            activities.created_at' := absent;
            activities.updated_at' := absent |}
  end.

(** A row of [select("*")] read at the interface [Activity] (a [NULL]
    where the interface declares a string reads as the empty string). *)
Definition of_row (r : activities.row) : Activity.t :=
  {| Activity.id := default "" (activities.id r);
     Activity.title := default "" (activities.title r);
     Activity.description := default "" (activities.description r);
     Activity.activity_date :=
       default "" (timestamptz_out <$> activities.activity_date r);
     Activity.location := activities.location r;
     Activity.image_url := activities.image_url r |}.

Definition fetchActivities (e : env) (st : state) (db : database) : state :=
  match request e (Ok (order_desc activities.activity_date
                         (exec_select activities_table (who e) (fun _ => true) db))) with
  | data rows => setLoading false (setActivitiesList (map of_row rows) st)
  | error _ => setLoading false (show toast_error st)
  end.

(** The call [handleSubmit] awaits: an update of the row being edited,
    or else an insert. *)
Definition save (e : env) (st : state) (db : database) : response database :=
  match truthy (editingId st) with
  | Some i =>
      request e (a ← body (formData st);
                 res ← exec_update activities_table (who e) (at_ e) a (eq_id i) db;
                 Ok res.1)
  | None =>
      request e (a ← body (formData st);
                 exec_insert activities_table (who e) (at_ e) a db)
  end.

Definition handleSubmit (e : env) (st : state) (db : database) : state * database :=
  match save e st db with
  | data db' =>
      let st := show toast_success st in
      let st := setFormData empty_form st in
      let st := setEditingId None st in
      (fetchActivities e st db', db')
  | error _ => (show toast_error st, db)
  end.

(** [new Date(activity.activity_date).toISOString().slice(0, 16)] fills
    the date input. [setEditingId] has been called when the argument of
    [setFormData] is computed: should the date be invalid the handler
    ends there, with the form as it was. *)
Definition handleEdit (activity : Activity.t) (st : state) : state :=
  let st := setEditingId (Some (Activity.id activity)) st in
  match Date_toISOString (Activity.activity_date activity) with
  | None => st
  | Some iso =>
      setFormData {| formData.title := Activity.title activity;
                     formData.description := Activity.description activity;
                     formData.activity_date := String.substring 0 16 iso;
                     formData.location := or_empty (Activity.location activity);
                     formData.image_url := or_empty (Activity.image_url activity) |} st
  end.

Definition handleDelete (confirmed : bool) (i : string) (e : env)
    (st : state) (db : database) : state * database :=
  if negb confirmed then (st, db)
  else
    match request e (exec_delete activities_table (who e) (eq_id i) db) with
    | data res =>
        let st := show toast_success st in
        (fetchActivities e st res.1, res.1)
    | error _ => (show toast_error st, db)
    end.

Definition handleCancel (st : state) : state :=
  let st := setEditingId None st in
  setFormData empty_form st.
End Handlers.

End ActivitiesManager.

(** ** What the panels render *)

(** The component functions end in the markup they return. It is kept here
    as far as it depends on the state: the placeholder while [loading], and
    otherwise the form and the list. [editing] stands for [editingId] being
    truthy, on which the heading of the form, the label of its submit button
    and the presence of its cancel button depend. An element written
    [x && <..>] is there when [x] is truthy. *)

Module NewsManager_view.

Record card := {
  key : string;
  heading : string;
  text : string;
  image : option string;
  date : string;
}.

Inductive listing := nothing_yet | cards (l : list card).

Inductive view :=
| Loading
| Panel (editing : bool) (form : NewsManager.formData.t) (items : listing).

Section Render.
(* new Date(s).toLocaleDateString("th-TH") *)
Variable Date_toLocaleDateString : string -> string.

Definition card_of (news : NewsManager.News.t) : card :=
  {| key := NewsManager.News.id news;
     heading := NewsManager.News.title news;
     text := NewsManager.News.content news;
     image := truthy (NewsManager.News.image_url news);
     date := Date_toLocaleDateString (NewsManager.News.published_date news) |}.

Definition render (st : NewsManager.state) : view :=
  if NewsManager.loading st then Loading
  else
    Panel (bool_decide (is_Some (truthy (NewsManager.editingId st))))
          (NewsManager.formData st)
          (if bool_decide (length (NewsManager.newsList st) = 0) then nothing_yet
           else cards (map card_of (NewsManager.newsList st))).
End Render.

End NewsManager_view.

Module StaffManager_view.

Record card := {
  key : string;
  image : option string;
  heading : string;
  position : string;
  department : option string;
  email : option string;
  phone : option string;
}.

Inductive listing := nothing_yet | cards (l : list card).

Inductive view :=
| Loading
| Panel (editing : bool) (form : StaffManager.formData.t) (items : listing).

Definition card_of (staff : StaffManager.Staff.t) : card :=
  {| key := StaffManager.Staff.id staff;
     image := truthy (StaffManager.Staff.image_url staff);
     heading := StaffManager.Staff.full_name staff;
     position := StaffManager.Staff.position staff;
     department := truthy (StaffManager.Staff.department staff);
     email := truthy (StaffManager.Staff.email staff);
     phone := truthy (StaffManager.Staff.phone staff) |}.

Definition render (st : StaffManager.state) : view :=
  if StaffManager.loading st then Loading
  else
    Panel (bool_decide (is_Some (truthy (StaffManager.editingId st))))
          (StaffManager.formData st)
          (if bool_decide (length (StaffManager.staffList st) = 0) then nothing_yet
           else cards (map card_of (StaffManager.staffList st))).

End StaffManager_view.

Module ActivitiesManager_view.

Record card := {
  key : string;
  heading : string;
  text : string;
  image : option string;
  date : string;
  location : option string;
}.

Inductive listing := nothing_yet | cards (l : list card).

Inductive view :=
| Loading
| Panel (editing : bool) (form : ActivitiesManager.formData.t) (items : listing).

Section Render.
(* new Date(s).toLocaleString("th-TH") *)
Variable Date_toLocaleString : string -> string.

Definition card_of (activity : ActivitiesManager.Activity.t) : card :=
  {| key := ActivitiesManager.Activity.id activity;
     heading := ActivitiesManager.Activity.title activity;
     text := ActivitiesManager.Activity.description activity;
     image := truthy (ActivitiesManager.Activity.image_url activity);
     date := Date_toLocaleString (ActivitiesManager.Activity.activity_date activity);
     location := truthy (ActivitiesManager.Activity.location activity) |}.

Definition render (st : ActivitiesManager.state) : view :=
  if ActivitiesManager.loading st then Loading
  else
    Panel (bool_decide (is_Some (truthy (ActivitiesManager.editingId st))))
          (ActivitiesManager.formData st)
          (if bool_decide (length (ActivitiesManager.activitiesList st) = 0)
           then nothing_yet
           else cards (map card_of (ActivitiesManager.activitiesList st))).
End Render.

End ActivitiesManager_view.

(** ** The page [Admin] *)

Module Admin.

(** [User] and [Session] of the auth client, as far as the page reads
    them. *)
Module User.
Record t := { email : option string }.
End User.

Module Session.
Record t := { user : User.t }.
End Session.

(** The two states of the page, and what it has asked of the router
    ([navigations], the arguments of [navigate] in the order of the calls)
    and of the toaster. *)
Record state := {
  user : option User.t;
  loading : bool;
  navigations : list string;
  toasts : list toast;
}.

(** The state the page mounts with. *)
Definition initial : state :=
  {| user := None; loading := true; navigations := []; toasts := [] |}.

Definition setUser (u : option User.t) (st : state) : state :=
  {| user := u; loading := loading st; navigations := navigations st;
     toasts := toasts st |}.
Definition setLoading (b : bool) (st : state) : state :=
  {| user := user st; loading := b; navigations := navigations st;
     toasts := toasts st |}.
Definition navigate (to : string) (st : state) : state :=
  {| user := user st; loading := loading st; navigations := navigations st ++ [to];
     toasts := toasts st |}.
Definition show (t : toast) (st : state) : state :=
  {| user := user st; loading := loading st; navigations := navigations st;
     toasts := toasts st ++ [t] |}.

(** The callback of [supabase.auth.getSession().then]. *)
Definition onSession (session : option Session.t) (st : state) : state :=
  let st := match session with
            | None => navigate "/auth" st
            | Some s => setUser (Some (Session.user s)) st
            end in
  setLoading false st.

(** The callback of [supabase.auth.onAuthStateChange]:
    [if (event === "SIGNED_OUT" || !session)]. *)
Definition onAuthStateChange (event : string) (session : option Session.t)
    (st : state) : state :=
  match bool_decide (event = "SIGNED_OUT"), session with
  | false, Some s => setUser (Some (Session.user s)) st
  | _, _ => navigate "/auth" st
  end.

(** [failed] tells whether [supabase.auth.signOut()] answered with an
    [error]. *)
Definition handleLogout (failed : bool) (st : state) : state :=
  if failed then show toast_error st
  else navigate "/auth" (show toast_success st).

(** The placeholder, or the page: its header shows [user?.email], its tabs
    hold the three panels. *)
Inductive view :=
| Loading
| Page (email : option string) (defaultValue : string) (tabs : list string).

Definition render (st : state) : view :=
  if loading st then Loading
  else Page (user st ≫= User.email) "news" ["news"; "staff"; "activities"].

(** What happens to the page while it is mounted: the session check
    resolves, the auth client reports a change, the logout button is
    pressed and [signOut] has answered. *)
Inductive event :=
| session_resolved (session : option Session.t)
| auth_state_changed (name : string) (session : option Session.t)
| logout_answered (failed : bool).

Definition handle (st : state) (ev : event) : state :=
  match ev with
  | session_resolved session => onSession session st
  | auth_state_changed name session => onAuthStateChange name session st
  | logout_answered failed => handleLogout failed st
  end.

Definition run (evs : list event) (st : state) : state := foldl handle st evs.

End Admin.

(** * Vocabulary of the statements proved below *)

(** A table description reads and writes its own rows of the store. *)
Definition lens {R A} (T : table R A) : Prop :=
  (forall db, with_rows T (rows T db) db = db) /\
  (forall l db, rows T (with_rows T l db) = l).

(** The writes of a table are the admins': its policies let an [INSERT], an
    [UPDATE] or a [DELETE] through exactly when the caller holds the admin
    role. An admin's statements then run on every row they name; the
    [INSERT] of anybody else is refused with an error, and their [UPDATE] and
    [DELETE] find no row: they end without an error and change nothing. *)
Definition admin_only {R A} (T : table R A) : Prop :=
  forall (db : database) (c : caller),
    (forall r, check_passes (policies T) INSERT db c r = is_admin db c) /\
    (forall r, using_passes (policies T) UPDATE db c r = is_admin db c) /\
    (forall r, check_passes (policies T) UPDATE db c r = is_admin db c) /\
    (forall r, using_passes (policies T) DELETE db c r = is_admin db c) /\
    (is_admin db c = true ->
       (forall m a, exec_insert T c m a db = insert_row T (new_row T m a) db) /\
       (forall w r, reaches T UPDATE c w db r = w r) /\
       (forall w r, reaches T DELETE c w db r = w r)) /\
    (is_admin db c = false ->
       (forall m a, exec_insert T c m a db = Err insufficient_privilege) /\
       (forall m a w, exec_update T c m a w db = Ok (db, 0)) /\
       (forall w, exec_delete T c w db = Ok (db, 0))).

(** An [UPDATE] stamps the rows it reaches: their [updated_at] is the [NOW()]
    of the statement whatever the statement set, so it is later than the
    previous one exactly when the previous one lies before [NOW()]. The rows
    it does not reach stay as they were. *)
Definition stamps_updates {R A} `{has_updated_at R} (T : table R A) : Prop :=
  forall c m a w db db' n,
    exec_update T c m a w db = Ok (db', n) ->
    n = length (List.filter (reaches T UPDATE c w db) (rows T db)) /\
    Forall2 (fun old new =>
               if reaches T UPDATE c w db old
               then get_updated_at new = Some (NOW m)
                    /\ forall t, get_updated_at old = Some t ->
                         ((t < NOW m)%Z <->
                          exists t', get_updated_at new = Some t' /\ (t < t')%Z)
               else new = old)
            (rows T db) (rows T db').

(** [WHERE user_id = pid] on [user_roles]. *)
Definition assigned_to (pid : uuid) (ur : user_roles.row) : bool :=
  holds (sql_eq (user_roles.user_id ur) (Some pid)).

(** No two rows of a list conflict. *)
Fixpoint no_conflict {R} (conf : R -> R -> bool) (l : list R) : Prop :=
  match l with
  | [] => True
  | x :: l' => (forall y, y ∈ l' -> conf x y = false) /\ no_conflict conf l'
  end.

(** A profile and a role have at most one row of [user_roles]. *)
Definition at_most_one_assignment (db : database) : Prop :=
  forall (P : uuid) (r : app_role),
    length (List.filter
              (fun x => assigned_to P x && holds (sql_eq (user_roles.role x) (Some r)))
              (user_roles_rows db)) <= 1.

(** The tables the migration declares. *)
Inductive declared : forall {R A : Type}, table R A -> Prop :=
| declared_profiles : declared profiles_table
| declared_user_roles : declared user_roles_table
| declared_news : declared news_table
| declared_staff : declared staff_table
| declared_activities : declared activities_table.

(** One statement that ended well: a registration or the deletion of an
    identity by the auth service, a statement of a caller through the API,
    or an insert or a delete by the owner of the schema, whom the policies
    do not bind. *)
Inductive step : database -> database -> Prop :=
| step_register m u db db' :
    register m u db = Ok db' -> step db db'
| step_delete_user uid db db' :
    delete_user uid db = Ok db' -> step db db'
| step_insert {R A} (T : table R A) c m a db db' :
    declared T -> exec_insert T c m a db = Ok db' -> step db db'
| step_update {R A} (T : table R A) c m a w db db' n :
    declared T -> exec_update T c m a w db = Ok (db', n) -> step db db'
| step_delete {R A} (T : table R A) c w db db' n :
    declared T -> exec_delete T c w db = Ok (db', n) -> step db db'
| step_owner_insert {R A} (T : table R A) new db db' :
    declared T -> insert_row T new db = Ok db' -> step db db'
| step_owner_delete {R A} (T : table R A) hit db db' n :
    declared T -> delete_rows T hit db = Ok (db', n) -> step db db'.

(** The stores the statements lead to, from the empty one. *)
Definition reachable (db : database) : Prop := rtc step empty_database db.

(** The rows of a table keep its keys apart ([PRIMARY KEY], [UNIQUE]) and
    have its [NOT NULL] columns set. *)
Definition rows_ok {R A} (T : table R A) (l : list R) : Prop :=
  no_conflict (conflicts T) l /\ Forall (fun r => not_null T r = true) l.

(** The key and [NOT NULL] constraints of the five tables hold. *)
Definition constraints_hold (db : database) : Prop :=
  forall R A (T : table R A), declared T -> rows_ok T (rows T db).

(** The foreign key of every row of a table resolves. *)
Definition references_hold_in {R A} (T : table R A) (db : database) : Prop :=
  Forall (fun r => references_ok T db r = true) (rows T db).

(** Referential integrity: the foreign keys of the five tables resolve. *)
Definition references_hold (db : database) : Prop :=
  forall R A (T : table R A), declared T -> references_hold_in T db.

(** The tables whose foreign key names a profile. *)
Inductive names_profiles : forall {R A : Type}, table R A -> Prop :=
| user_roles_names_profiles : names_profiles user_roles_table
| news_names_profiles : names_profiles news_table
| staff_names_profiles : names_profiles staff_table
| activities_names_profiles : names_profiles activities_table.

(** [INSERT INTO user_roles (user_id, role) VALUES (P, r)]. *)
Definition grant (P : uuid) (r : app_role) : user_roles.args :=
  {| user_roles.id' := absent; user_roles.user_id' := given (Some P);
     user_roles.role' := given (Some r); user_roles.created_at' := absent |}.

(** ** A small store to run the statements on *)

Module sample.
Definition alice : uuid := "00000000-0000-4000-8000-0000000000a1".
Definition bob : uuid := "00000000-0000-4000-8000-0000000000b2".

Definition carol : uuid := "00000000-0000-4000-8000-0000000000f6".

(** Alice and Bob are registered; Alice holds the admin role and has
    written one news item, whose [updated_at] she supplied herself. *)
Definition store : database :=
  {| auth_users_rows :=
       [ {| auth_users.id := Some alice; auth_users.email := Some "alice@school.example";
            auth_users.raw_user_meta_data := Some [("full_name", JString "Alice")] |};
         {| auth_users.id := Some bob; auth_users.email := Some "bob@school.example";
            auth_users.raw_user_meta_data := Some [] |} ];
     profiles_rows :=
       [ {| profiles.id := Some alice; profiles.email := Some "alice@school.example";
            profiles.full_name := Some "Alice"; profiles.avatar_url := None;
            profiles.created_at := Some 1000%Z; profiles.updated_at := Some 1000%Z |};
         {| profiles.id := Some bob; profiles.email := Some "bob@school.example";
            profiles.full_name := Some ""; profiles.avatar_url := None;
            profiles.created_at := Some 2000%Z; profiles.updated_at := Some 2000%Z |} ];
     user_roles_rows :=
       [ {| user_roles.id := Some "00000000-0000-4000-8000-0000000000c3";
            user_roles.user_id := Some alice; user_roles.role := Some admin;
            user_roles.created_at := Some 3000%Z |} ];
     news_rows :=
       [ {| news.id := Some "00000000-0000-4000-8000-0000000000d4";
            news.title := Some "Sports day"; news.content := Some "On Friday.";
            news.image_url := Some ""; news.published_date := Some 4000%Z;
            news.created_by := Some alice;
            news.created_at := Some 4000%Z; news.updated_at := Some 9000%Z |} ];
     staff_rows := [];
     activities_rows := [] |}.

Definition news_item : uuid := "00000000-0000-4000-8000-0000000000d4".

(** The statement that wrote it, when the store held no news yet. *)
Definition before_post : database := with_news_rows [] store.
Definition posting : moment := {| NOW := 4000%Z; uuid_generate_v4 := news_item |}.
Definition post : news.args :=
  {| news.id' := absent; news.title' := given (Some "Sports day");
     news.content' := given (Some "On Friday."); news.image_url' := given (Some "");
     news.published_date' := absent; news.created_by' := given (Some alice);
     news.created_at' := absent; news.updated_at' := given (Some 9000%Z) |}.

(** A later statement. *)
Definition later : moment :=
  {| NOW := 5000%Z; uuid_generate_v4 := "00000000-0000-4000-8000-0000000000e5" |}.

(** [SET full_name = 'Robert'] on a profile. *)
Definition rename : profiles.args :=
  {| profiles.id' := absent; profiles.email' := absent;
     profiles.full_name' := given (Some "Robert"); profiles.avatar_url' := absent;
     profiles.created_at' := absent; profiles.updated_at' := absent |}.

(** [SET title = 'Sports week']. *)
Definition retitle : news.args :=
  {| news.id' := absent; news.title' := given (Some "Sports week");
     news.content' := absent; news.image_url' := absent;
     news.published_date' := absent; news.created_by' := absent;
     news.created_at' := absent; news.updated_at' := absent |}.
(** Alice at the admin page, and Bob, while the API can be reached. *)
Definition alice_online : env :=
  {| who := SignedIn alice; at_ := later; online := true |}.
Definition bob_online : env :=
  {| who := SignedIn bob; at_ := later; online := true |}.

(** What the platform answers on the date of the sample activity: the API
    writes the instant in UTC, the browser gives the ISO form of the date,
    the store reads the text the date input holds. Elsewhere this platform
    does not answer. *)
Definition browser : platform :=
  {| timestamptz_out t :=
       if bool_decide (t = 1736937000000000%Z) then "2025-01-15T10:30:00+00:00" else "";
     timestamptz_in s :=
       if bool_decide (s = "2025-01-15T10:30") then Some 1736937000000000%Z else None;
     Date_toISOString s :=
       if bool_decide (s = "2025-01-15T10:30:00+00:00")
       then Some "2025-01-15T10:30:00.000Z" else None |}.

(** An activity as the API returns it. *)
Definition outing : ActivitiesManager.Activity.t :=
  {| ActivitiesManager.Activity.id := "00000000-0000-4000-8000-000000000107";
     ActivitiesManager.Activity.title := "Museum visit";
     ActivitiesManager.Activity.description := "Year 5 and 6";
     ActivitiesManager.Activity.activity_date := "2025-01-15T10:30:00+00:00";
     ActivitiesManager.Activity.location := None;
     ActivitiesManager.Activity.image_url := None |}.

(** The news of a board, stored in no particular order; the last item has
    no publication date. *)
Definition item (i : uuid) (published : option timestamptz) : news.row :=
  {| news.id := Some i; news.title := Some "Notice"; news.content := Some "Text";
     news.image_url := None; news.published_date := published;
     news.created_by := None;
     news.created_at := Some 1000%Z; news.updated_at := Some 1000%Z |}.
Definition board : database :=
  with_news_rows [item "n-4000" (Some 4000%Z); item "n-8000" (Some 8000%Z);
                  item "n-6000" (Some 6000%Z); item "n-null" None] store.

(** A news form with a title and a text, its image input left blank. *)
Definition draft : NewsManager.state :=
  NewsManager.onChange_content "We won."
    (NewsManager.onChange_title "Chess club" NewsManager.initial).
End sample.

(** ** Vocabulary for the panels *)

(** What [x || ""] shows for a [string | null]. *)
Definition shown (x : option string) : string :=
  match x with Some s => s | None => "" end.

(** Every two neighbours of a list are in the order of [ORDER BY key DESC]:
    of two instants the later one is first. *)
Definition newest_first {R} (key : R -> option timestamptz) (l : list R) : Prop :=
  forall i x y, l !! i = Some x -> l !! (S i) = Some y ->
                desc_nulls_first (key x) (key y).

Section PanelContracts.
Context `{platform}.




End PanelContracts.

Section PanelWrites.
Context `{platform}.

(** After a fetch that reached the API each panel lists the rows of its
    table, all of them, in the order of its [ORDER BY ... DESC]. *)
Definition lists_newest_first : Prop :=
  (forall e st db, online e = true ->
     exists rows,
       NewsManager.newsList (NewsManager.fetchNews e st db) = map NewsManager.of_row rows
       /\ rows ≡ₚ news_rows db
       /\ newest_first news.published_date rows)
  /\ (forall e st db, online e = true ->
        exists rows,
          ActivitiesManager.activitiesList (ActivitiesManager.fetchActivities e st db)
          = map ActivitiesManager.of_row rows
          /\ rows ≡ₚ activities_rows db
          /\ newest_first activities.activity_date rows)
  /\ (forall e st db, online e = true ->
        exists rows,
          StaffManager.staffList (StaffManager.fetchStaff e st db)
          = map StaffManager.of_row rows
          /\ rows ≡ₚ staff_rows db
          /\ newest_first staff.created_at rows).

(** The optional columns of a row hold the text of the form's inputs. *)
Definition news_holds (f : NewsManager.formData.t) (r : news.row) : Prop :=
  news.image_url r = Some (NewsManager.formData.image_url f).

Definition staff_holds (f : StaffManager.formData.t) (r : staff.row) : Prop :=
  staff.department r = Some (StaffManager.formData.department f)
  /\ staff.email r = Some (StaffManager.formData.email f)
  /\ staff.phone r = Some (StaffManager.formData.phone f)
  /\ staff.image_url r = Some (StaffManager.formData.image_url f)
  /\ staff.bio r = Some (StaffManager.formData.bio f).

Definition activities_holds (f : ActivitiesManager.formData.t) (r : activities.row) : Prop :=
  activities.location r = Some (ActivitiesManager.formData.location f)
  /\ activities.image_url r = Some (ActivitiesManager.formData.image_url f).

(** What the forms send for their optional inputs is the text of the input,
    a string and never [NULL]; and after a submit that succeeded every row
    of the table is a row that was there before or holds, in its optional
    columns, the text of the inputs: the empty string for a blank one. *)
Definition forms_send_strings : Prop :=
  (forall f,
     news.image_url' (NewsManager.body f) = given (Some (NewsManager.formData.image_url f)))
  /\ (forall f,
        staff.department' (StaffManager.body f) = given (Some (StaffManager.formData.department f))
        /\ staff.email' (StaffManager.body f) = given (Some (StaffManager.formData.email f))
        /\ staff.phone' (StaffManager.body f) = given (Some (StaffManager.formData.phone f))
        /\ staff.image_url' (StaffManager.body f)
           = given (Some (StaffManager.formData.image_url f))
        /\ staff.bio' (StaffManager.body f) = given (Some (StaffManager.formData.bio f)))
  /\ (forall f a,
        ActivitiesManager.body f = Ok a ->
        activities.location' a = given (Some (ActivitiesManager.formData.location f))
        /\ activities.image_url' a = given (Some (ActivitiesManager.formData.image_url f)))
  /\ (forall e st db db',
        NewsManager.save e st db = data db' ->
        forall r, r ∈ news_rows db' ->
                  r ∈ news_rows db \/ news_holds (NewsManager.formData st) r)
  /\ (forall e st db db',
        StaffManager.save e st db = data db' ->
        forall r, r ∈ staff_rows db' ->
                  r ∈ staff_rows db \/ staff_holds (StaffManager.formData st) r)
  /\ (forall e st db db',
        ActivitiesManager.save e st db = data db' ->
        forall r, r ∈ activities_rows db' ->
                  r ∈ activities_rows db \/ activities_holds (ActivitiesManager.formData st) r).

End PanelWrites.

(** ** Vocabulary for what the callers of the API can and cannot do *)

(** A statement of caller [c] through the API that ended well. *)
Inductive api_statement (c : caller) : database -> database -> Prop :=
| api_insert {R A} (T : table R A) m a db db' :
    declared T -> exec_insert T c m a db = Ok db' -> api_statement c db db'
| api_update {R A} (T : table R A) m a w db db' n :
    declared T -> exec_update T c m a w db = Ok (db', n) -> api_statement c db db'
| api_delete {R A} (T : table R A) w db db' n :
    declared T -> exec_delete T c w db = Ok (db', n) -> api_statement c db db'.

(** What can happen to the store without the owner of the schema: a
    registration, the deletion of an identity, a statement of some caller
    through the API. *)
Inductive api_step : database -> database -> Prop :=
| api_register m u db db' : register m u db = Ok db' -> api_step db db'
| api_delete_user uid db db' : delete_user uid db = Ok db' -> api_step db db'
| api_call c db db' : api_statement c db db' -> api_step db db'.

(** Nobody holds the admin role. *)
Definition no_admin (db : database) : Prop :=
  forall u, has_role db u (Some admin) = false.

(** [DELETE FROM user_roles WHERE user_id = P AND role = r]. *)
Definition assignment (P : uuid) (r : app_role) (ur : user_roles.row) : bool :=
  assigned_to P ur && holds (sql_eq (user_roles.role ur) (Some r)).

(** An object of storage lies in one of the buckets the migration creates. *)
Definition in_created_bucket (o : storage_objects.row) : Prop :=
  exists b, b ∈ storage_buckets_rows
            /\ storage_objects.bucket_id o = storage_buckets.id b.

Global Instance in_created_bucket_dec o : Decision (in_created_bucket o).
Proof.
  refine (cast_if (decide (storage_objects.bucket_id o
                           ∈ map storage_buckets.id storage_buckets_rows)));
    unfold in_created_bucket.
  - apply list_elem_of_fmap in e as (b & ? & ?). by exists b.
  - intros (b & ? & ?). apply n. apply list_elem_of_fmap. by exists b.
Defined.

(** ** Vocabulary for the panels' writes *)

(** A row after an update with the columns of the form [f], at the instant
    [now]. *)
Definition news_saved (now : timestamptz) (f : NewsManager.formData.t) (r : news.row)
    : news.row :=
  {| news.id := news.id r;
     news.title := Some (NewsManager.formData.title f);
     news.content := Some (NewsManager.formData.content f);
     news.image_url := Some (NewsManager.formData.image_url f);
     news.published_date := news.published_date r;
     news.created_by := news.created_by r;
     news.created_at := news.created_at r;
     news.updated_at := Some now |}.

Definition staff_saved (now : timestamptz) (f : StaffManager.formData.t) (r : staff.row)
    : staff.row :=
  {| staff.id := staff.id r;
     staff.full_name := Some (StaffManager.formData.full_name f);
     staff.position := Some (StaffManager.formData.position f);
     staff.department := Some (StaffManager.formData.department f);
     staff.email := Some (StaffManager.formData.email f);
     staff.phone := Some (StaffManager.formData.phone f);
     staff.image_url := Some (StaffManager.formData.image_url f);
     staff.bio := Some (StaffManager.formData.bio f);
     staff.created_by := staff.created_by r;
     staff.created_at := staff.created_at r;
     staff.updated_at := Some now |}.

(** For an activity the date is the instant the store has read from the
    text of the date input, [date]. *)
Definition activities_saved (now : timestamptz) (date : timestamptz)
    (f : ActivitiesManager.formData.t) (r : activities.row) : activities.row :=
  {| activities.id := activities.id r;
     activities.title := Some (ActivitiesManager.formData.title f);
     activities.description := Some (ActivitiesManager.formData.description f);
     activities.activity_date := Some date;
     activities.location := Some (ActivitiesManager.formData.location f);
     activities.image_url := Some (ActivitiesManager.formData.image_url f);
     activities.created_by := activities.created_by r;
     activities.created_at := activities.created_at r;
     activities.updated_at := Some now |}.

(** A row after its record has been edited and saved with the form as
    [handleEdit] filled it, at the instant [now]: the optional columns hold
    what the form showed for them. *)
Definition news_resaved (now : timestamptz) (r : news.row) : news.row :=
  {| news.id := news.id r;
     news.title := news.title r;
     news.content := news.content r;
     news.image_url := Some (shown (news.image_url r));
     news.published_date := news.published_date r;
     news.created_by := news.created_by r;
     news.created_at := news.created_at r;
     news.updated_at := Some now |}.

Definition staff_resaved (now : timestamptz) (r : staff.row) : staff.row :=
  {| staff.id := staff.id r;
     staff.full_name := staff.full_name r;
     staff.position := staff.position r;
     staff.department := Some (shown (staff.department r));
     staff.email := Some (shown (staff.email r));
     staff.phone := Some (shown (staff.phone r));
     staff.image_url := Some (shown (staff.image_url r));
     staff.bio := Some (shown (staff.bio r));
     staff.created_by := staff.created_by r;
     staff.created_at := staff.created_at r;
     staff.updated_at := Some now |}.

(** For an activity the date is the one the store reads from the date
    input, [date]. *)
Definition activities_resaved (now : timestamptz) (date : timestamptz)
    (r : activities.row) : activities.row :=
  {| activities.id := activities.id r;
     activities.title := activities.title r;
     activities.description := activities.description r;
     activities.activity_date := Some date;
     activities.location := Some (shown (activities.location r));
     activities.image_url := Some (shown (activities.image_url r));
     activities.created_by := activities.created_by r;
     activities.created_at := activities.created_at r;
     activities.updated_at := Some now |}.

(** The columns no form has an input for. *)
Definition news_kept (old new : news.row) : Prop :=
  news.id new = news.id old
  /\ news.published_date new = news.published_date old
  /\ news.created_by new = news.created_by old
  /\ news.created_at new = news.created_at old.

Definition staff_kept (old new : staff.row) : Prop :=
  staff.id new = staff.id old
  /\ staff.created_by new = staff.created_by old
  /\ staff.created_at new = staff.created_at old.

Definition activities_kept (old new : activities.row) : Prop :=
  activities.id new = activities.id old
  /\ activities.created_by new = activities.created_by old
  /\ activities.created_at new = activities.created_at old.

(** ** Activities whose date does not come through the form *)

Module sample_dates.
(** 2025-01-15 10:30:00 and 10:30:45 UTC. *)
Definition half_past : timestamptz := 1736937000000000%Z.
Definition seconds_later : timestamptz := 1736937045000000%Z.

(** What the platform answers on them: the API writes an instant in UTC,
    the browser gives the ISO form of a date, the store reads the text of
    the date input in its time zone, UTC. For the text [infinity], which
    the API writes for the instant of that name, the browser has no date:
    [toISOString] throws. *)
Definition browser : platform :=
  {| timestamptz_out t :=
       if bool_decide (t = half_past) then "2025-01-15T10:30:00+00:00"
       else if bool_decide (t = seconds_later) then "2025-01-15T10:30:45+00:00"
       else "";
     timestamptz_in s :=
       if bool_decide (s = "2025-01-15T10:30") then Some half_past else None;
     Date_toISOString s :=
       if bool_decide (s = "2025-01-15T10:30:00+00:00")
       then Some "2025-01-15T10:30:00.000Z"
       else if bool_decide (s = "2025-01-15T10:30:45+00:00")
       then Some "2025-01-15T10:30:45.000Z"
       else None |}.



End sample_dates.

(** * Properties of the storage layer *)

(** ** Preliminaries *)

Lemma bind_ok {X Y} (mx : result X) (k : X -> result Y) (y : Y) :
  mx ≫= k = Ok y -> exists x, mx = Ok x /\ k x = Ok y.
Proof. destruct mx as [x|e]; [by eauto|done]. Qed.

Lemma require_ok b e u : require b e = Ok u -> b = true.
Proof. by destruct b. Qed.

Lemma holds_sql_eq {X} `{EqDecision X} (x y : option X) :
  holds (sql_eq x y) = true <-> exists a, x = Some a /\ y = Some a.
Proof.
  destruct x as [a|], y as [b|]; simpl.
  - case_bool_decide as Hab; split.
    + intros _. exists a. by rewrite Hab.
    + done.
    + done.
    + intros (a' & [= ->] & [= ->]). done.
  - split; [done|]. by intros (? & _ & ?).
  - split; [done|]. by intros (? & ? & _).
  - split; [done|]. by intros (? & ? & _).
Qed.

Lemma holds_sql_eq_some {X} `{EqDecision X} (x : option X) (a : X) :
  holds (sql_eq x (Some a)) = true <-> x = Some a.
Proof.
  rewrite holds_sql_eq. split.
  - by intros (b & -> & [= ->]).
  - intros ->. by exists a.
Qed.

Lemma sql_eq_sym {X} `{EqDecision X} (x y : option X) : sql_eq x y = sql_eq y x.
Proof.
  destruct x as [a|], y as [b|]; simpl; try done.
  f_equal. apply bool_decide_ext. by split.
Qed.

Lemma filter_none {X} (f : X -> bool) (l : list X) :
  (forall x, x ∈ l -> f x = false) -> List.filter f l = [].
Proof.
  induction l as [|x l IH]; intros Hf; [done|]. simpl.
  rewrite (Hf x) by left. apply IH. intros y Hy. apply Hf. by right.
Qed.

Lemma filter_all {X} (f : X -> bool) (l : list X) :
  (forall x, x ∈ l -> f x = true) -> List.filter f l = l.
Proof.
  induction l as [|x l IH]; intros Hf; [done|]. simpl.
  rewrite (Hf x) by left. f_equal. apply IH. intros y Hy. apply Hf. by right.
Qed.

Lemma existsb_false {X} (f : X -> bool) (l : list X) :
  (forall x, x ∈ l -> f x = false) -> existsb f l = false.
Proof.
  intros Hf. destruct (existsb f l) eqn:He; [|done].
  apply existsb_exists in He as (x & Hx%list_elem_of_In & Hfx). by rewrite Hf in Hfx.
Qed.

Lemma filter_filter_same {X} (f : X -> bool) (l : list X) :
  List.filter f (List.filter f l) = List.filter f l.
Proof.
  apply filter_all. intros x Hx%list_elem_of_In. by apply List.filter_In in Hx as [_ ?].
Qed.

Lemma has_role_null db r : has_role db None r = false.
Proof.
  unfold has_role. induction (user_roles_rows db) as [|x l IH]; [done|].
  simpl. rewrite IH. destruct (user_roles.user_id x); simpl.
  - destruct (sql_eq (user_roles.role x) r) as [[|]|]; done.
  - destruct (sql_eq (user_roles.role x) r) as [[|]|]; done.
Qed.

Lemma is_admin_signed_in db c :
  is_admin db c = true -> exists uid, c = SignedIn uid.
Proof.
  destruct c as [|uid]; [|by eauto].
  unfold is_admin. simpl. by rewrite has_role_null.
Qed.

Lemma has_role_spec db (uid : uuid) (r : app_role) :
  has_role db (Some uid) (Some r) = true <->
  exists x, x ∈ user_roles_rows db /\ user_roles.user_id x = Some uid
            /\ user_roles.role x = Some r.
Proof.
  unfold has_role. rewrite existsb_exists. split.
  - intros (x & Hin & Hx). exists x. rewrite list_elem_of_In. split; [done|].
    destruct (user_roles.user_id x) as [u|], (user_roles.role x) as [r'|];
      simpl in Hx; repeat case_bool_decide; naive_solver.
  - intros (x & Hin & Hu & Hr). exists x. rewrite <- list_elem_of_In. split; [done|].
    rewrite Hu, Hr. simpl. by rewrite !bool_decide_eq_true_2.
Qed.


Ltac rls :=
  unfold using_passes, check_passes, applies, check_condition, condition_holds,
    caller_is_admin, sql_true;
  cbn -[has_role];
  repeat (case_bool_decide; try done; cbn -[has_role]).

(** ** What a statement that ended well has checked *)

Lemma insert_row_ok {R A} (T : table R A) new db db' :
  insert_row T new db = Ok db' ->
  db' = with_rows T (rows T db ++ [new]) db
  /\ not_null T new = true
  /\ (forall o, o ∈ rows T db -> conflicts T new o = false)
  /\ references_ok T db new = true.
Proof.
  unfold insert_row. intros Hin.
  apply bind_ok in Hin as (_ & H1%require_ok & Hin).
  apply bind_ok in Hin as (_ & H2%require_ok%negb_true_iff & Hin).
  apply bind_ok in Hin as (_ & H3%require_ok & Hin).
  injection Hin as <-. split_and!; try done.
  intros o Ho. destruct (conflicts T new o) eqn:Hc; [|done].
  assert (existsb (conflicts T new) (rows T db) = true); [|congruence].
  apply existsb_exists. exists o. by rewrite <- list_elem_of_In.
Qed.

Lemma insert_row_intro {R A} (T : table R A) new db :
  not_null T new = true ->
  (forall o, o ∈ rows T db -> conflicts T new o = false) ->
  references_ok T db new = true ->
  insert_row T new db = Ok (with_rows T (rows T db ++ [new]) db).
Proof.
  intros H1 H2 H3. unfold insert_row. rewrite H1, existsb_false, H3; done.
Qed.

Section StatementFacts.
Context {R A : Type} (T : table R A).

Lemma update_rows_untouched (hit : R -> bool) upd (done todo : list R) :
  (forall r, r ∈ todo -> hit r = false) ->
  update_rows hit upd done todo = Ok (done ++ todo, 0).
Proof.
  revert done. induction todo as [|r rest IH]; intros done Hhit; simpl.
  - by rewrite app_nil_r.
  - rewrite (Hhit r) by left. rewrite IH.
    + by rewrite <- app_assoc.
    + intros y Hy. apply Hhit. by right.
Qed.

Lemma exec_update_unreached c m a w db :
  (forall r, r ∈ rows T db -> reaches T UPDATE c w db r = false) ->
  exec_update T c m a w db = Ok (with_rows T (rows T db) db, 0).
Proof.
  intros Hr. unfold exec_update. by rewrite update_rows_untouched.
Qed.

Lemma delete_rows_unreached (hit : R -> bool) db :
  (forall r, r ∈ rows T db -> hit r = false) ->
  delete_rows T hit db = Ok (with_rows T (rows T db) db, 0).
Proof.
  intros Hr. unfold delete_rows. rewrite filter_none by done.
  rewrite filter_all; [done|]. intros x Hx. by rewrite Hr.
Qed.

Lemma update_rows_spec (hit : R -> bool) upd (done todo l : list R) n :
  update_rows hit upd done todo = Ok (l, n) ->
  exists todo',
    l = done ++ todo' /\ n = length (List.filter hit todo) /\
    Forall2 (fun old new =>
               if hit old then exists others, upd others old = Ok new
               else new = old) todo todo'.
Proof.
  revert done l n. induction todo as [|r rest IH]; intros done l n Hup; simpl in *.
  - injection Hup as <- <-. exists []. by rewrite app_nil_r.
  - destruct (hit r) eqn:Hr.
    + apply bind_ok in Hup as (r' & Hr' & Hup).
      apply bind_ok in Hup as ([l' n'] & Hrest & Hup).
      injection Hup as <- <-. simpl.
      apply IH in Hrest as (todo' & -> & -> & Hall).
      exists (r' :: todo'). rewrite <- app_assoc. split; [done|]. split; [done|].
      constructor; [|done]. rewrite Hr. eauto.
    + apply IH in Hup as (todo' & -> & -> & Hall).
      exists (r :: todo'). rewrite <- app_assoc. split; [done|]. split; [done|].
      constructor; [|done]. by rewrite Hr.
Qed.

Lemma update_row_ok c m a db others old new :
  update_row T c m a db others old = Ok new ->
  new = before_update T m (set_row T a old)
  /\ check_passes (policies T) UPDATE db c new = true
  /\ using_passes (policies T) SELECT db c new = true
  /\ not_null T new = true
  /\ (forall o, o ∈ others -> conflicts T new o = false)
  /\ references_ok T db new = true
  /\ key_in_use T db old new = false.
Proof.
  unfold update_row. intros Hup.
  apply bind_ok in Hup as (_ & H1%require_ok & Hup).
  apply bind_ok in Hup as (_ & H2%require_ok & Hup).
  apply bind_ok in Hup as (_ & H3%require_ok & Hup).
  apply bind_ok in Hup as (_ & H4%require_ok & Hup).
  injection Hup as <-.
  apply andb_true_iff in H1 as [? ?]. apply andb_true_iff in H4 as [? ?%negb_true_iff].
  apply negb_true_iff in H3.
  repeat split; try done.
  intros o Ho. destruct (conflicts T _ o) eqn:Hc; [|done].
  assert (existsb (conflicts T (before_update T m (set_row T a old))) others = true); [|congruence].
  apply existsb_exists. exists o. by rewrite <- list_elem_of_In.
Qed.

Lemma admin_only_intro :
  lens T ->
  (forall db c r, check_passes (policies T) INSERT db c r = is_admin db c) ->
  (forall db c r, using_passes (policies T) UPDATE db c r = is_admin db c) ->
  (forall db c r, check_passes (policies T) UPDATE db c r = is_admin db c) ->
  (forall db c r, using_passes (policies T) DELETE db c r = is_admin db c) ->
  (forall db c r, is_admin db c = true -> using_passes (policies T) SELECT db c r = true) ->
  admin_only T.
Proof.
  intros [Hsame _] Hi Hu Hc Hd Hs db c.
  split; [done|]. split; [done|]. split; [done|]. split; [done|]. split.
  - intros Ha. split; [|split].
    + intros m a. unfold exec_insert. by rewrite Hi, Ha.
    + intros w r. unfold reaches. rewrite Hu, Hs, Ha by done. by rewrite !andb_true_r.
    + intros w r. unfold reaches. rewrite Hd, Hs, Ha by done. by rewrite !andb_true_r.
  - intros Ha. split; [|split].
    + intros m a. unfold exec_insert. by rewrite Hi, Ha.
    + intros m a w. rewrite exec_update_unreached, Hsame; [done|].
      intros r _. unfold reaches. rewrite Hu, Ha. apply andb_false_r.
    + intros w. unfold exec_delete. rewrite delete_rows_unreached, Hsame; [done|].
      intros r _. unfold reaches. rewrite Hd, Ha. apply andb_false_r.
Qed.

Lemma stamps_updates_intro `{has_updated_at R} :
  lens T ->
  (forall m r, get_updated_at (before_update T m r) = Some (NOW m)) ->
  stamps_updates T.
Proof.
  intros [_ Hrows] Hstamp c m a w db db' n Hup. unfold exec_update in Hup.
  apply bind_ok in Hup as ([l k] & Hup & Heq). injection Heq as <- <-.
  apply update_rows_spec in Hup as (todo' & -> & -> & Hall). simpl.
  split; [done|]. rewrite Hrows.
  eapply Forall2_impl; [done|]. intros old new. simpl.
  destruct (reaches T UPDATE c w db old); [|done].
  intros (others & (-> & _)%update_row_ok). rewrite Hstamp. split; [done|].
  intros t _. split; [by eauto|]. by intros (t' & [= <-] & ?).
Qed.
End StatementFacts.

Lemma delete_actions_none {R A} (T : table R A) (vs : list R) (db : database) :
  (forall r d, on_delete T r d = Ok d) -> delete_actions T vs db = Ok db.
Proof.
  intros Hid. induction vs as [|r vs IH]; [done|]. simpl. by rewrite Hid.
Qed.

Lemma news_lens : lens news_table.
Proof. split; [by intros []|done]. Qed.
Lemma staff_lens : lens staff_table.
Proof. split; [by intros []|done]. Qed.
Lemma activities_lens : lens activities_table.
Proof. split; [by intros []|done]. Qed.
Lemma user_roles_lens : lens user_roles_table.
Proof. split; [by intros []|done]. Qed.
Lemma profiles_lens : lens profiles_table.
Proof. split; [by intros []|done]. Qed.

(** ** Writes on the content tables and on the role assignments *)

Ltac admin_policy := intros; rls; unfold is_admin; by destruct has_role.

Lemma news_admin_only : admin_only news_table.
Proof.
  apply admin_only_intro; [apply news_lens|..]; try admin_policy.
Qed.
Lemma staff_admin_only : admin_only staff_table.
Proof.
  apply admin_only_intro; [apply staff_lens|..]; try admin_policy.
Qed.
Lemma activities_admin_only : admin_only activities_table.
Proof.
  apply admin_only_intro; [apply activities_lens|..]; try admin_policy.
Qed.
Lemma user_roles_admin_only : admin_only user_roles_table.
Proof.
  apply admin_only_intro; [apply user_roles_lens|..]; try admin_policy.
  intros db c r Ha. rls. unfold is_admin in Ha. by rewrite Ha.
Qed.

(** C1 (as amended). A caller holds the admin role exactly when a row of
    [user_roles] links their identity to [admin]; on [news], [staff],
    [activities] and [user_roles] the policies let an insert, an update or a
    delete through exactly when the caller holds it. An admin's statement
    runs on every row it names. For any other caller an insert is refused
    with the row-level-security error, while an update or a delete reaches no
    row: it ends without an error and leaves the store as it was. *)
Theorem writes_need_admin_role :
  (forall db c,
     is_admin db c = true <->
     exists uid x, c = SignedIn uid /\ x ∈ user_roles_rows db
                   /\ user_roles.user_id x = Some uid
                   /\ user_roles.role x = Some admin)
  /\ admin_only news_table /\ admin_only staff_table
  /\ admin_only activities_table /\ admin_only user_roles_table.
Proof.
  split; [|auto using news_admin_only, staff_admin_only, activities_admin_only,
             user_roles_admin_only].
  intros db c. split.
  - intros Ha. destruct (is_admin_signed_in _ _ Ha) as [uid ->].
    apply has_role_spec in Ha as (x & ? & ? & ?). by exists uid, x.
  - intros (uid & x & -> & ? & ? & ?). apply has_role_spec. by exists x.
Qed.

(** Bob, who holds no role, deletes the news item of the sample store: the
    statement ends without an error and deletes no row. Nothing tells Bob
    that the delete was denied to him. *)
Lemma delete_by_non_admin_is_no_error :
  is_admin sample.store (SignedIn sample.bob) = false
  /\ exec_delete news_table (SignedIn sample.bob)
       (fun r => holds (sql_eq (news.id r) (Some sample.news_item))) sample.store
     = Ok (sample.store, 0)
  /\ exec_delete news_table (SignedIn sample.bob)
       (fun r => holds (sql_eq (news.id r) (Some sample.news_item))) sample.store
     <> Err insufficient_privilege.
Proof. split; [|split]; [by vm_compute..|discriminate]. Qed.

Lemma writes_need_admin_role_witness :
  exec_update news_table (SignedIn sample.bob) sample.later sample.retitle
    (fun r => holds (sql_eq (news.id r) (Some sample.news_item))) sample.store
  = Ok (sample.store, 0).
Proof.
  destruct writes_need_admin_role as (_ & Hnews & _).
  destruct (Hnews sample.store (SignedIn sample.bob)) as (_ & _ & _ & _ & _ & Hno).
  apply Hno. reflexivity.
Defined.

(** ** The update stamp *)

(** C2 (as amended). After a successful update of rows of [profiles], [news],
    [staff] or [activities], the [updated_at] of every row the update reached
    is the [NOW()] of the statement, whatever value the statement itself set
    for the column; it is later than the row's previous [updated_at] exactly
    when that one lies before [NOW()]. The other rows are as they were. *)
Theorem update_sets_updated_at_to_now :
  stamps_updates profiles_table /\ stamps_updates news_table
  /\ stamps_updates staff_table /\ stamps_updates activities_table.
Proof.
  split_and!; apply stamps_updates_intro;
    auto using profiles_lens, news_lens, staff_lens, activities_lens.
Qed.

(** Alice posts the news item of the sample store and supplies its
    [updated_at], 9000, herself: no trigger runs on an insert. Her update at
    5000 then moves [updated_at] back to 5000. *)
Lemma updated_at_can_move_back :
  exec_insert news_table (SignedIn sample.alice) sample.posting sample.post
    sample.before_post = Ok sample.store
  /\ map news.updated_at (news_rows sample.store) = [Some 9000%Z]
  /\ exists db',
       exec_update news_table (SignedIn sample.alice) sample.later sample.retitle
         (fun r => holds (sql_eq (news.id r) (Some sample.news_item))) sample.store
       = Ok (db', 1)
       /\ map news.updated_at (news_rows db') = [Some 5000%Z]
       /\ ~ (9000 < 5000)%Z.
Proof.
  split; [by vm_compute|]. split; [done|].
  eexists. split; [by vm_compute|]. split; [done|lia].
Qed.

Lemma update_sets_updated_at_to_now_witness :
  exists db',
    exec_update news_table (SignedIn sample.alice) sample.later sample.retitle
      (fun r => holds (sql_eq (news.id r) (Some sample.news_item))) sample.store
    = Ok (db', 1)
    /\ Forall2 (fun old new =>
                  if reaches news_table UPDATE (SignedIn sample.alice)
                       (fun r => holds (sql_eq (news.id r) (Some sample.news_item)))
                       sample.store old
                  then get_updated_at new = Some 5000%Z
                       /\ forall t, get_updated_at old = Some t ->
                            ((t < 5000)%Z <->
                             exists t', get_updated_at new = Some t' /\ (t < t')%Z)
                  else new = old)
               (news_rows sample.store) (news_rows db').
Proof.
  eexists. split; [by vm_compute|].
  destruct update_sets_updated_at_to_now as (_ & Hnews & _).
  eapply (Hnews (SignedIn sample.alice) sample.later sample.retitle). by vm_compute.
Defined.

(** ** Profiles *)

(** C3. A profile whose key is [pid] may be inserted by the caller signed in
    as [pid] and by nobody else. An update of it passes the policies exactly
    when the caller is signed in as [pid] and the row keeps that key; so an
    update that leaves the key alone is permitted exactly to that caller.
    This holds whatever roles the store assigns: an admin's update of
    somebody else's profile reaches no row. No policy lets a [DELETE]
    through: for every caller it deletes nothing. *)
Theorem profile_writes_are_the_owners (db : database) (c : caller)
    (P : profiles.row) (pid : uuid) :
  profiles.id P = Some pid ->
  (check_passes profiles_policies INSERT db c P = true <-> c = SignedIn pid)
  /\ (forall P',
        using_passes profiles_policies UPDATE db c P
        && check_passes profiles_policies UPDATE db c P' = true
        <-> c = SignedIn pid /\ profiles.id P' = Some pid)
  /\ (forall P', profiles.id P' = Some pid ->
        using_passes profiles_policies UPDATE db c P
        && check_passes profiles_policies UPDATE db c P' = true <-> c = SignedIn pid)
  /\ (c <> SignedIn pid ->
        (forall m a, new_row profiles_table m a = P ->
                     exec_insert profiles_table c m a db = Err insufficient_privilege)
        /\ (forall m a, exec_update profiles_table c m a (keyed pid) db = Ok (db, 0)))
  /\ using_passes profiles_policies DELETE db c P = false
  /\ (forall w, exec_delete profiles_table c w db = Ok (db, 0)).
Proof.
  intros Hid.
  assert (forall Q, profiles.id Q = Some pid ->
            holds (sql_eq (auth_uid c) (profiles.id Q)) = true <-> c = SignedIn pid) as Hown.
  { intros Q ->. rewrite holds_sql_eq_some. destruct c as [|uid]; simpl; [done|].
    split; congruence. }
  assert (forall Q, check_passes profiles_policies INSERT db c Q
                    = holds (sql_eq (auth_uid c) (profiles.id Q))) as Hins.
  { intros Q. rls. apply orb_false_r. }
  assert (forall Q, using_passes profiles_policies UPDATE db c Q
                    = holds (sql_eq (auth_uid c) (profiles.id Q))) as Hupd.
  { intros Q. rls. apply orb_false_r. }
  assert (forall Q, check_passes profiles_policies UPDATE db c Q
                    = holds (sql_eq (auth_uid c) (profiles.id Q))) as Hchk.
  { intros Q. rls. apply orb_false_r. }
  assert (forall Q, using_passes profiles_policies DELETE db c Q = false) as Hdel.
  { intros Q. by rls. }
  split_and!.
  - by rewrite Hins, Hown.
  - intros P'. rewrite Hupd, Hchk, andb_true_iff, Hown by done.
    rewrite holds_sql_eq. split.
    + intros [-> (a & [= <-] & ?)]. done.
    + intros [-> ?]. split; [done|]. by exists pid.
  - intros P' Hid'. rewrite Hupd, Hchk, andb_true_iff, !Hown by done. tauto.
  - intros Hother. split.
    + intros m a Hnew. unfold exec_insert. rewrite Hnew, Hins.
      destruct (holds _) eqn:Hh; [|done]. by apply Hown in Hh.
    + intros m a. rewrite exec_update_unreached.
      * by destruct profiles_lens as [-> _].
      * intros r _. unfold reaches.
        change (policies profiles_table) with profiles_policies. rewrite Hupd.
        destruct (keyed pid r) eqn:Hk; [|done].
        apply holds_sql_eq_some in Hk.
        destruct (holds (sql_eq (auth_uid c) _)) eqn:Hh; [|apply andb_false_r].
        by apply Hown in Hh.
  - apply Hdel.
  - intros w. unfold exec_delete. rewrite delete_rows_unreached.
    + by destruct profiles_lens as [-> _].
    + intros r _. unfold reaches.
      change (policies profiles_table) with profiles_policies. rewrite Hdel.
      apply andb_false_r.
Qed.

(** Alice is an admin and Bob's profile is not hers: her update of it
    changes nothing. *)
Lemma profile_writes_are_the_owners_witness :
  is_admin sample.store (SignedIn sample.alice) = true
  /\ exec_update profiles_table (SignedIn sample.alice) sample.later sample.rename
       (keyed sample.bob) sample.store = Ok (sample.store, 0).
Proof.
  split; [done|].
  refine (let H := profile_writes_are_the_owners sample.store (SignedIn sample.alice)
                     {| profiles.id := Some sample.bob; profiles.email := None;
                        profiles.full_name := None; profiles.avatar_url := None;
                        profiles.created_at := None; profiles.updated_at := None |}
                     sample.bob eq_refl in _).
  destruct H as (_ & _ & _ & Hother & _). apply Hother. discriminate.
Defined.

(** ** Reading the role assignments *)

(** C7. The policies of [user_roles] let a caller read a row exactly when
    the caller is signed in, whatever roles the store assigns: a [SELECT] of
    a signed-in caller returns every row, that of an anonymous caller none. *)
Theorem role_assignments_readable_iff_signed_in (db : database) (c : caller) :
  (forall r, using_passes user_roles_policies SELECT db c r = true
             <-> current_role c = authenticated)
  /\ exec_select user_roles_table c (fun _ => true) db
     = match c with SignedIn _ => user_roles_rows db | Anonymous => [] end.
Proof.
  assert (forall r, using_passes user_roles_policies SELECT db c r
                    = bool_decide (current_role c = authenticated)) as Hsel.
  { intros r. destruct c as [|uid]; rls. by rewrite has_role_null. }
  split.
  - intros r. rewrite Hsel. by rewrite bool_decide_eq_true.
  - unfold exec_select. destruct c as [|uid].
    + apply filter_none. intros r _. by rewrite Hsel.
    + apply filter_all. intros r _. by rewrite Hsel.
Qed.

(** ** Registration *)

(** C4. A registration that succeeds has appended the identity to
    [auth.users] and exactly one row to [profiles]: it carries the identity's
    id and email, its [full_name] is the one of the registration metadata, or
    the empty string when the metadata give none, and it is the only profile
    with that id. When the insert of the profile fails the registration
    fails, and nothing of it is kept. A registration does succeed when the
    identity has an id and an email and neither an identity nor a profile
    has that id yet. *)
Theorem registration_creates_profile (m : moment) (u : auth_users.row) (db : database) :
  (forall db', register m u db = Ok db' ->
     exists p,
       profiles_rows db' = profiles_rows db ++ [p]
       /\ List.filter (fun q => holds (sql_eq (profiles.id q) (auth_users.id u)))
                      (profiles_rows db') = [p]
       /\ profiles.id p = auth_users.id u
       /\ profiles.email p = auth_users.email u
       /\ profiles.full_name p
          = Some (default "" (json_get_text (auth_users.raw_user_meta_data u) "full_name"))
       /\ auth_users_rows db' = auth_users_rows db ++ [u])
  /\ (forall e, handle_new_user m u (with_auth_users_rows (auth_users_rows db ++ [u]) db) = Err e ->
      forall db', register m u db <> Ok db')
  /\ (forall (uid : uuid) (mail : string),
        auth_users.id u = Some uid -> auth_users.email u = Some mail ->
        (forall v, v ∈ auth_users_rows db -> auth_users.id v <> Some uid) ->
        (forall q, q ∈ profiles_rows db -> profiles.id q <> Some uid) ->
        exists db', register m u db = Ok db').
Proof.
  split_and!.
  - intros db' Hreg. unfold register in Hreg.
    apply bind_ok in Hreg as (_ & _ & Hreg). apply bind_ok in Hreg as (_ & _ & Hreg).
    unfold handle_new_user in Hreg.
    apply insert_row_ok in Hreg as (-> & Hnn & Hfresh & _).
    eexists. split; [reflexivity|]. simpl in *. split_and!; try done.
    + rewrite List.filter_app. simpl. rewrite filter_none.
      * apply andb_true_iff in Hnn as [Hid _]. simpl in Hid.
        destruct (auth_users.id u); simpl in *; [|done]. by rewrite bool_decide_eq_true_2.
      * intros q Hq. specialize (Hfresh q Hq). simpl in Hfresh.
        destruct (auth_users.id u), (profiles.id q); simpl in *; try done.
        repeat case_bool_decide; naive_solver.
    + by destruct (json_get_text _ _).
  - intros e He db' Hreg. unfold register in Hreg.
    apply bind_ok in Hreg as (_ & _ & Hreg). apply bind_ok in Hreg as (_ & _ & Hreg).
    congruence.
  - intros uid mail Hid Hmail Husers Hprofiles. unfold register. rewrite Hid. simpl.
    rewrite existsb_false; simpl.
    + unfold handle_new_user. rewrite insert_row_intro; [by eauto|..]; simpl.
      * by rewrite Hid, Hmail.
      * intros q Hq. rewrite Hid. specialize (Hprofiles q Hq).
        destruct (profiles.id q); simpl; [|done]. case_bool_decide; naive_solver.
      * unfold references_ok, resolves. simpl. rewrite Hid. simpl.
        rewrite map_app, existsb_app. simpl.
        rewrite Hid. simpl. rewrite bool_decide_eq_true_2 by done. by rewrite orb_true_r.
    + intros v Hv. specialize (Husers v Hv).
      destruct (auth_users.id v); simpl; [|done]. case_bool_decide; naive_solver.
Qed.

(** Carol registers with the sample store, without a name. *)
Lemma registration_creates_profile_witness :
  exists db',
    register sample.later
      {| auth_users.id := Some sample.carol;
         auth_users.email := Some "carol@school.example";
         auth_users.raw_user_meta_data := None |} sample.store = Ok db'
    /\ exists p, profiles_rows db' = profiles_rows sample.store ++ [p]
                 /\ profiles.id p = Some sample.carol
                 /\ profiles.email p = Some "carol@school.example"
                 /\ profiles.full_name p = Some "".
Proof.
  eexists. split; [vm_compute; reflexivity|].
  destruct (registration_creates_profile sample.later
              {| auth_users.id := Some sample.carol;
                 auth_users.email := Some "carol@school.example";
                 auth_users.raw_user_meta_data := None |} sample.store) as (Hok & _).
  edestruct Hok as (p & Hp & _ & Hid & Hmail & Hname & _); [vm_compute; reflexivity|].
  exists p. by split_and!.
Defined.

(** ** Deleting a profile *)

Lemma profile_delete_actions (pid : uuid) (vs : list profiles.row) (db : database) :
  (forall r, r ∈ vs -> profiles.id r = Some pid) ->
  vs <> [] ->
  delete_actions profiles_table vs db =
    if authored db (Some pid) then Err foreign_key_violation
    else Ok (with_user_roles_rows
               (List.filter (fun ur => negb (assigned_to pid ur)) (user_roles_rows db)) db).
Proof.
  revert db. induction vs as [|r vs IH]; intros db Hvs Hne; [done|]. simpl.
  rewrite (Hvs r) by left.
  destruct (authored db (Some pid)) eqn:Hau; simpl; [done|].
  destruct vs as [|r' vs]; [done|].
  rewrite IH; [|intros x Hx; apply Hvs; by right|done].
  unfold authored in *. simpl. rewrite Hau. simpl. unfold assigned_to.
  by rewrite filter_filter_same.
Qed.

(** C6 (as amended). Deleting the profile keyed [pid] fails with a foreign
    key violation, and changes nothing, while a row of [news], [staff] or
    [activities] names [pid] as its creator. Otherwise it succeeds: the
    profile and every role assignment of [pid] are gone, and [news], [staff],
    [activities] and [auth.users] are as they were. When no profile has the
    key, nothing is deleted. *)
Theorem profile_delete_cascades_or_fails (pid : uuid) (db : database) :
  let victims := List.filter (keyed pid) (profiles_rows db) in
  (victims = [] -> delete_profile pid db = Ok (db, 0))
  /\ (victims <> [] -> authored db (Some pid) = true ->
      delete_profile pid db = Err foreign_key_violation)
  /\ (victims <> [] -> authored db (Some pid) = false ->
      exists db',
        delete_profile pid db = Ok (db', length victims)
        /\ profiles_rows db' = List.filter (fun r => negb (keyed pid r)) (profiles_rows db)
        /\ user_roles_rows db'
           = List.filter (fun ur => negb (assigned_to pid ur)) (user_roles_rows db)
        /\ (forall r, has_role db' (Some pid) r = false)
        /\ news_rows db' = news_rows db
        /\ staff_rows db' = staff_rows db
        /\ activities_rows db' = activities_rows db
        /\ auth_users_rows db' = auth_users_rows db).
Proof.
  intros victims.
  assert (forall r, r ∈ victims -> profiles.id r = Some pid) as Hkey.
  { intros r Hr%list_elem_of_In. apply List.filter_In in Hr as [_ Hr].
    by apply holds_sql_eq_some in Hr. }
  unfold delete_profile, delete_rows. fold (keyed pid). simpl. fold victims.
  split_and!.
  - intros Hnone. rewrite Hnone. simpl. rewrite filter_all.
    + by destruct db.
    + intros r Hr. apply negb_true_iff. change (keyed pid r = false).
      destruct (keyed pid r) eqn:Hk; [|done].
      assert (r ∈ victims) as Hin; [|rewrite Hnone in Hin; by apply elem_of_nil in Hin].
      apply list_elem_of_In, List.filter_In. by rewrite <- list_elem_of_In.
  - intros Hsome Hau. rewrite (profile_delete_actions pid) by done.
    unfold authored in *. simpl. by rewrite Hau.
  - intros Hsome Hau. rewrite (profile_delete_actions pid) by done.
    unfold authored in *. simpl. rewrite Hau. simpl. eexists. split; [reflexivity|].
    simpl. split_and!; try done.
    intros r. unfold has_role. simpl. apply existsb_false.
    intros x Hx%list_elem_of_In. apply List.filter_In in Hx as [_ Hx].
    unfold assigned_to in Hx. destruct (sql_eq (user_roles.user_id x) (Some pid)) as [[|]|];
      simpl in *; try done; by destruct (sql_eq (user_roles.role x) r) as [[|]|].
Qed.

(** Alice wrote the news item of the sample store: her profile cannot be
    deleted, and her role assignment stays. *)
Lemma authored_profile_is_not_deleted :
  delete_profile sample.alice sample.store = Err foreign_key_violation
  /\ has_role sample.store (Some sample.alice) (Some admin) = true
  /\ map news.created_by (news_rows sample.store) = [Some sample.alice].
Proof. by vm_compute. Qed.

(** Bob wrote nothing: his profile goes. *)
Lemma profile_delete_cascades_or_fails_witness :
  exists db',
    delete_profile sample.bob sample.store = Ok (db', 1)
    /\ news_rows db' = news_rows sample.store
    /\ forall r, has_role db' (Some sample.bob) r = false.
Proof.
  destruct (profile_delete_cascades_or_fails sample.bob sample.store) as (_ & _ & Hok).
  destruct Hok as (db' & Hdel & _ & _ & Hrole & Hnews & _); [done..|].
  exists db'. by split_and!.
Defined.

(** ** The constraints, and one assignment for a profile and a role *)

Section NoConflict.
Context {R : Type} (conf : R -> R -> bool).
Hypothesis conf_sym : forall x y, conf x y = conf y x.

Lemma no_conflict_app (l1 l2 : list R) :
  no_conflict conf (l1 ++ l2) <->
  no_conflict conf l1 /\ no_conflict conf l2
  /\ forall x y, x ∈ l1 -> y ∈ l2 -> conf x y = false.
Proof.
  induction l1 as [|a l1 IH]; simpl.
  - split; [intros ?; split_and!; [done..|]|by intros (_ & ? & _)].
    intros x y Hx. by apply elem_of_nil in Hx.
  - rewrite IH. split.
    + intros (Ha & H1 & H2 & H12). split_and!; try done.
      * intros y Hy. apply Ha, elem_of_app. by left.
      * intros x y [->|Hx]%elem_of_cons Hy; [|by apply H12].
        apply Ha, elem_of_app. by right.
    + intros ((Ha & H1) & H2 & H12). split_and!; try done.
      * intros y [Hy|Hy]%elem_of_app; [by apply Ha|]. apply H12; [by left|done].
      * intros x y Hx Hy. apply H12; [by right|done].
Qed.

Lemma no_conflict_filter (f : R -> bool) (l : list R) :
  no_conflict conf l -> no_conflict conf (List.filter f l).
Proof.
  induction l as [|a l IH]; [done|]. simpl. intros [Ha Hl].
  destruct (f a); [|by apply IH]. simpl. split; [|by apply IH].
  intros y Hy%list_elem_of_In. apply List.filter_In in Hy as [Hy%list_elem_of_In _].
  by apply Ha.
Qed.

Lemma no_conflict_snoc (l : list R) (new : R) :
  no_conflict conf l -> (forall o, o ∈ l -> conf new o = false) ->
  no_conflict conf (l ++ [new]).
Proof.
  intros Hl Hnew. apply no_conflict_app. split_and!; [done|simpl|].
  - split; [|done]. intros y Hy. by apply elem_of_nil in Hy.
  - intros x y Hx ->%list_elem_of_singleton. rewrite conf_sym. by apply Hnew.
Qed.

Lemma no_conflict_replace (l1 l2 : list R) (old new : R) :
  no_conflict conf (l1 ++ old :: l2) ->
  (forall o, o ∈ l1 ++ l2 -> conf new o = false) ->
  no_conflict conf (l1 ++ new :: l2).
Proof.
  rewrite !no_conflict_app. simpl. intros (H1 & (_ & H2) & H12) Hnew.
  split_and!; try done.
  - intros y Hy. apply Hnew, elem_of_app. by right.
  - intros x y Hx [->|Hy]%elem_of_cons.
    + rewrite conf_sym. apply Hnew, elem_of_app. by left.
    + apply H12; [done|by right].
Qed.

Lemma update_rows_no_conflict (hit : R -> bool) upd (done todo l : list R) n :
  (forall others old new, upd others old = Ok new ->
                          forall o, o ∈ others -> conf new o = false) ->
  no_conflict conf (done ++ todo) ->
  update_rows hit upd done todo = Ok (l, n) ->
  no_conflict conf l.
Proof.
  intros Hupd. revert done l n.
  induction todo as [|r rest IH]; intros done l n Hnc Hup; simpl in *.
  - injection Hup as <- <-. by rewrite app_nil_r in Hnc.
  - destruct (hit r).
    + apply bind_ok in Hup as (r' & Hr' & Hup).
      apply bind_ok in Hup as ([l' n'] & Hrest & Hup). injection Hup as <- <-.
      eapply IH; [|done]. rewrite <- app_assoc. simpl.
      eapply no_conflict_replace; [done|]. by eapply Hupd.
    + eapply IH; [|done]. by rewrite <- app_assoc.
Qed.
End NoConflict.

Lemma conflicts_sym {R A} (T : table R A) :
  declared T -> forall x y, conflicts T x y = conflicts T y x.
Proof.
  intros HT x y. destruct HT; simpl.
  - by rewrite sql_eq_sym.
  - by rewrite (sql_eq_sym (user_roles.id x)), (sql_eq_sym (user_roles.user_id x)),
      (sql_eq_sym (user_roles.role x)).
  - by rewrite sql_eq_sym.
  - by rewrite sql_eq_sym.
  - by rewrite sql_eq_sym.
Qed.

Lemma declared_lens {R A} (T : table R A) : declared T -> lens T.
Proof.
  destruct 1; auto using profiles_lens, user_roles_lens, news_lens, staff_lens,
    activities_lens.
Qed.

Section RowsOk.
Context {R A : Type} (T : table R A) (HT : declared T).

Lemma rows_ok_filter (f : R -> bool) (l : list R) :
  rows_ok T l -> rows_ok T (List.filter f l).
Proof.
  intros [Hk Hn]. split; [by apply no_conflict_filter|].
  apply Forall_forall. intros r Hr%list_elem_of_In. apply List.filter_In in Hr as [Hr _].
  apply list_elem_of_In in Hr. by eapply Forall_forall in Hn.
Qed.

Lemma rows_ok_insert new db db' :
  insert_row T new db = Ok db' -> rows_ok T (rows T db) ->
  rows_ok T (rows T db ++ [new]).
Proof.
  intros (_ & Hnn & Hfresh & _)%insert_row_ok [Hk Hn]. split.
  - apply no_conflict_snoc; [by apply conflicts_sym|done..].
  - apply Forall_app. split; [done|]. by constructor.
Qed.

Lemma rows_ok_update c m a db (hit : R -> bool) (done todo l : list R) n :
  update_rows hit (update_row T c m a db) done todo = Ok (l, n) ->
  rows_ok T (done ++ todo) -> rows_ok T l.
Proof.
  intros Hup [Hk Hn]. split.
  - eapply (update_rows_no_conflict _ (conflicts_sym T HT)); [|done..].
    intros others old new Hok. by apply update_row_ok in Hok as (_ & _ & _ & _ & ? & _).
  - apply update_rows_spec in Hup as (todo' & -> & _ & Hall).
    apply Forall_app in Hn as [Hdone Htodo]. apply Forall_app. split; [done|].
    clear Hk Hdone. induction Hall as [|old new todo todo' Hrel Hall IH]; [done|].
    apply Forall_cons in Htodo as [Hold Htodo]. constructor; [|by apply IH].
    destruct (hit old); [|by subst].
    destruct Hrel as (others & Hok). by apply update_row_ok in Hok as (_ & _ & _ & ? & _).
Qed.
End RowsOk.

(** The referential actions of deleted profiles remove role assignments only. *)
Lemma profile_delete_actions_frame (vs : list profiles.row) (db db' : database) :
  delete_actions profiles_table vs db = Ok db' ->
  profiles_rows db' = profiles_rows db /\ news_rows db' = news_rows db
  /\ staff_rows db' = staff_rows db /\ activities_rows db' = activities_rows db
  /\ auth_users_rows db' = auth_users_rows db
  /\ exists f, user_roles_rows db' = List.filter f (user_roles_rows db).
Proof.
  revert db. induction vs as [|r vs IH]; intros db Hdel; simpl in Hdel.
  - injection Hdel as <-. split_and!; try done. exists (fun _ => true).
    by rewrite filter_all.
  - apply bind_ok in Hdel as (db1 & Hfirst & Hrest).
    apply bind_ok in Hfirst as (_ & _ & Hfirst). injection Hfirst as <-.
    apply IH in Hrest as (-> & -> & -> & -> & -> & f & ->). simpl.
    split_and!; try done.
    exists (fun x => negb (holds (sql_eq (user_roles.user_id x) (profiles.id r))) && f x).
    induction (user_roles_rows db) as [|x l IHl]; [done|]. simpl.
    destruct (negb _); simpl; [|done]. destruct (f x); by rewrite IHl.
Qed.

Lemma insert_row_constraints {R A} (T : table R A) new db db' :
  declared T -> insert_row T new db = Ok db' ->
  constraints_hold db -> constraints_hold db'.
Proof.
  intros HT Hin Hinv R' A' T' HT'.
  pose proof (rows_ok_insert T HT _ _ _ Hin (Hinv _ _ T HT)) as Hnew.
  apply insert_row_ok in Hin as (-> & _).
  specialize (Hinv _ _ T' HT'). destruct HT, HT'; done.
Qed.

Lemma exec_update_constraints {R A} (T : table R A) c m a w db db' n :
  declared T -> exec_update T c m a w db = Ok (db', n) ->
  constraints_hold db -> constraints_hold db'.
Proof.
  intros HT Hup Hinv R' A' T' HT'. unfold exec_update in Hup.
  apply bind_ok in Hup as ([l k] & Hup & Heq). injection Heq as <- <-.
  pose proof (rows_ok_update T HT _ _ _ _ _ [] _ _ _ Hup (Hinv _ _ T HT)) as Hnew.
  specialize (Hinv _ _ T' HT'). destruct HT, HT'; done.
Qed.

Lemma delete_rows_constraints {R A} (T : table R A) hit db db' n :
  declared T -> delete_rows T hit db = Ok (db', n) ->
  constraints_hold db -> constraints_hold db'.
Proof.
  intros HT Hdel Hinv R' A' T' HT'. unfold delete_rows in Hdel.
  apply bind_ok in Hdel as (db1 & Hact & Heq). injection Heq as <- <-.
  pose proof (rows_ok_filter T (fun r => negb (hit r)) _ (Hinv _ _ T HT)) as Hnew.
  pose proof (Hinv _ _ user_roles_table declared_user_roles) as Hroles.
  specialize (Hinv _ _ T' HT').
  destruct HT.
  - apply profile_delete_actions_frame in Hact as (Hp & Hn & Hs & Ha & _ & f & Hr).
    simpl in *. destruct HT'; simpl; rewrite ?Hp, ?Hn, ?Hs, ?Ha, ?Hr; try done.
    by apply rows_ok_filter.
  - rewrite delete_actions_none in Hact by done. injection Hact as <-. by destruct HT'.
  - rewrite delete_actions_none in Hact by done. injection Hact as <-. by destruct HT'.
  - rewrite delete_actions_none in Hact by done. injection Hact as <-. by destruct HT'.
  - rewrite delete_actions_none in Hact by done. injection Hact as <-. by destruct HT'.
Qed.

Lemma step_constraints db db' : step db db' -> constraints_hold db -> constraints_hold db'.
Proof.
  intros Hstep Hinv. destruct Hstep as
    [m u db db' Hreg|uid db db' Hdel|R A T c m a db db' HT Hin
    |R A T c m a w db db' n HT Hup|R A T c w db db' n HT Hdel
    |R A T new db db' HT Hin|R A T hit db db' n HT Hdel].
  - unfold register in Hreg.
    apply bind_ok in Hreg as (_ & _ & Hreg). apply bind_ok in Hreg as (_ & _ & Hreg).
    unfold handle_new_user in Hreg.
    eapply (insert_row_constraints profiles_table); [constructor|done|].
    intros R' A' T' HT'. specialize (Hinv _ _ T' HT'). by destruct HT'.
  - unfold delete_user in Hdel. apply bind_ok in Hdel as ([db1 k] & Hdel & Heq).
    injection Heq as <-. unfold delete_profile in Hdel.
    eapply (delete_rows_constraints profiles_table); [constructor|done|].
    intros R' A' T' HT'. specialize (Hinv _ _ T' HT'). by destruct HT'.
  - unfold exec_insert in Hin. apply bind_ok in Hin as (_ & _ & Hin).
    by eapply insert_row_constraints.
  - by eapply exec_update_constraints.
  - by eapply delete_rows_constraints.
  - by eapply insert_row_constraints.
  - by eapply delete_rows_constraints.
Qed.

Lemma reachable_constraints db : reachable db -> constraints_hold db.
Proof.
  unfold reachable. revert db. apply rtc_ind_r.
  - intros R A T HT. split; by destruct HT.
  - intros d1 d2 _ Hstep IH. by eapply step_constraints.
Qed.

Lemma constraints_at_most_one db : constraints_hold db -> at_most_one_assignment db.
Proof.
  unfold at_most_one_assignment. intros Hinv P r.
  destruct (Hinv _ _ user_roles_table declared_user_roles) as [Hkeys _].
  simpl in Hkeys. induction (user_roles_rows db) as [|x l IH]; simpl; [lia|].
  destruct Hkeys as [Hx Hl].
  destruct (assigned_to P x && holds (sql_eq (user_roles.role x) (Some r))) eqn:Hpx;
    [|by apply IH].
  simpl. rewrite filter_none; [simpl; lia|].
  intros y Hy. specialize (Hx y Hy). simpl in Hx.
  apply andb_true_iff in Hpx as [Hu%holds_sql_eq_some Hr%holds_sql_eq_some].
  rewrite Hu, Hr in Hx. apply orb_false_iff in Hx as [_ Hx].
  unfold assigned_to.
  destruct (user_roles.user_id y) as [u|], (user_roles.role y) as [r'|]; simpl in *;
    try done; repeat case_bool_decide; simplify_eq; done.
Qed.

Lemma has_role_mono db db' (u : option uuid) (r : option app_role) (extra : list user_roles.row) :
  user_roles_rows db' = user_roles_rows db ++ extra ->
  has_role db u r = true -> has_role db' u r = true.
Proof.
  unfold has_role. intros -> Hr. rewrite existsb_app, Hr. done.
Qed.

(** C5. In every store reached from the empty one by the statements of the
    schema, a profile and a role have at most one row of [user_roles]. And
    when an insert of the assignment (P, admin) has succeeded, a second
    insert of (P, admin) by the same caller is rejected as a unique
    violation, while an insert of (P, user) succeeds, provided P does not
    hold that role yet and the identifier drawn for the row is new. *)
Theorem role_assignments_are_unique :
  (forall db, reachable db -> at_most_one_assignment db)
  /\ (forall c m1 m2 m3 (P : uuid) db db1,
        exec_insert user_roles_table c m1 (grant P admin) db = Ok db1 ->
        exec_insert user_roles_table c m2 (grant P admin) db1 = Err unique_violation
        /\ (has_role db (Some P) (Some user) = false ->
            (forall x, x ∈ user_roles_rows db1 ->
                       user_roles.id x <> Some (uuid_generate_v4 m3)) ->
            exists db2,
              exec_insert user_roles_table c m3 (grant P user) db1 = Ok db2
              /\ has_role db2 (Some P) (Some admin) = true
              /\ has_role db2 (Some P) (Some user) = true)).
Proof.
  split; [intros db Hr; by apply constraints_at_most_one, reachable_constraints|].
  intros c m1 m2 m3 P db db1 Hfirst.
  destruct (user_roles_admin_only db c) as (Hins & _).
  destruct (user_roles_admin_only db1 c) as (Hins1 & _).
  unfold exec_insert in Hfirst.
  apply bind_ok in Hfirst as (_ & Hadm%require_ok & Hfirst).
  rewrite Hins in Hadm.
  apply insert_row_ok in Hfirst as (-> & _ & _ & Href).
  set (new1 := new_row user_roles_table m1 (grant P admin)) in *.
  set (db1 := with_rows user_roles_table (rows user_roles_table db ++ [new1]) db) in *.
  assert (is_admin db1 c = true) as Hadm1.
  { unfold is_admin in *. by eapply (has_role_mono db db1 _ _ [new1]). }
  split.
  - unfold exec_insert. rewrite Hins1, Hadm1. unfold insert_row, db1, new1. simpl.
    rewrite existsb_app. simpl. rewrite (bool_decide_eq_true_2 (P = P)) by done.
    simpl. by rewrite !orb_true_r.
  - intros Hnot Hnew. unfold exec_insert. rewrite Hins1, Hadm1. simpl.
    rewrite insert_row_intro.
    + eexists. split; [reflexivity|]. unfold has_role, db1, new1. simpl.
      rewrite !existsb_app. simpl. rewrite (bool_decide_eq_true_2 (P = P)) by done.
      simpl. by rewrite !orb_true_r.
    + done.
    + intros o Ho. specialize (Hnew o Ho). simpl in *.
      apply orb_false_iff. split.
      * destruct (user_roles.id o); simpl; [|done]. case_bool_decide; congruence.
      * apply elem_of_app in Ho as [Ho| ->%list_elem_of_singleton]; [|simpl].
        -- destruct (holds (sql_and _ _)) eqn:Hh; [|done].
           rewrite <- Hnot. symmetry. unfold has_role. apply existsb_exists.
           exists o. rewrite <- list_elem_of_In. split; [done|].
           by rewrite (sql_eq_sym (user_roles.user_id o)), (sql_eq_sym (user_roles.role o)).
        -- by case_bool_decide.
    + done.
Qed.
(** The sample store is reached from the empty one: Alice and Bob register,
    the owner of the schema assigns Alice the admin role, Alice posts. *)
Lemma sample_store_reachable : reachable sample.store.
Proof.
  unfold reachable.
  eapply rtc_l.
  { eapply (step_register {| NOW := 1000%Z; uuid_generate_v4 := "" |}
              {| auth_users.id := Some sample.alice;
                 auth_users.email := Some "alice@school.example";
                 auth_users.raw_user_meta_data := Some [("full_name", JString "Alice")] |}).
    vm_compute. reflexivity. }
  eapply rtc_l.
  { eapply (step_register {| NOW := 2000%Z; uuid_generate_v4 := "" |}
              {| auth_users.id := Some sample.bob;
                 auth_users.email := Some "bob@school.example";
                 auth_users.raw_user_meta_data := Some [] |}).
    vm_compute. reflexivity. }
  eapply rtc_l.
  { eapply (step_owner_insert user_roles_table
              {| user_roles.id := Some "00000000-0000-4000-8000-0000000000c3";
                 user_roles.user_id := Some sample.alice; user_roles.role := Some admin;
                 user_roles.created_at := Some 3000%Z |}); [constructor|].
    vm_compute. reflexivity. }
  eapply rtc_once.
  eapply (step_insert news_table (SignedIn sample.alice) sample.posting sample.post);
    [constructor|].
  vm_compute. reflexivity.
Qed.

Lemma role_assignments_are_unique_witness :
  at_most_one_assignment sample.store
  /\ exists db1,
       exec_insert user_roles_table (SignedIn sample.alice) sample.posting
         (grant sample.bob admin) sample.store = Ok db1
       /\ exec_insert user_roles_table (SignedIn sample.alice) sample.later
            (grant sample.bob admin) db1 = Err unique_violation.
Proof.
  destruct role_assignments_are_unique as [Hinv Hscenario].
  split; [apply Hinv, sample_store_reachable|].
  eexists. split; [vm_compute; reflexivity|].
  eapply (Hscenario (SignedIn sample.alice) sample.posting sample.later sample.later
            sample.bob sample.store).
  vm_compute. reflexivity.
Defined.

(** ** Referential integrity *)

Lemma resolves_spec (k : option uuid) (keys : list (option uuid)) :
  resolves k keys = true <-> k = None \/ exists a, k = Some a /\ Some a ∈ keys.
Proof.
  unfold resolves. rewrite orb_true_iff, existsb_exists. split.
  - intros [Hnull|(k' & Hin & Hk)].
    + left. by destruct k.
    + right. apply holds_sql_eq in Hk as (a & -> & ->). exists a.
      by rewrite list_elem_of_In.
  - intros [->|(a & -> & Hin)]; [by left|]. right. exists (Some a).
    rewrite <- list_elem_of_In. split; [done|]. apply holds_sql_eq. by exists a.
Qed.

Lemma referenced_spec (k : option uuid) (refs : list (option uuid)) :
  referenced k refs = true <-> exists a, k = Some a /\ Some a ∈ refs.
Proof.
  unfold referenced. rewrite existsb_exists. split.
  - intros (k' & Hin & Hk). apply holds_sql_eq in Hk as (a & -> & ->). exists a.
    by rewrite list_elem_of_In.
  - intros (a & -> & Hin). exists (Some a). rewrite <- list_elem_of_In.
    split; [done|]. apply holds_sql_eq. by exists a.
Qed.

Lemma resolves_mono (k : option uuid) (keys keys' : list (option uuid)) :
  (forall a, Some a ∈ keys -> Some a ∈ keys') ->
  resolves k keys = true -> resolves k keys' = true.
Proof.
  intros Hsub. rewrite !resolves_spec. intros [->|(a & -> & Hin)]; [by left|].
  right. exists a. split; [done|]. by apply Hsub.
Qed.

Lemma named_profile_in_use {R A} (T : table R A) (db : database) (r : R) (a : uuid) :
  names_profiles T -> r ∈ rows T db -> foreign_key T r = Some a ->
  in_use db (Some a) = true.
Proof.
  intros HT Hr Hfk. unfold in_use, authored. rewrite !orb_true_iff, !referenced_spec.
  destruct HT; simpl in *.
  - left. exists a. split; [done|]. rewrite <- Hfk. by apply list_elem_of_fmap_2.
  - right. left. left. exists a. split; [done|]. rewrite <- Hfk. by apply list_elem_of_fmap_2.
  - right. left. right. exists a. split; [done|]. rewrite <- Hfk. by apply list_elem_of_fmap_2.
  - right. right. exists a. split; [done|]. rewrite <- Hfk. by apply list_elem_of_fmap_2.
Qed.

Lemma update_rows_Forall {R} (P : R -> Prop) (hit : R -> bool) upd (done todo l : list R) n :
  update_rows hit upd done todo = Ok (l, n) ->
  (forall others old new, upd others old = Ok new -> P new) ->
  Forall P (done ++ todo) -> Forall P l.
Proof.
  intros Hup Hupd Hall.
  apply update_rows_spec in Hup as (todo' & -> & _ & Hrel).
  apply Forall_app in Hall as [Hdone Htodo]. apply Forall_app. split; [done|].
  clear Hdone. induction Hrel as [|old new todo todo' Hon Hrel IH]; [done|].
  apply Forall_cons in Htodo as [Hold Htodo]. constructor; [|by apply IH].
  destruct (hit old); [|by subst]. destruct Hon as (others & Hok). by eapply Hupd.
Qed.

(** An update of profiles keeps every key that is in use. *)
Lemma profiles_update_keeps_keys c m a w db l n (k : uuid) :
  update_rows (reaches profiles_table UPDATE c w db) (update_row profiles_table c m a db)
    [] (profiles_rows db) = Ok (l, n) ->
  in_use db (Some k) = true ->
  Some k ∈ map profiles.id (profiles_rows db) -> Some k ∈ map profiles.id l.
Proof.
  intros Hup Huse Hin.
  apply update_rows_spec in Hup as (l' & -> & _ & Hrel). simpl.
  apply list_elem_of_fmap in Hin as (p & Hk & Hp).
  apply list_elem_of_lookup in Hp as [i Hi].
  destruct (Forall2_lookup_l _ _ _ _ _ Hrel Hi) as (p' & Hi' & Hpp').
  apply list_elem_of_fmap. exists p'. split; [|by eapply list_elem_of_lookup_2].
  destruct (reaches _ _ _ _ _ p); [|by subst].
  destruct Hpp' as (others & Hok).
  apply update_row_ok in Hok as (_ & _ & _ & _ & _ & _ & Hkey). simpl in Hkey.
  rewrite <- Hk, Huse, andb_true_r in Hkey.
  apply negb_false_iff, holds_sql_eq in Hkey as (b & Hb & Hb'). congruence.
Qed.

Lemma filter_filter {X} (f g : X -> bool) (l : list X) :
  List.filter f (List.filter g l) = List.filter (fun x => g x && f x) l.
Proof.
  induction l as [|x l IH]; [done|]. simpl. destruct (g x); simpl; [|done].
  destruct (f x); by rewrite IH.
Qed.

(** What the referential actions of deleted profiles do: none of the
    profiles was named by a content row, and the role assignments that named
    one of them are gone. *)
Lemma profile_delete_actions_spec (vs : list profiles.row) (db db' : database) :
  delete_actions profiles_table vs db = Ok db' ->
  (forall v, v ∈ vs -> authored db (profiles.id v) = false)
  /\ user_roles_rows db'
     = List.filter
         (fun ur => forallb (fun v => negb (holds (sql_eq (user_roles.user_id ur)
                                                          (profiles.id v)))) vs)
         (user_roles_rows db)
  /\ profiles_rows db' = profiles_rows db /\ news_rows db' = news_rows db
  /\ staff_rows db' = staff_rows db /\ activities_rows db' = activities_rows db
  /\ auth_users_rows db' = auth_users_rows db.
Proof.
  revert db. induction vs as [|v vs IH]; intros db Hdel; simpl in Hdel.
  - injection Hdel as <-. split_and!; try done.
    + intros v Hv. by apply elem_of_nil in Hv.
    + simpl. by rewrite filter_all.
  - apply bind_ok in Hdel as (db1 & Hfirst & Hrest).
    apply bind_ok in Hfirst as (_ & Hau%require_ok%negb_true_iff & Hfirst).
    injection Hfirst as <-.
    apply IH in Hrest as (Hvs & -> & -> & -> & -> & -> & ->). simpl.
    split_and!; try done.
    + intros x [->|Hx]%elem_of_cons; [done|]. by apply Hvs in Hx.
    + by rewrite filter_filter.
Qed.

Lemma forallb_true {X} (f : X -> bool) (l : list X) :
  forallb f l = true <-> forall x, x ∈ l -> f x = true.
Proof. rewrite forallb_forall. by setoid_rewrite list_elem_of_In. Qed.

Ltac frame_references Hinv :=
  try done;
  try (eapply Forall_impl; [exact Hinv|]; intros ?; apply resolves_mono; intros ?;
       rewrite map_app, elem_of_app; by left).

Lemma insert_row_references {R A} (T : table R A) new db db' :
  declared T -> insert_row T new db = Ok db' ->
  references_hold db -> references_hold db'.
Proof.
  intros HT (-> & _ & _ & Href)%insert_row_ok Hinv R' A' T' HT'.
  specialize (Hinv _ _ T' HT'). unfold references_hold_in, references_ok in *.
  destruct HT, HT'; simpl in *; rewrite ?Forall_app, ?Forall_singleton;
    try split; frame_references Hinv.
Qed.

Lemma exec_update_references {R A} (T : table R A) c m a w db db' n :
  declared T -> exec_update T c m a w db = Ok (db', n) ->
  references_hold db -> references_hold db'.
Proof.
  intros HT Hup Hinv R' A' T' HT'. unfold exec_update in Hup.
  apply bind_ok in Hup as ([l k] & Hup & Heq). injection Heq as <- <-.
  assert (Forall (fun r => references_ok T db r = true) l) as Hnew.
  { eapply (update_rows_Forall _ _ _ []); [done| |by apply Hinv].
    intros others old new Hok. by apply update_row_ok in Hok as (_ & _ & _ & _ & _ & ? & _). }
  pose proof (Hinv _ _ T' HT') as Hold. unfold references_hold_in, references_ok in *.
  destruct HT.
  - destruct HT'; simpl in *; [done|..];
      (apply Forall_forall; intros r Hr;
       eapply Forall_forall in Hold; [|done];
       apply resolves_spec in Hold as [Hnull|(b & Hfk & Hin)];
       apply resolves_spec; [by left|right; exists b; split; [done|]];
       eapply profiles_update_keeps_keys; [done| |done]).
    + by eapply (named_profile_in_use user_roles_table); [constructor|..].
    + by eapply (named_profile_in_use news_table); [constructor|..].
    + by eapply (named_profile_in_use staff_table); [constructor|..].
    + by eapply (named_profile_in_use activities_table); [constructor|..].
  - by destruct HT'.
  - by destruct HT'.
  - by destruct HT'.
  - by destruct HT'.
Qed.

Lemma filter_In_elem {X} (f : X -> bool) (l : list X) (x : X) :
  x ∈ List.filter f l <-> x ∈ l /\ f x = true.
Proof. by rewrite !list_elem_of_In, List.filter_In. Qed.

Lemma authored_spec (db : database) (b : uuid) :
  authored db (Some b) = true <->
  Some b ∈ map news.created_by (news_rows db)
  \/ Some b ∈ map staff.created_by (staff_rows db)
  \/ Some b ∈ map activities.created_by (activities_rows db).
Proof.
  unfold authored. rewrite !orb_true_iff, !referenced_spec. split.
  - intros [[(a & [= <-] & ?)|(a & [= <-] & ?)]|(a & [= <-] & ?)]; auto.
  - intros [?|[?|?]]; [left; left|left; right|right]; by exists b.
Qed.

Lemma delete_rows_references_in {R A R' A'} (T : table R A) (T' : table R' A')
    hit db db' n :
  declared T -> declared T' -> delete_rows T hit db = Ok (db', n) ->
  references_hold_in T' db -> references_hold_in T' db'.
Proof.
  intros HT HT' Hdel Hold. unfold delete_rows in Hdel.
  apply bind_ok in Hdel as (db1 & Hact & Heq). injection Heq as <- <-.
  unfold references_hold_in, references_ok in *.
  destruct HT.
  - (* profiles: the rows that named a deleted profile are gone, or stopped it *)
    apply profile_delete_actions_spec in Hact as (Hau & Hur & Hp & Hn & Hs & Ha & Hu).
    simpl in *.
    assert (forall (b : uuid),
              Some b ∈ map profiles.id (profiles_rows db) ->
              (forall v, v ∈ List.filter hit (profiles_rows db) -> profiles.id v <> Some b) ->
              Some b ∈ map profiles.id
                         (List.filter (fun r => negb (hit r)) (profiles_rows db))) as Hkeep.
    { intros b (p & Hb & Hp')%list_elem_of_fmap Hnot.
      apply list_elem_of_fmap. exists p. split; [done|]. apply filter_In_elem.
      split; [done|]. destruct (hit p) eqn:Hhit; [|done].
      exfalso. apply (Hnot p); [|done]. by apply filter_In_elem. }
    destruct HT'; simpl; rewrite ?Hp, ?Hn, ?Hs, ?Ha, ?Hu, ?Hur; simpl.
    + apply Forall_forall. intros r [Hr _]%filter_In_elem.
      by eapply Forall_forall in Hold.
    + apply Forall_forall. intros r [Hr Hlive]%filter_In_elem.
      eapply Forall_forall in Hold; [|done]. simpl in Hold.
      apply resolves_spec in Hold as [Hnull|(b & Hfk & Hin)];
        apply resolves_spec; [by left|right; exists b; split; [done|]].
      apply Hkeep; [done|]. intros v Hv Hvb.
      rewrite forallb_true in Hlive. specialize (Hlive v Hv).
      apply negb_true_iff in Hlive. rewrite Hfk, Hvb in Hlive. simpl in Hlive.
      by rewrite bool_decide_eq_true_2 in Hlive.
    + apply Forall_forall. intros r Hr.
      eapply Forall_forall in Hold; [|done]. simpl in Hold.
      apply resolves_spec in Hold as [Hnull|(b & Hfk & Hin)];
        apply resolves_spec; [by left|right; exists b; split; [done|]].
      apply Hkeep; [done|]. intros v Hv Hvb.
      specialize (Hau v Hv). rewrite Hvb in Hau.
      change (authored db (Some b) = false) in Hau.
      assert (authored db (Some b) = true) as Hyes; [|congruence].
      apply authored_spec. left. rewrite <- Hfk. by apply list_elem_of_fmap_2.
    + apply Forall_forall. intros r Hr.
      eapply Forall_forall in Hold; [|done]. simpl in Hold.
      apply resolves_spec in Hold as [Hnull|(b & Hfk & Hin)];
        apply resolves_spec; [by left|right; exists b; split; [done|]].
      apply Hkeep; [done|]. intros v Hv Hvb.
      specialize (Hau v Hv). rewrite Hvb in Hau.
      change (authored db (Some b) = false) in Hau.
      assert (authored db (Some b) = true) as Hyes; [|congruence].
      apply authored_spec. right; left. rewrite <- Hfk. by apply list_elem_of_fmap_2.
    + apply Forall_forall. intros r Hr.
      eapply Forall_forall in Hold; [|done]. simpl in Hold.
      apply resolves_spec in Hold as [Hnull|(b & Hfk & Hin)];
        apply resolves_spec; [by left|right; exists b; split; [done|]].
      apply Hkeep; [done|]. intros v Hv Hvb.
      specialize (Hau v Hv). rewrite Hvb in Hau.
      change (authored db (Some b) = false) in Hau.
      assert (authored db (Some b) = true) as Hyes; [|congruence].
      apply authored_spec. right; right. rewrite <- Hfk. by apply list_elem_of_fmap_2.
  - rewrite delete_actions_none in Hact by done. injection Hact as <-.
    destruct HT'; simpl in *; try done.
    apply Forall_forall. intros r [Hr _]%filter_In_elem. by eapply Forall_forall in Hold.
  - rewrite delete_actions_none in Hact by done. injection Hact as <-.
    destruct HT'; simpl in *; try done.
    apply Forall_forall. intros r [Hr _]%filter_In_elem. by eapply Forall_forall in Hold.
  - rewrite delete_actions_none in Hact by done. injection Hact as <-.
    destruct HT'; simpl in *; try done.
    apply Forall_forall. intros r [Hr _]%filter_In_elem. by eapply Forall_forall in Hold.
  - rewrite delete_actions_none in Hact by done. injection Hact as <-.
    destruct HT'; simpl in *; try done.
    apply Forall_forall. intros r [Hr _]%filter_In_elem. by eapply Forall_forall in Hold.
Qed.

Lemma delete_rows_references {R A} (T : table R A) hit db db' n :
  declared T -> delete_rows T hit db = Ok (db', n) ->
  references_hold db -> references_hold db'.
Proof.
  intros HT Hdel Hinv R' A' T' HT'.
  eapply (delete_rows_references_in T T'); [done|done|exact Hdel|by apply Hinv].
Qed.

Lemma register_references m u db db' :
  register m u db = Ok db' -> references_hold db -> references_hold db'.
Proof.
  intros Hreg Hinv. unfold register in Hreg.
  apply bind_ok in Hreg as (_ & _ & Hreg). apply bind_ok in Hreg as (_ & _ & Hreg).
  unfold handle_new_user in Hreg.
  eapply (insert_row_references profiles_table); [constructor|done|].
  intros R' A' T' HT'. specialize (Hinv _ _ T' HT').
  unfold references_hold_in, references_ok in *.
  destruct HT'; simpl in *; frame_references Hinv.
Qed.

Lemma delete_user_references uid db db' :
  delete_user uid db = Ok db' -> references_hold db -> references_hold db'.
Proof.
  intros Hdel Hinv R' A' T' HT'. unfold delete_user in Hdel.
  apply bind_ok in Hdel as ([db1 k] & Hdel & Heq). injection Heq as <-.
  unfold delete_profile in Hdel. pose proof (Hinv _ _ T' HT') as Hold.
  destruct HT'.
  - (* the profiles that stay are not the identity's *)
    unfold delete_rows in Hdel. apply bind_ok in Hdel as (db2 & Hact & Heq).
    injection Heq as <- <-.
    apply profile_delete_actions_spec in Hact as (_ & _ & Hp & _ & _ & _ & Hu).
    unfold references_hold_in, references_ok in *. simpl in *. rewrite Hp, Hu.
    apply Forall_forall. intros p [Hp' Hother]%filter_In_elem.
    eapply Forall_forall in Hold; [|done].
    apply resolves_spec in Hold as [Hnull|(b & Hid & Hin)];
      apply resolves_spec; [by left|right; exists b; split; [done|]].
    apply list_elem_of_fmap in Hin as (v & Hb & Hv).
    apply list_elem_of_fmap. exists v. split; [done|]. apply filter_In_elem.
    split; [done|]. rewrite <- Hb. unfold keyed in Hother. by rewrite Hid in Hother.
  - eapply (delete_rows_references_in profiles_table user_roles_table);
      [constructor|constructor|exact Hdel|exact Hold].
  - eapply (delete_rows_references_in profiles_table news_table);
      [constructor|constructor|exact Hdel|exact Hold].
  - eapply (delete_rows_references_in profiles_table staff_table);
      [constructor|constructor|exact Hdel|exact Hold].
  - eapply (delete_rows_references_in profiles_table activities_table);
      [constructor|constructor|exact Hdel|exact Hold].
Qed.

Lemma step_references db db' : step db db' -> references_hold db -> references_hold db'.
Proof.
  intros Hstep Hinv. destruct Hstep as
    [m u db db' Hreg|uid db db' Hdel|R A T c m a db db' HT Hin
    |R A T c m a w db db' n HT Hup|R A T c w db db' n HT Hdel
    |R A T new db db' HT Hin|R A T hit db db' n HT Hdel].
  - by eapply register_references.
  - by eapply delete_user_references.
  - unfold exec_insert in Hin. apply bind_ok in Hin as (_ & _ & Hin).
    by eapply insert_row_references.
  - by eapply exec_update_references.
  - by eapply delete_rows_references.
  - by eapply insert_row_references.
  - by eapply delete_rows_references.
Qed.

Lemma reachable_references db : reachable db -> references_hold db.
Proof.
  unfold reachable. revert db. apply rtc_ind_r.
  - intros R A T HT. unfold references_hold_in. destruct HT; by constructor.
  - intros d1 d2 _ Hstep IH. by eapply step_references.
Qed.

(** Every store the statements lead to satisfies the constraints of the
    schema: keys, [NOT NULL] columns and foreign keys. In particular the
    creator a content row names, if any, is an existing profile. *)
Lemma reachable_consistent db :
  reachable db -> constraints_hold db /\ references_hold db.
Proof. auto using reachable_constraints, reachable_references. Qed.

(** * Properties of the admin panels *)

(** ** Rows read at the interfaces *)

(** In a store whose constraints hold, so in every store the statements lead
    to, the strings the interfaces declare are the values of the rows: no
    [NULL] is read as the empty string there. (The schema lets
    [news.published_date] be [NULL]; the interface [News] does not.) *)
Lemma of_row_exact `{platform} (db : database) :
  constraints_hold db ->
  (forall r, r ∈ news_rows db ->
     news.id r = Some (NewsManager.News.id (NewsManager.of_row r))
     /\ news.title r = Some (NewsManager.News.title (NewsManager.of_row r))
     /\ news.content r = Some (NewsManager.News.content (NewsManager.of_row r)))
  /\ (forall r, r ∈ staff_rows db ->
        staff.id r = Some (StaffManager.Staff.id (StaffManager.of_row r))
        /\ staff.full_name r = Some (StaffManager.Staff.full_name (StaffManager.of_row r))
        /\ staff.position r = Some (StaffManager.Staff.position (StaffManager.of_row r)))
  /\ (forall r, r ∈ activities_rows db ->
        activities.id r
        = Some (ActivitiesManager.Activity.id (ActivitiesManager.of_row r))
        /\ activities.title r
           = Some (ActivitiesManager.Activity.title (ActivitiesManager.of_row r))
        /\ activities.description r
           = Some (ActivitiesManager.Activity.description (ActivitiesManager.of_row r))
        /\ exists t, activities.activity_date r = Some t
                     /\ ActivitiesManager.Activity.activity_date (ActivitiesManager.of_row r)
                        = timestamptz_out t).
Proof.
  intros Hinv. split_and!; intros r Hr.
  - destruct (Hinv _ _ news_table declared_news) as [_ Hnn].
    eapply Forall_forall in Hnn; [|done]. simpl in Hnn.
    unfold NewsManager.of_row. simpl.
    by destruct (news.id r), (news.title r), (news.content r).
  - destruct (Hinv _ _ staff_table declared_staff) as [_ Hnn].
    eapply Forall_forall in Hnn; [|done]. simpl in Hnn.
    unfold StaffManager.of_row. simpl.
    by destruct (staff.id r), (staff.full_name r), (staff.position r).
  - destruct (Hinv _ _ activities_table declared_activities) as [_ Hnn].
    eapply Forall_forall in Hnn; [|done]. simpl in Hnn.
    unfold ActivitiesManager.of_row. simpl.
    destruct (activities.id r), (activities.title r), (activities.description r),
      (activities.activity_date r) as [t|]; try done.
    split_and!; try done. by exists t.
Qed.

(** ** The forms *)

Lemma or_empty_shown x : or_empty x = shown x.
Proof. destruct x as [s|]; simpl; [|done]. by case_bool_decide. Qed.


Section Panels.
Context `{platform}.




End Panels.



(** ** The lists *)

Lemma desc_nulls_first_total {R} (key : R -> option timestamptz) :
  Total (fun a b => desc_nulls_first (key a) (key b)).
Proof.
  intros a b. destruct (key a) as [x|], (key b) as [y|]; simpl; try tauto. lia.
Qed.

Lemma Sorted_neighbours {X} (rel : X -> X -> Prop) (l : list X) i x y :
  Sorted rel l -> l !! i = Some x -> l !! (S i) = Some y -> rel x y.
Proof.
  intros Hs. revert i. induction Hs as [|a l Hs IH Hhd]; intros i Hx Hy; [done|].
  destruct i as [|i]; simpl in *.
  - injection Hx as ->. destruct Hhd as [|b l' Hab]; [done|]. simpl in Hy. by injection Hy as ->.
  - by eapply IH.
Qed.

Lemma order_desc_spec {R} (key : R -> option timestamptz) (l : list R) :
  order_desc key l ≡ₚ l /\ newest_first key (order_desc key l).
Proof.
  unfold order_desc. split; [apply merge_sort_Permutation|].
  intros i x y Hx Hy.
  eapply (Sorted_neighbours (fun a b => desc_nulls_first (key a) (key b))); [|done..].
  pose proof (desc_nulls_first_total key) as Htotal.
  apply (Sorted_merge_sort _).
Qed.

Lemma select_all_admin_managed {R A} (T : table R A) c db :
  (forall r, using_passes (policies T) SELECT db c r = true) ->
  exec_select T c (fun _ => true) db = rows T db.
Proof. intros Hs. unfold exec_select. apply filter_all. intros r _. by rewrite Hs. Qed.

Section Lists.
Context `{platform}.

(** C9. After a fetch that reached the API, the news panel lists every row
    of [news] ordered by [published_date], the activities panel every row of
    [activities] ordered by [activity_date] and the staff panel every row of
    [staff] ordered by [created_at]: of every two neighbours of the list the
    one with the later instant comes first (rows without the instant, if
    any, come before the others). *)
Theorem panel_lists_are_newest_first : lists_newest_first.
Proof.
  split_and!; intros e st db Hon.
  - unfold NewsManager.fetchNews, request. rewrite Hon. simpl.
    eexists. split; [reflexivity|].
    destruct (order_desc_spec news.published_date
                (exec_select news_table (who e) (fun _ => true) db)) as [Hperm Hsort].
    split; [|done]. rewrite Hperm. by rewrite select_all_admin_managed by (intros; rls).
  - unfold ActivitiesManager.fetchActivities, request. rewrite Hon. simpl.
    eexists. split; [reflexivity|].
    destruct (order_desc_spec activities.activity_date
                (exec_select activities_table (who e) (fun _ => true) db)) as [Hperm Hsort].
    split; [|done]. rewrite Hperm. by rewrite select_all_admin_managed by (intros; rls).
  - unfold StaffManager.fetchStaff, request. rewrite Hon. simpl.
    eexists. split; [reflexivity|].
    destruct (order_desc_spec staff.created_at
                (exec_select staff_table (who e) (fun _ => true) db)) as [Hperm Hsort].
    split; [|done]. rewrite Hperm. by rewrite select_all_admin_managed by (intros; rls).
Qed.
End Lists.

(** Bob opens the news panel on the sample board. *)
Lemma panel_lists_are_newest_first_witness :
  exists rows,
    NewsManager.newsList
      (@NewsManager.fetchNews sample.browser sample.bob_online NewsManager.initial
         sample.board)
    = map (@NewsManager.of_row sample.browser) rows
    /\ rows ≡ₚ news_rows sample.board
    /\ newest_first news.published_date rows.
Proof.
  destruct (@panel_lists_are_newest_first sample.browser) as (Hnews & _).
  by apply Hnews.
Defined.

Example board_as_listed :
  map NewsManager.News.id
    (NewsManager.newsList
       (@NewsManager.fetchNews sample.browser sample.bob_online NewsManager.initial
          sample.board))
  = ["n-null"; "n-8000"; "n-6000"; "n-4000"].
Proof. by vm_compute. Qed.

(** ** What the forms write *)

Lemma request_data {X} (e : env) (r : result X) (x : X) :
  request e r = data x -> online e = true /\ r = Ok x.
Proof. unfold request. destruct (online e), r; naive_solver. Qed.

Section WriteFacts.
Context {R A : Type} (T : table R A).

Lemma exec_insert_rows c m a db db' :
  lens T -> exec_insert T c m a db = Ok db' ->
  rows T db' = rows T db ++ [new_row T m a].
Proof.
  intros [_ Hrows] Hin. unfold exec_insert in Hin.
  apply bind_ok in Hin as (_ & _ & Hin).
  apply insert_row_ok in Hin as (-> & _). by rewrite Hrows.
Qed.

Lemma exec_update_rows c m a w db db' n :
  lens T -> exec_update T c m a w db = Ok (db', n) ->
  forall r, r ∈ rows T db' ->
            r ∈ rows T db \/ exists old, r = before_update T m (set_row T a old).
Proof.
  intros [_ Hrows] Hup r Hr. unfold exec_update in Hup.
  apply bind_ok in Hup as ([l k] & Hup & Heq). injection Heq as <- <-.
  rewrite Hrows in Hr. simpl in Hr.
  apply update_rows_spec in Hup as (todo' & -> & _ & Hall). simpl in Hr.
  apply list_elem_of_lookup in Hr as [i Hi].
  destruct (Forall2_lookup_r _ _ _ _ _ Hall Hi) as (old & Hold & Hrel).
  destruct (reaches T UPDATE c w db old).
  - destruct Hrel as (others & (-> & _)%update_row_ok). right. by exists old.
  - left. subst r. by eapply list_elem_of_lookup_2.
Qed.
End WriteFacts.

Section Sends.
Context `{platform}.

(** C10. For their optional inputs the three forms send the text of the
    input, so the empty string for an input left blank, and never a null;
    and after a submit that succeeded, insert or update, every row of the
    panel's table either was there before or holds, in its optional columns
    (image URL, location, department, email, phone, bio), the text of the
    inputs. *)
Theorem forms_send_empty_strings_not_null : forms_send_strings.
Proof.
  split_and!.
  - done.
  - done.
  - intros f a Hb. unfold ActivitiesManager.body in Hb.
    destruct (timestamptz_in _); [|done]. by injection Hb as <-.
  - intros e st db db' Hsave r Hr. unfold NewsManager.save in Hsave.
    destruct (truthy _) as [i|].
    + apply request_data in Hsave as [_ Hsave].
      apply bind_ok in Hsave as ([d k] & Hup & Heq). injection Heq as <-.
      destruct (exec_update_rows news_table _ _ _ _ _ _ _ news_lens Hup r Hr)
        as [?|[old ->]]; [by left|by right].
    + apply request_data in Hsave as [_ Hsave].
      apply (exec_insert_rows news_table) in Hsave; [|apply news_lens].
      simpl in Hsave. rewrite Hsave in Hr.
      apply elem_of_app in Hr as [?| ->%list_elem_of_singleton]; [by left|by right].
  - intros e st db db' Hsave r Hr. unfold StaffManager.save in Hsave.
    destruct (truthy _) as [i|].
    + apply request_data in Hsave as [_ Hsave].
      apply bind_ok in Hsave as ([d k] & Hup & Heq). injection Heq as <-.
      destruct (exec_update_rows staff_table _ _ _ _ _ _ _ staff_lens Hup r Hr)
        as [?|[old ->]]; [by left|by right].
    + apply request_data in Hsave as [_ Hsave].
      apply (exec_insert_rows staff_table) in Hsave; [|apply staff_lens].
      simpl in Hsave. rewrite Hsave in Hr.
      apply elem_of_app in Hr as [?| ->%list_elem_of_singleton]; [by left|by right].
  - intros e st db db' Hsave r Hr. unfold ActivitiesManager.save in Hsave.
    destruct (truthy _) as [i|].
    + apply request_data in Hsave as [_ Hsave].
      apply bind_ok in Hsave as (a & Hbody & Hsave).
      apply bind_ok in Hsave as ([d k] & Hup & Heq). injection Heq as <-.
      unfold ActivitiesManager.body in Hbody.
      destruct (timestamptz_in _); [|done]. injection Hbody as <-.
      destruct (exec_update_rows activities_table _ _ _ _ _ _ _ activities_lens Hup r Hr)
        as [?|[old ->]]; [by left|by right].
    + apply request_data in Hsave as [_ Hsave].
      apply bind_ok in Hsave as (a & Hbody & Hsave).
      unfold ActivitiesManager.body in Hbody.
      destruct (timestamptz_in _); [|done]. injection Hbody as <-.
      apply (exec_insert_rows activities_table) in Hsave; [|apply activities_lens].
      simpl in Hsave. rewrite Hsave in Hr.
      apply elem_of_app in Hr as [?| ->%list_elem_of_singleton]; [by left|by right].
Qed.
End Sends.

(** Alice submits the sample draft, whose image input is blank. *)
Lemma forms_send_empty_strings_not_null_witness :
  exists db',
    NewsManager.save sample.alice_online sample.draft sample.store = data db'
    /\ length (news_rows db') = 2
    /\ forall r, r ∈ news_rows db' ->
                 r ∈ news_rows sample.store \/ news.image_url r = Some "".
Proof.
  eexists. split; [vm_compute; reflexivity|]. split; [done|].
  destruct (@forms_send_empty_strings_not_null sample.browser) as (_ & _ & _ & Hnews & _).
  eapply (Hnews sample.alice_online sample.draft). vm_compute. reflexivity.
Defined.

(** * Further properties of the storage layer *)

(** ** Reading *)

Lemma select_where {R A} (T : table R A) c w db :
  (forall r, using_passes (policies T) SELECT db c r = true) ->
  exec_select T c w db = List.filter w (rows T db).
Proof.
  intros Hs. unfold exec_select. apply List.filter_ext. intros r.
  by rewrite Hs, andb_true_r.
Qed.

(** X1. The rows of [profiles], [news], [staff] and [activities] are
    everybody's to read: for every caller, signed in or not and whatever the
    roles, a [SELECT] returns every row its [WHERE] names. *)
Theorem profiles_and_content_are_public (c : caller) (db : database) :
  (forall w, exec_select profiles_table c w db = List.filter w (profiles_rows db))
  /\ (forall w, exec_select news_table c w db = List.filter w (news_rows db))
  /\ (forall w, exec_select staff_table c w db = List.filter w (staff_rows db))
  /\ (forall w, exec_select activities_table c w db = List.filter w (activities_rows db)).
Proof.
  split_and!; intros w; apply select_where; intros r; by rls.
Qed.

(** ** What a caller without the admin role can change *)

Lemma profiles_check_insert db c (r : profiles.row) :
  check_passes profiles_policies INSERT db c r = holds (sql_eq (auth_uid c) (profiles.id r)).
Proof. rls. apply orb_false_r. Qed.

Lemma profiles_using_update db c (r : profiles.row) :
  using_passes profiles_policies UPDATE db c r = holds (sql_eq (auth_uid c) (profiles.id r)).
Proof. rls. apply orb_false_r. Qed.

Lemma profiles_check_update db c (r : profiles.row) :
  check_passes profiles_policies UPDATE db c r = holds (sql_eq (auth_uid c) (profiles.id r)).
Proof. rls. apply orb_false_r. Qed.

Lemma profiles_using_delete db c (r : profiles.row) :
  using_passes profiles_policies DELETE db c r = false.
Proof. by rls. Qed.

Lemma own_profile c (r : profiles.row) :
  holds (sql_eq (auth_uid c) (profiles.id r)) = true ->
  exists uid, c = SignedIn uid /\ profiles.id r = Some uid.
Proof.
  intros (a & Hc & Hr)%holds_sql_eq. exists a. split; [|done].
  destruct c; simpl in Hc; congruence.
Qed.

Lemma profiles_delete_reaches_nothing c w db :
  exec_delete profiles_table c w db = Ok (db, 0).
Proof.
  unfold exec_delete. rewrite delete_rows_unreached.
  - by destruct profiles_lens as [-> _].
  - intros r _. unfold reaches.
    change (policies profiles_table) with profiles_policies.
    rewrite profiles_using_delete. apply andb_false_r.
Qed.

Lemma names_profiles_declared {R A} (T : table R A) : names_profiles T -> declared T.
Proof. destruct 1; constructor. Qed.

Lemma admin_only_declared {R A} (T : table R A) :
  names_profiles T -> admin_only T.
Proof.
  destruct 1; auto using user_roles_admin_only, news_admin_only, staff_admin_only,
    activities_admin_only.
Qed.

(** The statements of a caller who is not an admin, on the tables whose
    writes are the admins': none ends well but those that change nothing. *)
Lemma non_admin_statement_is_void {R A} (T : table R A) c db db' :
  names_profiles T -> is_admin db c = false ->
  (forall m a, exec_insert T c m a db <> Ok db')
  /\ (forall m a w n, exec_update T c m a w db = Ok (db', n) -> db' = db)
  /\ (forall w n, exec_delete T c w db = Ok (db', n) -> db' = db).
Proof.
  intros HT Ha.
  destruct (admin_only_declared T HT db c) as (_ & _ & _ & _ & _ & Hno).
  destruct (Hno Ha) as (Hi & Hu & Hd). split_and!.
  - intros m a. by rewrite Hi.
  - intros m a w n. rewrite Hu. by intros [= <- _].
  - intros w n. rewrite Hd. by intros [= <- _].
Qed.

(** What a statement on [profiles] that ended well has changed. *)
Lemma profiles_statement_frame c db db' :
  (forall m a, exec_insert profiles_table c m a db = Ok db' ->
     exists uid, c = SignedIn uid
       /\ db' = with_profiles_rows (profiles_rows db ++ [new_row profiles_table m a]) db
       /\ profiles.id (new_row profiles_table m a) = Some uid)
  /\ (forall m a w n, exec_update profiles_table c m a w db = Ok (db', n) ->
        exists l, db' = with_profiles_rows l db
          /\ Forall2 (fun old new =>
                        new = old
                        \/ exists uid, c = SignedIn uid /\ profiles.id old = Some uid
                                       /\ profiles.id new = Some uid)
                     (profiles_rows db) l)
  /\ (forall w n, exec_delete profiles_table c w db = Ok (db', n) -> db' = db).
Proof.
  split_and!.
  - intros m a Hin. unfold exec_insert in Hin.
    apply bind_ok in Hin as (_ & Hchk%require_ok & Hin).
    change (policies profiles_table) with profiles_policies in Hchk.
    rewrite profiles_check_insert in Hchk. apply own_profile in Hchk as (uid & -> & Hid).
    apply insert_row_ok in Hin as (-> & _). by exists uid.
  - intros m a w n Hup. unfold exec_update in Hup.
    apply bind_ok in Hup as ([l k] & Hup & Heq). injection Heq as <- <-.
    apply update_rows_spec in Hup as (l' & -> & _ & Hall). simpl.
    exists l'. split; [done|]. eapply Forall2_impl; [done|].
    intros old new. simpl. destruct (reaches _ _ _ _ _ old) eqn:Hr; [|by left].
    intros (others & Hok). right.
    apply update_row_ok in Hok as (_ & Hchk & _).
    change (policies profiles_table) with profiles_policies in Hchk.
    rewrite profiles_check_update in Hchk. apply own_profile in Hchk as (uid & -> & Hnew).
    unfold reaches in Hr. apply andb_true_iff in Hr as [_ Hr].
    change (policies profiles_table) with profiles_policies in Hr.
    rewrite profiles_using_update in Hr. apply own_profile in Hr as (uid' & [= <-] & Hold).
    by exists uid.
  - intros w n. rewrite profiles_delete_reaches_nothing. by intros [= <- _].
Qed.

Lemma api_statement_cases c db db' :
  api_statement c db db' ->
  (exists R A (T : table R A), names_profiles T
     /\ ((exists m a, exec_insert T c m a db = Ok db')
         \/ (exists m a w n, exec_update T c m a w db = Ok (db', n))
         \/ (exists w n, exec_delete T c w db = Ok (db', n))))
  \/ (exists m a, exec_insert profiles_table c m a db = Ok db')
  \/ (exists m a w n, exec_update profiles_table c m a w db = Ok (db', n))
  \/ (exists w n, exec_delete profiles_table c w db = Ok (db', n)).
Proof.
  intros [R A T m a d d' HT Hin|R A T m a w d d' n HT Hup|R A T w d d' n HT Hdel].
  - destruct HT; [right; left; by eauto|left; do 3 eexists; (split; [constructor|]);
                  left; by eauto..].
  - destruct HT; [right; right; left; by eauto 6|left; do 3 eexists; (split; [constructor|]);
                  right; left; by eauto 6..].
  - destruct HT; [right; right; right; by eauto|left; do 3 eexists; (split; [constructor|]);
                  right; right; by eauto..].
Qed.

(** What a caller who is not an admin can have changed by one statement. *)
Lemma non_admin_frame c db db' :
  is_admin db c = false -> api_statement c db db' ->
  db' = db
  \/ exists uid l, c = SignedIn uid /\ db' = with_profiles_rows l db
       /\ (forall p, p ∈ l -> p ∈ profiles_rows db \/ profiles.id p = Some uid)
       /\ (forall p, p ∈ profiles_rows db -> p ∈ l \/ profiles.id p = Some uid).
Proof.
  intros Ha Hst.
  destruct (profiles_statement_frame c db db') as (Hi & Hu & Hd).
  apply api_statement_cases in Hst
    as [(R & A & T & HT & Hst)|[(m & a & Hin)|[(m & a & w & n & Hup)|(w & n & Hdel)]]].
  - destruct (non_admin_statement_is_void T c db db' HT Ha) as (Hi' & Hu' & Hd').
    destruct Hst as [(m & a & Hin)|[(m & a & w & n & Hup)|(w & n & Hdel)]].
    + by apply Hi' in Hin.
    + left. by eapply Hu'.
    + left. by eapply Hd'.
  - apply Hi in Hin as (uid & -> & -> & Hid). right. eexists uid, _.
    split_and!; [done..| |].
    + intros p [?| ->%list_elem_of_singleton]%elem_of_app; [by left|by right].
    + intros p Hp. left. apply elem_of_app. by left.
  - apply Hu in Hup as (l & -> & Hall). destruct c as [|uid].
    + left. assert (l = profiles_rows db) as ->; [|by destruct db].
      clear -Hall. induction Hall as [|old new l1 l2 Hrel Hall IH]; [done|].
      destruct Hrel as [->|(? & ? & _)]; [by rewrite IH|done].
    + right. exists uid, l. split_and!; [done..| |].
      * intros p [i Hi']%list_elem_of_lookup.
        destruct (Forall2_lookup_r _ _ _ _ _ Hall Hi') as (old & Hold & Hrel).
        destruct Hrel as [->|(u & [= <-] & _ & ?)]; [|by right].
        left. by eapply list_elem_of_lookup_2.
      * intros p [i Hi']%list_elem_of_lookup.
        destruct (Forall2_lookup_l _ _ _ _ _ Hall Hi') as (new & Hnew & Hrel).
        destruct Hrel as [->|(u & [= <-] & ? & _)]; [|by right].
        left. by eapply list_elem_of_lookup_2.
  - left. by eapply Hd.
Qed.

(** X2. One statement through the API by a caller who does not hold the
    admin role changes nothing but, at most, profiles keyed by the caller's
    own identity: the identities, the role assignments (so everybody's
    roles), the news, the staff and the activities are as they were, every
    profile of somebody else is still there, and no profile of somebody else
    has appeared. A statement of a caller who is not signed in changes
    nothing at all. *)
Theorem non_admins_change_their_own_profile_only (c : caller) (db db' : database) :
  is_admin db c = false -> api_statement c db db' ->
  auth_users_rows db' = auth_users_rows db
  /\ user_roles_rows db' = user_roles_rows db
  /\ (forall u r, has_role db' u r = has_role db u r)
  /\ news_rows db' = news_rows db
  /\ staff_rows db' = staff_rows db
  /\ activities_rows db' = activities_rows db
  /\ (forall p, p ∈ profiles_rows db' ->
        p ∈ profiles_rows db \/ exists uid, c = SignedIn uid /\ profiles.id p = Some uid)
  /\ (forall p, p ∈ profiles_rows db ->
        p ∈ profiles_rows db' \/ exists uid, c = SignedIn uid /\ profiles.id p = Some uid)
  /\ (c = Anonymous -> db' = db).
Proof.
  intros Ha Hst.
  destruct (non_admin_frame c db db' Ha Hst) as [->|(uid & l & -> & -> & Hnew & Hold)].
  - split_and!; try done; intros p Hp; by left.
  - split_and!; try done.
    + intros p Hp. destruct (Hnew p Hp); [by left|right; by exists uid].
    + intros p Hp. destruct (Hold p Hp); [by left|right; by exists uid].
Qed.

(** Bob, who holds no role, renames himself: the news and the role
    assignments are as they were. *)
Lemma non_admins_change_their_own_profile_only_witness :
  exists db',
    exec_update profiles_table (SignedIn sample.bob) sample.later sample.rename
      (keyed sample.bob) sample.store = Ok (db', 1)
    /\ user_roles_rows db' = user_roles_rows sample.store
    /\ news_rows db' = news_rows sample.store.
Proof.
  eexists. split; [vm_compute; reflexivity|].
  edestruct (non_admins_change_their_own_profile_only (SignedIn sample.bob) sample.store)
    as (_ & Hroles & _ & Hnews & _).
  - reflexivity.
  - eapply (api_update _ profiles_table sample.later sample.rename (keyed sample.bob));
      [constructor|]. vm_compute. reflexivity.
  - by split.
Defined.

(** ** The first admin *)

Lemma has_role_filter (f : user_roles.row -> bool) db db' u r :
  user_roles_rows db' = List.filter f (user_roles_rows db) ->
  has_role db u r = false -> has_role db' u r = false.
Proof.
  unfold has_role. intros -> Hno. apply existsb_false.
  intros x [Hx _]%filter_In_elem.
  destruct (holds _) eqn:Hh; [|done]. rewrite <- Hno. symmetry.
  apply existsb_exists. exists x. by rewrite <- list_elem_of_In.
Qed.

Lemma api_step_no_admin db db' : api_step db db' -> no_admin db -> no_admin db'.
Proof.
  intros Hstep Hno u. destruct Hstep as [m v db db' Hreg|uid db db' Hdel|c db db' Hst].
  - unfold register in Hreg.
    apply bind_ok in Hreg as (_ & _ & Hreg). apply bind_ok in Hreg as (_ & _ & Hreg).
    unfold handle_new_user in Hreg. apply insert_row_ok in Hreg as (-> & _).
    apply Hno.
  - unfold delete_user in Hdel. apply bind_ok in Hdel as ([db1 k] & Hdel & Heq).
    injection Heq as <-. unfold delete_profile, delete_rows in Hdel.
    apply bind_ok in Hdel as (db2 & Hact & Heq). injection Heq as <- _.
    apply profile_delete_actions_frame in Hact as (_ & _ & _ & _ & _ & f & Hf).
    eapply has_role_filter; [exact Hf|]. apply Hno.
  - destruct (non_admin_frame c db db' (Hno _) Hst) as [->|(uid & l & _ & -> & _)];
      apply Hno.
Qed.

(** X3. Without the owner of the schema nobody becomes the first admin:
    while no row of [user_roles] assigns the admin role, no registration, no
    deletion of an identity and no statement of any caller through the API
    leads to a store in which somebody holds it. *)
Theorem no_first_admin_through_the_api (db db' : database) :
  no_admin db -> rtc api_step db db' -> no_admin db'.
Proof.
  intros Hno Hsteps. induction Hsteps as [|d1 d2 d3 Hstep _ IH]; [done|].
  apply IH. by eapply api_step_no_admin.
Qed.

(** Carol registers with the empty store and renames herself: she is no
    admin, and nobody is. *)
Lemma no_first_admin_through_the_api_witness :
  exists db1 db2,
    register sample.later
      {| auth_users.id := Some sample.carol;
         auth_users.email := Some "carol@school.example";
         auth_users.raw_user_meta_data := None |} empty_database = Ok db1
    /\ exec_update profiles_table (SignedIn sample.carol) sample.later sample.rename
         (keyed sample.carol) db1 = Ok (db2, 1)
    /\ no_admin db2.
Proof.
  do 2 eexists. split; [vm_compute; reflexivity|]. split; [vm_compute; reflexivity|].
  eapply (no_first_admin_through_the_api empty_database).
  - intros u. reflexivity.
  - eapply rtc_l.
    + eapply (api_register sample.later
                {| auth_users.id := Some sample.carol;
                   auth_users.email := Some "carol@school.example";
                   auth_users.raw_user_meta_data := None |}).
      vm_compute. reflexivity.
    + eapply rtc_once, (api_call (SignedIn sample.carol)).
      eapply (api_update _ profiles_table sample.later sample.rename (keyed sample.carol));
        [constructor|].
      vm_compute. reflexivity.
Defined.

(** ** Granting and revoking a role *)

Lemma user_roles_delete_by_admin c w db :
  is_admin db c = true ->
  exec_delete user_roles_table c w db
  = Ok (with_user_roles_rows (List.filter (fun x => negb (w x)) (user_roles_rows db)) db,
        length (List.filter w (user_roles_rows db))).
Proof.
  intros Ha. destruct (user_roles_admin_only db c) as (_ & _ & _ & _ & Hyes & _).
  destruct (Hyes Ha) as (_ & _ & Hd).
  unfold exec_delete, delete_rows.
  rewrite (List.filter_ext _ w) by apply Hd.
  rewrite (List.filter_ext (fun r => negb (reaches _ _ _ _ _ r)) (fun x => negb (w x)))
    by (intros x; by rewrite Hd).
  by rewrite delete_actions_none.
Qed.

Lemma has_role_snoc db (x : user_roles.row) u r :
  has_role (with_user_roles_rows (user_roles_rows db ++ [x]) db) u r
  = has_role db u r
    || holds (sql_and (sql_eq (user_roles.user_id x) u) (sql_eq (user_roles.role x) r)).
Proof. unfold has_role. simpl. rewrite existsb_app. simpl. by rewrite orb_false_r. Qed.

Lemma has_role_grant db m (P : uuid) (r : app_role) u r' :
  has_role (with_rows user_roles_table
              (rows user_roles_table db ++ [new_row user_roles_table m (grant P r)]) db) u r'
  = has_role db u r' || bool_decide (u = Some P /\ r' = Some r).
Proof.
  simpl. rewrite has_role_snoc. f_equal. simpl.
  destruct u as [u|], r' as [r'|]; simpl;
    repeat (case_bool_decide; simpl); try done;
    try (by match goal with H : ~ (_ /\ _) |- _ => destruct H; subst end);
    by match goal with H : _ /\ _ |- _ => destruct H; simplify_eq end.
Qed.

(** X4. An admin grants and revokes roles. When the insert of the
    assignment (P, r) has succeeded, P holds r and everybody holds what they
    held; it does succeed when P has a profile and does not hold r yet and
    the identifier drawn for the row is new. The delete of the assignment
    (P, r) always succeeds: afterwards P does not hold r, and every other
    role of everybody is as it was. *)
Theorem admins_grant_and_revoke (c : caller) (P : uuid) (r : app_role) (db : database) :
  is_admin db c = true ->
  (forall m db',
     exec_insert user_roles_table c m (grant P r) db = Ok db' ->
     has_role db' (Some P) (Some r) = true
     /\ forall u r', has_role db' u r'
                     = has_role db u r' || bool_decide (u = Some P /\ r' = Some r))
  /\ (forall m,
        Some P ∈ map profiles.id (profiles_rows db) ->
        has_role db (Some P) (Some r) = false ->
        (forall x, x ∈ user_roles_rows db -> user_roles.id x <> Some (uuid_generate_v4 m)) ->
        exists db', exec_insert user_roles_table c m (grant P r) db = Ok db')
  /\ (exists db',
        exec_delete user_roles_table c (assignment P r) db
        = Ok (db', length (List.filter (assignment P r) (user_roles_rows db)))
        /\ has_role db' (Some P) (Some r) = false
        /\ forall u r', ~ (u = Some P /\ r' = Some r) ->
                        has_role db' u r' = has_role db u r').
Proof.
  intros Ha. destruct (user_roles_admin_only db c) as (_ & _ & _ & _ & Hyes & _).
  destruct (Hyes Ha) as (Hi & _ & _). split_and!.
  - intros m db' Hin. rewrite Hi in Hin. apply insert_row_ok in Hin as (-> & _).
    split; [|apply has_role_grant]. rewrite has_role_grant.
    rewrite bool_decide_eq_true_2 by done. apply orb_true_r.
  - intros m Hprofile Hnot Hfresh. rewrite Hi. rewrite insert_row_intro; [by eauto|done|..].
    + intros o Ho. simpl. apply orb_false_iff. split.
      * specialize (Hfresh o Ho). destruct (user_roles.id o); simpl; [|done].
        case_bool_decide; congruence.
      * destruct (holds (sql_and _ _)) eqn:Hh; [|done].
        rewrite <- Hnot. symmetry. apply existsb_exists. exists o.
        rewrite <- list_elem_of_In. split; [done|].
        by rewrite (sql_eq_sym (user_roles.user_id o)), (sql_eq_sym (user_roles.role o)).
    + unfold references_ok. simpl. apply resolves_spec. right. by exists P.
  - eexists. split; [by apply user_roles_delete_by_admin|]. split.
    + unfold has_role. simpl. apply existsb_false.
      intros x [_ Hx%negb_true_iff]%filter_In_elem.
      unfold assignment, assigned_to in Hx.
      destruct (user_roles.user_id x), (user_roles.role x); simpl in *; try done;
        repeat case_bool_decide; simplify_eq; done.
    + intros u r' Hother. unfold has_role. simpl.
      induction (user_roles_rows db) as [|x l IH]; [done|]. simpl.
      destruct (assignment P r x) eqn:Hx; simpl; rewrite IH; [|done].
      assert (holds (sql_and (sql_eq (user_roles.user_id x) u)
                             (sql_eq (user_roles.role x) r')) = false) as ->; [|done].
      apply andb_true_iff in Hx as [Hu%holds_sql_eq_some Hr%holds_sql_eq_some].
      rewrite Hu, Hr.
      destruct u as [u|], r' as [r'|]; simpl; try done;
        repeat (case_bool_decide; simpl); try done.
      destruct Hother. by subst.
Qed.

(** Alice revokes her own admin role: she holds it no longer. *)
Lemma admins_grant_and_revoke_witness :
  exists db',
    exec_delete user_roles_table (SignedIn sample.alice) (assignment sample.alice admin)
      sample.store = Ok (db', 1)
    /\ is_admin db' (SignedIn sample.alice) = false.
Proof.
  destruct (admins_grant_and_revoke (SignedIn sample.alice) sample.alice admin sample.store)
    as (_ & _ & db' & Hdel & Hnot & _); [reflexivity|].
  exists db'. by split.
Defined.

(** ** Identities come and go *)

Lemma unreferenced_key db (uid : uuid) :
  references_hold db ->
  (forall p, p ∈ profiles_rows db -> profiles.id p <> Some uid) ->
  authored db (Some uid) = false
  /\ forall ur, ur ∈ user_roles_rows db -> assigned_to uid ur = false.
Proof.
  intros Href Hnone.
  assert (forall (k : option uuid),
            resolves k (map profiles.id (profiles_rows db)) = true -> k <> Some uid) as Hres.
  { intros k [->|(a & -> & Hin)]%resolves_spec; [done|]. intros [= ->].
    apply list_elem_of_fmap in Hin as (p & Hid & Hp). by apply (Hnone p). }
  split.
  - destruct (authored db (Some uid)) eqn:Hau; [|done]. exfalso.
    apply authored_spec in Hau as [Hin|[Hin|Hin]];
      apply list_elem_of_fmap in Hin as (x & Hfk & Hx).
    + pose proof (Href _ _ news_table declared_news) as Hall.
      eapply Forall_forall in Hall; [|exact Hx]. by apply Hres in Hall.
    + pose proof (Href _ _ staff_table declared_staff) as Hall.
      eapply Forall_forall in Hall; [|exact Hx]. by apply Hres in Hall.
    + pose proof (Href _ _ activities_table declared_activities) as Hall.
      eapply Forall_forall in Hall; [|exact Hx]. by apply Hres in Hall.
  - intros ur Hur. destruct (assigned_to uid ur) eqn:Has; [|done]. exfalso.
    apply holds_sql_eq_some in Has.
    pose proof (Href _ _ user_roles_table declared_user_roles) as Hall.
    eapply Forall_forall in Hall; [|exact Hur]. by apply Hres in Hall.
Qed.

(** X5. A registration is undone by the deletion of the identity: in a
    store whose foreign keys resolve, deleting the identity that has just
    been registered succeeds and gives back the store as it was before the
    registration. *)
Theorem deleting_a_new_identity_restores_the_store
    (m : moment) (u : auth_users.row) (uid : uuid) (db db' : database) :
  references_hold db ->
  auth_users.id u = Some uid ->
  register m u db = Ok db' ->
  delete_user uid db' = Ok db.
Proof.
  intros Href Hid Hreg. unfold register in Hreg.
  apply bind_ok in Hreg as (_ & _ & Hreg).
  apply bind_ok in Hreg as (_ & Hnew%require_ok%negb_true_iff & Hreg).
  unfold handle_new_user in Hreg.
  apply insert_row_ok in Hreg as (-> & _ & Hfresh & _). simpl in Hfresh.
  assert (forall p, p ∈ profiles_rows db -> profiles.id p <> Some uid) as Hnone.
  { intros p Hp Hpid. specialize (Hfresh p Hp). rewrite Hid, Hpid in Hfresh.
    simpl in Hfresh. by rewrite bool_decide_eq_true_2 in Hfresh. }
  destruct (unreferenced_key db uid Href Hnone) as [Hau Hroles].
  set (p := new_row profiles_table m
              {| profiles.id' := given (auth_users.id u);
                 profiles.email' := given (auth_users.email u);
                 profiles.full_name' :=
                   given (COALESCE (json_get_text (auth_users.raw_user_meta_data u)
                                                  "full_name") "");
                 profiles.avatar_url' := absent; profiles.created_at' := absent;
                 profiles.updated_at' := absent |}).
  assert (keyed uid p = true) as Hp.
  { unfold keyed, p. simpl. rewrite Hid. simpl. by rewrite bool_decide_eq_true_2. }
  assert (forall q, q ∈ profiles_rows db -> keyed uid q = false) as Hq.
  { intros q Hq. destruct (keyed uid q) eqn:Hk; [|done].
    apply holds_sql_eq_some in Hk. by apply Hnone in Hk. }
  assert (List.filter (fun v => negb (holds (sql_eq (auth_users.id v) (Some uid))))
                      (auth_users_rows db ++ [u]) = auth_users_rows db) as Husers.
  { rewrite List.filter_app. simpl. rewrite Hid. simpl.
    rewrite (bool_decide_eq_true_2 (uid = uid)) by done. simpl. rewrite app_nil_r.
    apply filter_all. intros v Hv. apply negb_true_iff.
    destruct (holds (sql_eq (auth_users.id v) (Some uid))) eqn:Hv'; [|done].
    rewrite <- Hnew. symmetry. apply existsb_exists. exists v.
    rewrite <- list_elem_of_In. split; [done|]. by rewrite Hid, sql_eq_sym. }
  assert (List.filter (keyed uid) (profiles_rows db ++ [p]) = [p]) as Hvictims.
  { rewrite List.filter_app. simpl. rewrite Hp. by rewrite filter_none. }
  assert (List.filter (fun q => negb (keyed uid q)) (profiles_rows db ++ [p])
          = profiles_rows db) as Hrest.
  { rewrite List.filter_app. simpl. rewrite Hp. simpl. rewrite app_nil_r.
    apply filter_all. intros q Hq'. by rewrite Hq. }
  unfold delete_user, delete_profile, delete_rows. simpl. fold p.
  rewrite Husers, Hvictims, Hrest. simpl.
  rewrite Hid. unfold authored in *. simpl. rewrite Hau. simpl.
  rewrite filter_all.
  - by destruct db.
  - intros ur Hur. apply negb_true_iff. by apply Hroles.
Qed.

(** Carol registers with the sample store; her identity is deleted again. *)
Lemma deleting_a_new_identity_restores_the_store_witness :
  exists db',
    register sample.later
      {| auth_users.id := Some sample.carol;
         auth_users.email := Some "carol@school.example";
         auth_users.raw_user_meta_data := None |} sample.store = Ok db'
    /\ delete_user sample.carol db' = Ok sample.store.
Proof.
  eexists. split; [vm_compute; reflexivity|].
  eapply (deleting_a_new_identity_restores_the_store sample.later
            {| auth_users.id := Some sample.carol;
               auth_users.email := Some "carol@school.example";
               auth_users.raw_user_meta_data := None |}).
  - apply reachable_references, sample_store_reachable.
  - reflexivity.
  - vm_compute. reflexivity.
Defined.

Lemma author_has_profile db (uid : uuid) :
  references_hold db -> authored db (Some uid) = true ->
  exists p, p ∈ profiles_rows db /\ profiles.id p = Some uid.
Proof.
  intros Href Hau.
  assert (forall (k : option uuid),
            k = Some uid -> resolves k (map profiles.id (profiles_rows db)) = true ->
            exists p, p ∈ profiles_rows db /\ profiles.id p = Some uid) as Hres.
  { intros k -> [?|(a & [= <-] & Hin)]%resolves_spec; [done|].
    apply list_elem_of_fmap in Hin as (p & Hid & Hp). by exists p. }
  apply authored_spec in Hau as [Hin|[Hin|Hin]];
    apply list_elem_of_fmap in Hin as (x & Hfk & Hx).
  - pose proof (Href _ _ news_table declared_news) as Hall.
    eapply Forall_forall in Hall; [|exact Hx]. by eapply Hres.
  - pose proof (Href _ _ staff_table declared_staff) as Hall.
    eapply Forall_forall in Hall; [|exact Hx]. by eapply Hres.
  - pose proof (Href _ _ activities_table declared_activities) as Hall.
    eapply Forall_forall in Hall; [|exact Hx]. by eapply Hres.
Qed.

(** X6. The deletion of an identity takes its profile and its role
    assignments with it, and is held up by what the identity has written. In
    a store whose foreign keys resolve: while a news, staff or activities row
    names the identity as its creator, the deletion fails with a foreign key
    violation; otherwise it succeeds, and then no identity and no profile has
    that key, the identity holds no role, the identities, profiles and role
    assignments of everybody else are as they were, and so are the news, the
    staff and the activities. *)
Theorem deleting_an_identity (uid : uuid) (db : database) :
  references_hold db ->
  (authored db (Some uid) = true -> delete_user uid db = Err foreign_key_violation)
  /\ (authored db (Some uid) = false ->
      exists db',
        delete_user uid db = Ok db'
        /\ auth_users_rows db'
           = List.filter (fun v => negb (holds (sql_eq (auth_users.id v) (Some uid))))
                         (auth_users_rows db)
        /\ profiles_rows db' = List.filter (fun p => negb (keyed uid p)) (profiles_rows db)
        /\ user_roles_rows db'
           = List.filter (fun ur => negb (assigned_to uid ur)) (user_roles_rows db)
        /\ (forall r, has_role db' (Some uid) r = false)
        /\ news_rows db' = news_rows db
        /\ staff_rows db' = staff_rows db
        /\ activities_rows db' = activities_rows db).
Proof.
  intros Href.
  set (db1 := with_auth_users_rows
                (List.filter (fun v => negb (holds (sql_eq (auth_users.id v) (Some uid))))
                             (auth_users_rows db)) db).
  set (victims := List.filter (keyed uid) (profiles_rows db)).
  set (db2 := with_profiles_rows
                (List.filter (fun p => negb (keyed uid p)) (profiles_rows db)) db1).
  assert (forall p, p ∈ victims -> profiles.id p = Some uid) as Hkey.
  { intros p [_ Hp]%filter_In_elem. by apply holds_sql_eq_some in Hp. }
  assert (delete_user uid db
          = match victims with
            | [] => Ok db2
            | _ => if authored db (Some uid) then Err foreign_key_violation
                   else Ok (with_user_roles_rows
                              (List.filter (fun ur => negb (assigned_to uid ur))
                                           (user_roles_rows db)) db2)
            end) as Hdel.
  { unfold delete_user, delete_profile, delete_rows. fold db1. simpl. fold victims.
    fold db2. destruct victims as [|v vs] eqn:Hv; [done|].
    rewrite (profile_delete_actions uid) by done.
    change (authored db2 (Some uid)) with (authored db (Some uid)).
    by destruct (authored db (Some uid)). }
  assert (forall l r,
            existsb (fun x => holds (sql_and (sql_eq (user_roles.user_id x) (Some uid))
                                             (sql_eq (user_roles.role x) r)))
                    (List.filter (fun ur => negb (assigned_to uid ur)) l) = false) as Hgone.
  { intros l r. apply existsb_false. intros x [_ Hx%negb_true_iff]%filter_In_elem.
    unfold assigned_to in Hx.
    destruct (sql_eq (user_roles.user_id x) (Some uid)) as [[|]|]; simpl in *; try done;
      by destruct (sql_eq (user_roles.role x) r) as [[|]|]. }
  rewrite Hdel. split.
  - intros Hau. rewrite Hau.
    destruct (author_has_profile db uid Href Hau) as (p & Hp & Hid).
    destruct victims as [|v vs] eqn:Hv; [|done].
    assert (p ∈ victims) as Hin; [|rewrite Hv in Hin; by apply elem_of_nil in Hin].
    apply filter_In_elem. split; [done|]. by apply holds_sql_eq_some.
  - intros Hau. rewrite Hau. destruct victims as [|v vs] eqn:Hv.
    + assert (forall p, p ∈ profiles_rows db -> profiles.id p <> Some uid) as Hnone.
      { intros p Hp Hid.
        assert (p ∈ victims) as Hin; [|rewrite Hv in Hin; by apply elem_of_nil in Hin].
        apply filter_In_elem. split; [done|]. by apply holds_sql_eq_some. }
      destruct (unreferenced_key db uid Href Hnone) as [_ Hroles].
      assert (List.filter (fun ur => negb (assigned_to uid ur)) (user_roles_rows db)
              = user_roles_rows db) as Hsame.
      { apply filter_all. intros ur Hur. by rewrite Hroles. }
      exists db2. split_and!; try done.
      intros r. unfold has_role. simpl. rewrite <- Hsame. apply Hgone.
    + eexists. split_and!; try done. intros r. apply Hgone.
Qed.

(** Bob has written nothing: his identity goes, with his profile. Alice has
    written the news item: her identity stays. *)
Lemma deleting_an_identity_witness :
  delete_user sample.alice sample.store = Err foreign_key_violation
  /\ exists db', delete_user sample.bob sample.store = Ok db'
                 /\ map profiles.id (profiles_rows db') = [Some sample.alice].
Proof.
  split.
  - apply (deleting_an_identity sample.alice sample.store);
      [apply reachable_references, sample_store_reachable|reflexivity].
  - eexists. split; vm_compute; reflexivity.
Defined.

(** ** The constraints of the schema *)

(** X7. The constraints the migration declares are kept by every statement
    that ends well, whoever issues it: when the keys are unique, the
    [NOT NULL] columns set and the foreign keys resolved before a
    registration, a deletion of an identity, a statement through the API or
    a statement of the owner, they are so after it. Hence they hold in every
    store reached from the empty one; in particular the creator a content
    row names, if any, is an existing profile. *)
Theorem statements_keep_the_constraints :
  (forall db db',
     constraints_hold db -> references_hold db -> rtc step db db' ->
     constraints_hold db' /\ references_hold db')
  /\ (forall db, reachable db -> constraints_hold db /\ references_hold db).
Proof.
  assert (forall db db',
            constraints_hold db -> references_hold db -> rtc step db db' ->
            constraints_hold db' /\ references_hold db') as Hkeep.
  { intros db db' Hc Hr Hsteps. induction Hsteps as [|d1 d2 d3 Hstep _ IH]; [done|].
    apply IH; [by eapply step_constraints|by eapply step_references]. }
  split; [done|]. intros db Hreach. apply (Hkeep empty_database); [| |done].
  - intros R A T HT. split; by destruct HT.
  - intros R A T HT. unfold references_hold_in. destruct HT; by constructor.
Qed.

(** The sample store, and the store after Bob renamed himself. *)
Lemma statements_keep_the_constraints_witness :
  constraints_hold sample.store
  /\ exists db', exec_update profiles_table (SignedIn sample.bob) sample.later sample.rename
                   (keyed sample.bob) sample.store = Ok (db', 1)
                 /\ references_hold db'.
Proof.
  destruct statements_keep_the_constraints as [Hkeep Hreach].
  split; [apply Hreach, sample_store_reachable|].
  eexists. split; [vm_compute; reflexivity|].
  eapply Hkeep; [apply Hreach, sample_store_reachable..|].
  eapply rtc_once, (step_update profiles_table (SignedIn sample.bob) sample.later
                      sample.rename (keyed sample.bob)); [constructor|].
  vm_compute. reflexivity.
Defined.

(** ** Registrations that fail, and one profile for every identity *)

(** X19. A registration needs an email and a new id. The profile the
    trigger inserts must have an email, so the registration of an identity
    without one, under an id that is not registered yet, ends with a not-null
    violation: the error of the trigger is that of the registration. And the
    registration of an id that is registered already ends with a unique
    violation. *)
Theorem registration_needs_an_email_and_a_new_id
    (m : moment) (u : auth_users.row) (uid : uuid) (db : database) :
  auth_users.id u = Some uid ->
  ((exists v, v ∈ auth_users_rows db /\ auth_users.id v = Some uid) ->
   register m u db = Err unique_violation)
  /\ ((forall v, v ∈ auth_users_rows db -> auth_users.id v <> Some uid) ->
      auth_users.email u = None ->
      register m u db = Err not_null_violation).
Proof.
  intros Hid. split.
  - intros (v & Hv & Hvid). unfold register. rewrite Hid.
    cbn -[sql_eq holds existsb handle_new_user].
    assert (existsb (fun u' => holds (sql_eq (Some uid) (auth_users.id u')))
                    (auth_users_rows db) = true) as ->; [|done].
    apply existsb_exists. exists v. rewrite <- list_elem_of_In. split; [done|].
    rewrite Hvid. simpl. by rewrite bool_decide_eq_true_2.
  - intros Hnew Hmail. unfold register. rewrite Hid.
    cbn -[sql_eq holds existsb handle_new_user].
    rewrite existsb_false.
    + simpl. unfold handle_new_user, insert_row. simpl. by rewrite Hid, Hmail.
    + intros v Hv. specialize (Hnew v Hv). destruct (auth_users.id v); simpl; [|done].
      case_bool_decide; congruence.
Qed.

(** Somebody registers with a phone number only; and Bob registers twice. *)
Lemma registration_needs_an_email_and_a_new_id_witness :
  register sample.later
    {| auth_users.id := Some sample.carol; auth_users.email := None;
       auth_users.raw_user_meta_data := None |} sample.store = Err not_null_violation
  /\ register sample.later
       {| auth_users.id := Some sample.bob; auth_users.email := Some "bob@school.example";
          auth_users.raw_user_meta_data := None |} sample.store = Err unique_violation.
Proof.
  split.
  - eapply (registration_needs_an_email_and_a_new_id sample.later _ sample.carol);
      [reflexivity| |reflexivity].
    intros v Hv. simpl in Hv.
    repeat (apply elem_of_cons in Hv as [->|Hv]; [discriminate|]).
    by apply elem_of_nil in Hv.
  - by vm_compute.
Defined.

Lemma exec_update_frame {R A} (T : table R A) c m a w db db' n :
  lens T -> exec_update T c m a w db = Ok (db', n) ->
  exists l, db' = with_rows T l db
    /\ Forall2 (fun old new =>
                  new = old \/ (w old = true /\ new = before_update T m (set_row T a old)))
               (rows T db) l.
Proof.
  intros _ Hup. unfold exec_update in Hup.
  apply bind_ok in Hup as ([l k] & Hup & Heq). injection Heq as <- <-.
  apply update_rows_spec in Hup as (l' & -> & _ & Hall). exists l'. split; [done|].
  eapply Forall2_impl; [done|]. intros old new. simpl.
  destruct (reaches T UPDATE c w db old) eqn:Hr; [|by left].
  intros (others & (-> & _)%update_row_ok). right. split; [|done].
  unfold reaches in Hr. by apply andb_true_iff in Hr as [[? _]%andb_true_iff _].
Qed.

Lemma exec_insert_frame {R A} (T : table R A) c m a db db' :
  exec_insert T c m a db = Ok db' ->
  db' = with_rows T (rows T db ++ [new_row T m a]) db.
Proof.
  intros Hin. unfold exec_insert in Hin. apply bind_ok in Hin as (_ & _ & Hin).
  by apply insert_row_ok in Hin as (-> & _).
Qed.

Lemma map_filter_key {X K} (key : X -> K) (f : X -> bool) (g : K -> bool) (l : list X) :
  (forall x, f x = g (key x)) ->
  map key (List.filter f l) = List.filter g (map key l).
Proof.
  intros Hfg. induction l as [|x l IH]; [done|]. simpl. rewrite Hfg.
  destruct (g (key x)); simpl; by rewrite IH.
Qed.

(** Where every identity has its profile, a profile cannot be inserted: its
    key must be the id of an identity, which has a profile already. *)
Lemma profile_insert_is_late c m a db db' :
  map profiles.id (profiles_rows db) = map auth_users.id (auth_users_rows db) ->
  exec_insert profiles_table c m a db = Ok db' -> False.
Proof.
  intros Hinv Hin. unfold exec_insert in Hin. apply bind_ok in Hin as (_ & _ & Hin).
  apply insert_row_ok in Hin as (_ & Hnn & Hfresh & Href).
  apply resolves_spec in Href as [Hnull|(k & Hk & Hin)].
  - simpl in Hnn, Hnull. rewrite Hnull in Hnn. done.
  - change (target profiles_table db) with (map auth_users.id (auth_users_rows db)) in Hin.
    rewrite <- Hinv in Hin. apply list_elem_of_fmap in Hin as (p & Hp & Hin).
    specialize (Hfresh p Hin). simpl in Hfresh, Hk. rewrite Hk, <- Hp in Hfresh.
    simpl in Hfresh. by rewrite bool_decide_eq_true_2 in Hfresh.
Qed.

Lemma api_step_profiles db db' :
  api_step db db' ->
  map profiles.id (profiles_rows db) = map auth_users.id (auth_users_rows db) ->
  map profiles.id (profiles_rows db') = map auth_users.id (auth_users_rows db').
Proof.
  intros Hstep Hinv. destruct Hstep as [m v db db' Hreg|uid db db' Hdel|c db db' Hst].
  - unfold register in Hreg.
    apply bind_ok in Hreg as (_ & _ & Hreg). apply bind_ok in Hreg as (_ & _ & Hreg).
    unfold handle_new_user in Hreg. apply insert_row_ok in Hreg as (-> & _).
    simpl. by rewrite !map_app, Hinv.
  - unfold delete_user in Hdel. apply bind_ok in Hdel as ([db1 k] & Hdel & Heq).
    injection Heq as <-. unfold delete_profile, delete_rows in Hdel.
    apply bind_ok in Hdel as (db2 & Hact & Heq). injection Heq as <- _.
    apply profile_delete_actions_frame in Hact as (-> & _ & _ & _ & -> & _). simpl.
    rewrite (map_filter_key profiles.id _
               (fun k => negb (holds (sql_eq k (Some uid))))) by done.
    rewrite (map_filter_key auth_users.id _
               (fun k => negb (holds (sql_eq k (Some uid))))) by done.
    by rewrite Hinv.
  - destruct (profiles_statement_frame c db db') as (Hi & Hu & Hd).
    apply api_statement_cases in Hst
      as [(R & A & T & HT & Hst)|[(m & a & Hin)|[(m & a & w & n & Hup)|(w & n & Hdel)]]].
    + assert (profiles_rows db' = profiles_rows db
              /\ auth_users_rows db' = auth_users_rows db) as [-> ->]; [|done].
      destruct Hst as [(m & a & Hin)|[(m & a & w & n & Hup)|(w & n & Hdel)]].
      * apply exec_insert_frame in Hin as ->. by destruct HT.
      * apply exec_update_frame in Hup as (l & -> & _);
          [|by apply declared_lens, names_profiles_declared].
        by destruct HT.
      * unfold exec_delete, delete_rows in Hdel.
        apply bind_ok in Hdel as (db2 & Hact & Heq). injection Heq as <- _.
        rewrite delete_actions_none in Hact by (by destruct HT).
        injection Hact as <-. by destruct HT.
    + by apply profile_insert_is_late in Hin.
    + apply Hu in Hup as (l & -> & Hall). simpl. rewrite <- Hinv. clear -Hall.
      induction Hall as [|old new l1 l2 Hrel Hall IH]; [done|]. simpl. rewrite IH.
      f_equal. destruct Hrel as [->|(uid & _ & -> & ->)]; done.
    + apply Hd in Hdel as ->. done.
Qed.

(** X20. One profile for every identity. Along every sequence of
    registrations, deletions of identities and statements of callers through
    the API, from the empty store, the profiles are those of the registered
    identities, in the order of their registration: the keys of [profiles]
    are the ids of [auth.users], one for one. No statement of a caller
    deletes or rekeys a profile there, and none inserts one: the policy that
    lets users insert their own profile never comes to an insert that
    succeeds, the trigger having inserted the profile with the identity. *)
Theorem every_identity_has_its_profile (db : database) :
  rtc api_step empty_database db ->
  map profiles.id (profiles_rows db) = map auth_users.id (auth_users_rows db)
  /\ (forall c m a db', exec_insert profiles_table c m a db <> Ok db').
Proof.
  intros Hsteps.
  assert (map profiles.id (profiles_rows db) = map auth_users.id (auth_users_rows db))
    as Hinv.
  { revert db Hsteps. apply rtc_ind_r; [done|].
    intros d1 d2 _ Hstep IH. by eapply api_step_profiles. }
  split; [done|]. intros c m a db' Hin. by eapply profile_insert_is_late.
Qed.

(** Carol registers with the empty store and renames herself. *)
Lemma every_identity_has_its_profile_witness :
  exists db1 db2,
    register sample.later
      {| auth_users.id := Some sample.carol;
         auth_users.email := Some "carol@school.example";
         auth_users.raw_user_meta_data := None |} empty_database = Ok db1
    /\ exec_update profiles_table (SignedIn sample.carol) sample.later sample.rename
         (keyed sample.carol) db1 = Ok (db2, 1)
    /\ map profiles.id (profiles_rows db2) = map auth_users.id (auth_users_rows db2).
Proof.
  do 2 eexists. split; [vm_compute; reflexivity|]. split; [vm_compute; reflexivity|].
  eapply proj1, every_identity_has_its_profile.
  eapply rtc_l.
  - eapply (api_register sample.later
              {| auth_users.id := Some sample.carol;
                 auth_users.email := Some "carol@school.example";
                 auth_users.raw_user_meta_data := None |}).
    vm_compute. reflexivity.
  - eapply rtc_once, (api_call (SignedIn sample.carol)).
    eapply (api_update _ profiles_table sample.later sample.rename (keyed sample.carol));
      [constructor|].
    vm_compute. reflexivity.
Defined.

(** ** Storage *)

Lemma in_created_bucket_spec (o : storage_objects.row) :
  in_created_bucket o <->
  storage_objects.bucket_id o = Some "news-images"
  \/ storage_objects.bucket_id o = Some "staff-images"
  \/ storage_objects.bucket_id o = Some "activity-images".
Proof.
  unfold in_created_bucket, storage_buckets_rows. split.
  - intros (b & Hb & ->). repeat (apply elem_of_cons in Hb as [->|Hb]; [by auto|]).
    by apply elem_of_nil in Hb.
  - intros [-> | [-> | ->]]; eexists; split.
    + left.
    + reflexivity.
    + right; left.
    + reflexivity.
    + right; right; left.
    + reflexivity.
Qed.

Lemma holds_in_bucket db c o (b : string) :
  holds (in_bucket b db c o) = bool_decide (storage_objects.bucket_id o = Some b).
Proof.
  unfold in_bucket. destruct (storage_objects.bucket_id o) as [x|]; simpl; [|done].
  repeat case_bool_decide; simplify_eq; done.
Qed.

Lemma holds_in_bucket_as_admin db c o (b : string) :
  holds (in_bucket_as_admin b db c o)
  = bool_decide (storage_objects.bucket_id o = Some b) && is_admin db c.
Proof.
  unfold in_bucket_as_admin, is_admin.
  destruct (storage_objects.bucket_id o) as [x|]; simpl.
  - repeat case_bool_decide; simplify_eq; simpl; try done; by destruct has_role.
  - by destruct has_role.
Qed.

Ltac storage_policy :=
  unfold using_passes, check_passes, storage_objects_policies, applies, check_condition,
    condition_holds;
  cbn -[in_bucket in_bucket_as_admin];
  rewrite ?holds_in_bucket, ?holds_in_bucket_as_admin;
  repeat match goal with
         | |- context [bool_decide (?a = ?b)] =>
             lazymatch type of a with
             | command =>
                 let v := eval vm_compute in (bool_decide (a = b)) in
                 change (bool_decide (a = b)) with v
             end
         end;
  cbn [andb orb]; rewrite ?andb_false_r, ?orb_false_r; cbn [andb orb].

Lemma storage_select db c o :
  using_passes storage_objects_policies SELECT db c o = bool_decide (in_created_bucket o).
Proof.
  storage_policy. apply eq_true_iff_eq.
  rewrite (bool_decide_eq_true (in_created_bucket o)), in_created_bucket_spec,
    !orb_true_iff, !bool_decide_eq_true.
  tauto.
Qed.

Lemma storage_write_condition db c o :
  bool_decide (storage_objects.bucket_id o = Some "news-images") && is_admin db c
  || (bool_decide (storage_objects.bucket_id o = Some "staff-images") && is_admin db c
      || bool_decide (storage_objects.bucket_id o = Some "activity-images") && is_admin db c)
  = bool_decide (in_created_bucket o) && is_admin db c.
Proof.
  destruct (is_admin db c); rewrite ?andb_true_r, ?andb_false_r; [|done].
  apply eq_true_iff_eq.
  rewrite (bool_decide_eq_true (in_created_bucket o)), in_created_bucket_spec,
    !orb_true_iff, !bool_decide_eq_true.
  tauto.
Qed.

Lemma storage_insert db c o :
  check_passes storage_objects_policies INSERT db c o
  = bool_decide (in_created_bucket o) && is_admin db c.
Proof. storage_policy. apply storage_write_condition. Qed.

Lemma storage_update_using db c o :
  using_passes storage_objects_policies UPDATE db c o
  = bool_decide (in_created_bucket o) && is_admin db c.
Proof. storage_policy. apply storage_write_condition. Qed.

Lemma storage_update_check db c o :
  check_passes storage_objects_policies UPDATE db c o
  = bool_decide (in_created_bucket o) && is_admin db c.
Proof. storage_policy. apply storage_write_condition. Qed.

Lemma storage_delete db c o :
  using_passes storage_objects_policies DELETE db c o
  = bool_decide (in_created_bucket o) && is_admin db c.
Proof. storage_policy. apply storage_write_condition. Qed.

(** X8. The policies on [storage.objects] let every caller, signed in or
    not, read an object exactly when it lies in one of the three buckets the
    migration creates, each of which is created public; objects of any other
    bucket are read by nobody under these policies. *)
Theorem stored_images_are_public (db : database) (c : caller) (o : storage_objects.row) :
  (using_passes storage_objects_policies SELECT db c o = true <-> in_created_bucket o)
  /\ (in_created_bucket o <->
      exists b, b ∈ storage_buckets_rows
                /\ storage_buckets.public b = Some true
                /\ storage_objects.bucket_id o = storage_buckets.id b).
Proof.
  split; [by rewrite storage_select, bool_decide_eq_true|].
  unfold in_created_bucket. split.
  - intros (b & Hb & Ho). exists b. split_and!; [done| |done].
    unfold storage_buckets_rows in Hb.
    repeat (apply elem_of_cons in Hb as [->|Hb]; [done|]). by apply elem_of_nil in Hb.
  - intros (b & Hb & _ & Ho). by exists b.
Qed.

(** X9. The policies on [storage.objects] let an object be uploaded,
    replaced or deleted exactly by a caller who holds the admin role, and
    exactly in the three buckets the migration creates. An update is let
    through when the object lies in one of them before and after: each of
    the three update policies checks its own bucket, but the policies are
    alternatives, so an admin may move an object from one of the three
    buckets to another, and not out of them. *)
Theorem stored_images_are_written_by_admins
    (db : database) (c : caller) (o o' : storage_objects.row) :
  (check_passes storage_objects_policies INSERT db c o = true
   <-> in_created_bucket o /\ is_admin db c = true)
  /\ (using_passes storage_objects_policies DELETE db c o = true
      <-> in_created_bucket o /\ is_admin db c = true)
  /\ (using_passes storage_objects_policies UPDATE db c o
      && check_passes storage_objects_policies UPDATE db c o' = true
      <-> in_created_bucket o /\ in_created_bucket o' /\ is_admin db c = true).
Proof.
  rewrite storage_insert, storage_delete, storage_update_using, storage_update_check.
  rewrite !andb_true_iff, !bool_decide_eq_true. tauto.
Qed.

(** An admin moves an object from the news bucket to the staff bucket. *)
Example a_stored_image_changes_bucket :
  using_passes storage_objects_policies UPDATE sample.store (SignedIn sample.alice)
    {| storage_objects.bucket_id := Some "news-images" |}
  && check_passes storage_objects_policies UPDATE sample.store (SignedIn sample.alice)
       {| storage_objects.bucket_id := Some "staff-images" |} = true.
Proof. by vm_compute. Qed.

(** * Further properties of the admin panels *)

(** ** An admin's statements, exactly *)

Section AdminStatements.
Context {R A : Type} (T : table R A).

(** An update whose new rows pass every check changes exactly the rows it
    names. *)
Lemma update_rows_exact c m a db (hit w : R -> bool) (done todo : list R) :
  (forall x y, conflicts T x y = conflicts T y x) ->
  (forall r, hit r = w r) ->
  (forall r, r ∈ todo -> w r = true ->
     check_passes (policies T) UPDATE db c (before_update T m (set_row T a r)) = true
     /\ using_passes (policies T) SELECT db c (before_update T m (set_row T a r)) = true
     /\ not_null T (before_update T m (set_row T a r)) = true
     /\ references_ok T db (before_update T m (set_row T a r)) = true
     /\ key_in_use T db r (before_update T m (set_row T a r)) = false
     /\ forall o, conflicts T (before_update T m (set_row T a r)) o = conflicts T r o) ->
  no_conflict (conflicts T) (done ++ todo) ->
  update_rows hit (update_row T c m a db) done todo
  = Ok (done ++ map (fun r => if w r then before_update T m (set_row T a r) else r) todo,
        length (List.filter w todo)).
Proof.
  intros Hsym Hhit. revert done.
  induction todo as [|r rest IH]; intros done Hok Hnc; simpl.
  - by rewrite app_nil_r.
  - rewrite Hhit. destruct (w r) eqn:Hw.
    + destruct (Hok r) as (H1 & H2 & H3 & H4 & H5 & H6); [by left|done|].
      set (new := before_update T m (set_row T a r)) in *.
      assert (update_row T c m a db (done ++ rest) r = Ok new) as ->.
      { unfold update_row. fold new. rewrite H1, H2, H3, H4, H5. simpl.
        rewrite existsb_false; [done|].
        intros o Ho. rewrite H6.
        apply no_conflict_app in Hnc as (_ & [Hr _] & Hdr).
        apply elem_of_app in Ho as [Ho|Ho].
        - rewrite Hsym. apply Hdr; [done|by left].
        - by apply Hr. }
      simpl. rewrite IH.
      * simpl. by rewrite <- app_assoc.
      * intros x Hx. apply Hok. by right.
      * rewrite <- app_assoc. simpl. eapply (no_conflict_replace _ Hsym); [done|].
        intros o Ho. rewrite H6.
        apply no_conflict_app in Hnc as (_ & [Hr _] & Hdr).
        apply elem_of_app in Ho as [Ho|Ho].
        -- rewrite Hsym. apply Hdr; [done|by left].
        -- by apply Hr.
    + rewrite IH.
      * by rewrite <- app_assoc.
      * intros x Hx. apply Hok. by right.
      * by rewrite <- app_assoc.
Qed.

(** On the tables whose writes are the admins', an admin's delete removes
    exactly the rows it names. *)
Lemma delete_by_admin c w db :
  names_profiles T -> is_admin db c = true ->
  exec_delete T c w db
  = Ok (with_rows T (List.filter (fun r => negb (w r)) (rows T db)) db,
        length (List.filter w (rows T db))).
Proof.
  intros HT Ha. destruct (admin_only_declared T HT db c) as (_ & _ & _ & _ & Hyes & _).
  destruct (Hyes Ha) as (_ & _ & Hd).
  unfold exec_delete, delete_rows.
  rewrite (List.filter_ext _ w) by apply Hd.
  rewrite (List.filter_ext (fun r => negb (reaches _ _ _ _ _ r)) (fun x => negb (w x)))
    by (intros x; by rewrite Hd).
  rewrite delete_actions_none; [done|]. by destruct HT.
Qed.

(** A statement that names no row changes nothing. *)
Lemma update_of_no_row c m a w db :
  lens T -> (forall r, r ∈ rows T db -> w r = false) ->
  exec_update T c m a w db = Ok (db, 0).
Proof.
  intros [Hsame _] Hw. rewrite exec_update_unreached, Hsame; [done|].
  intros r Hr. unfold reaches. by rewrite Hw.
Qed.

Lemma delete_of_no_row c w db :
  lens T -> (forall r, r ∈ rows T db -> w r = false) ->
  exec_delete T c w db = Ok (db, 0).
Proof.
  intros [Hsame _] Hw. unfold exec_delete. rewrite delete_rows_unreached, Hsame; [done|].
  intros r Hr. unfold reaches. by rewrite Hw.
Qed.
End AdminStatements.

(** A statement that reaches no row, because no row has the key or because
    the caller is no admin. *)
Lemma nothing_to_write {R A} (T : table R A) c (w : R -> bool) db :
  names_profiles T ->
  is_admin db c = false \/ (forall r, r ∈ rows T db -> w r = false) ->
  (forall m a, exec_update T c m a w db = Ok (db, 0))
  /\ exec_delete T c w db = Ok (db, 0).
Proof.
  intros HT [Ha|Hw].
  - destruct (admin_only_declared T HT db c) as (_ & _ & _ & _ & _ & Hno).
    destruct (Hno Ha) as (_ & Hu & Hd). by split.
  - pose proof (declared_lens T (names_profiles_declared T HT)) as Hlens.
    split; [intros m a; by apply update_of_no_row|by apply delete_of_no_row].
Qed.

(** The update the forms send, when an admin sends it: the rows with the key
    take the columns of the form and the stamp of the trigger. *)
Section FormUpdates.
Context {R A : Type} (T : table R A).

Lemma form_update_by_admin c m a w db :
  names_profiles T -> is_admin db c = true ->
  (forall r, using_passes (policies T) SELECT db c r = true) ->
  no_conflict (conflicts T) (rows T db) ->
  (forall r, r ∈ rows T db -> w r = true ->
     not_null T (before_update T m (set_row T a r)) = true
     /\ references_ok T db (before_update T m (set_row T a r)) = true
     /\ forall o, conflicts T (before_update T m (set_row T a r)) o = conflicts T r o) ->
  exec_update T c m a w db
  = Ok (with_rows T
          (map (fun r => if w r then before_update T m (set_row T a r) else r)
               (rows T db)) db,
        length (List.filter w (rows T db))).
Proof.
  intros HT Ha Hsel Hnc Hok.
  destruct (admin_only_declared T HT db c) as (_ & _ & Hchk & _ & Hyes & _).
  destruct (Hyes Ha) as (_ & Hu & _).
  unfold exec_update.
  rewrite (update_rows_exact T c m a db _ w []); [done| |apply Hu| |done].
  - by apply conflicts_sym, names_profiles_declared.
  - intros r Hr Hw. destruct (Hok r Hr Hw) as (H1 & H2 & H3).
    split_and!; try done.
    + by rewrite Hchk.
    + by destruct HT.
Qed.
End FormUpdates.

Lemma news_form_update c m f (i : uuid) db :
  is_admin db c = true -> constraints_hold db -> references_hold db ->
  exec_update news_table c m (NewsManager.body f) (NewsManager.eq_id i) db
  = Ok (with_news_rows
          (map (fun r => if NewsManager.eq_id i r
                         then handle_updated_at m (set_row news_table (NewsManager.body f) r)
                         else r) (news_rows db)) db,
        length (List.filter (NewsManager.eq_id i) (news_rows db))).
Proof.
  intros Ha Hc Hr.
  apply (form_update_by_admin news_table); [constructor|done|by intros; rls| |].
  - by destruct (Hc _ _ news_table declared_news).
  - intros r Hin Hw. apply holds_sql_eq_some in Hw. simpl. rewrite Hw. split_and!; try done.
    pose proof (Hr _ _ news_table declared_news) as Hall.
    unfold references_hold_in in Hall. rewrite Forall_forall in Hall.
    exact (Hall r Hin).
Qed.

Lemma staff_form_update c m f (i : uuid) db :
  is_admin db c = true -> constraints_hold db -> references_hold db ->
  exec_update staff_table c m (StaffManager.body f) (StaffManager.eq_id i) db
  = Ok (with_staff_rows
          (map (fun r => if StaffManager.eq_id i r
                         then handle_updated_at m (set_row staff_table (StaffManager.body f) r)
                         else r) (staff_rows db)) db,
        length (List.filter (StaffManager.eq_id i) (staff_rows db))).
Proof.
  intros Ha Hc Hr.
  apply (form_update_by_admin staff_table); [constructor|done|by intros; rls| |].
  - by destruct (Hc _ _ staff_table declared_staff).
  - intros r Hin Hw. apply holds_sql_eq_some in Hw. simpl. rewrite Hw. split_and!; try done.
    pose proof (Hr _ _ staff_table declared_staff) as Hall.
    unfold references_hold_in in Hall. rewrite Forall_forall in Hall.
    exact (Hall r Hin).
Qed.

Lemma activities_form_update c m a (i : uuid) db :
  is_admin db c = true -> constraints_hold db -> references_hold db ->
  activities.id' a = absent -> activities.created_by' a = absent ->
  (exists t, activities.title' a = given (Some t)) ->
  (exists t, activities.description' a = given (Some t)) ->
  (exists t, activities.activity_date' a = given (Some t)) ->
  exec_update activities_table c m a (ActivitiesManager.eq_id i) db
  = Ok (with_activities_rows
          (map (fun r => if ActivitiesManager.eq_id i r
                         then handle_updated_at m (set_row activities_table a r)
                         else r) (activities_rows db)) db,
        length (List.filter (ActivitiesManager.eq_id i) (activities_rows db))).
Proof.
  intros Ha Hc Hr Hid Hby [t1 Ht1] [t2 Ht2] [t3 Ht3].
  apply (form_update_by_admin activities_table); [constructor|done|by intros; rls| |].
  - by destruct (Hc _ _ activities_table declared_activities).
  - intros r Hin Hw. apply holds_sql_eq_some in Hw. simpl.
    rewrite Hid, Hby, Ht1, Ht2, Ht3. simpl. rewrite Hw. split_and!; try done.
    pose proof (Hr _ _ activities_table declared_activities) as Hall.
    unfold references_hold_in in Hall. rewrite Forall_forall in Hall.
    exact (Hall r Hin).
Qed.

(** ** What the panels fetch *)

Lemma in_sorted {R} (key : R -> option timestamptz) (l : list R) (r : R) :
  r ∈ order_desc key l <-> r ∈ l.
Proof. destruct (order_desc_spec key l) as [Hperm _]. by rewrite Hperm. Qed.

Lemma sorted_length {R} (key : R -> option timestamptz) (l : list R) :
  length (order_desc key l) = length l.
Proof. destruct (order_desc_spec key l) as [Hperm _]. by rewrite Hperm. Qed.

Section Fetches.
Context `{platform}.

Lemma fetchNews_online e st db :
  online e = true ->
  NewsManager.fetchNews e st db
  = NewsManager.setLoading false
      (NewsManager.setNewsList
         (map NewsManager.of_row (order_desc news.published_date (news_rows db))) st).
Proof.
  intros Hon. unfold NewsManager.fetchNews, request. rewrite Hon.
  by rewrite select_all_admin_managed by (intros; rls).
Qed.

Lemma fetchStaff_online e st db :
  online e = true ->
  StaffManager.fetchStaff e st db
  = StaffManager.setLoading false
      (StaffManager.setStaffList
         (map StaffManager.of_row (order_desc staff.created_at (staff_rows db))) st).
Proof.
  intros Hon. unfold StaffManager.fetchStaff, request. rewrite Hon.
  by rewrite select_all_admin_managed by (intros; rls).
Qed.

Lemma fetchActivities_online e st db :
  online e = true ->
  ActivitiesManager.fetchActivities e st db
  = ActivitiesManager.setLoading false
      (ActivitiesManager.setActivitiesList
         (map ActivitiesManager.of_row
              (order_desc activities.activity_date (activities_rows db))) st).
Proof.
  intros Hon. unfold ActivitiesManager.fetchActivities, request. rewrite Hon.
  by rewrite select_all_admin_managed by (intros; rls).
Qed.

Lemma listed {R N} (key : R -> option timestamptz) (of_row : R -> N) (l : list R) (n : N) :
  n ∈ map of_row (order_desc key l) <-> exists r, r ∈ l /\ n = of_row r.
Proof.
  rewrite list_elem_of_fmap. destruct (order_desc_spec key l) as [Hperm _].
  split.
  - intros (r & Hn & Hr). exists r. split; [|done]. by rewrite <- Hperm.
  - intros (r & Hr & Hn). exists r. split; [done|]. by rewrite Hperm.
Qed.
End Fetches.

(** ** Deleting a record *)

Section Deletes.
Context `{platform}.

Lemma news_delete_by_admin e st db (i : uuid) :
  online e = true -> is_admin db (who e) = true ->
  NewsManager.handleDelete true i e st db
  = (NewsManager.fetchNews e (NewsManager.show toast_success st)
       (with_news_rows (List.filter (fun r => negb (NewsManager.eq_id i r)) (news_rows db)) db),
     with_news_rows (List.filter (fun r => negb (NewsManager.eq_id i r)) (news_rows db)) db).
Proof.
  intros Hon Ha. unfold NewsManager.handleDelete, request. simpl. rewrite Hon.
  by rewrite (delete_by_admin news_table) by (done || constructor).
Qed.

Lemma staff_delete_by_admin e st db (i : uuid) :
  online e = true -> is_admin db (who e) = true ->
  StaffManager.handleDelete true i e st db
  = (StaffManager.fetchStaff e (StaffManager.show toast_success st)
       (with_staff_rows (List.filter (fun r => negb (StaffManager.eq_id i r)) (staff_rows db)) db),
     with_staff_rows (List.filter (fun r => negb (StaffManager.eq_id i r)) (staff_rows db)) db).
Proof.
  intros Hon Ha. unfold StaffManager.handleDelete, request. simpl. rewrite Hon.
  by rewrite (delete_by_admin staff_table) by (done || constructor).
Qed.

Lemma activities_delete_by_admin e st db (i : uuid) :
  online e = true -> is_admin db (who e) = true ->
  ActivitiesManager.handleDelete true i e st db
  = (ActivitiesManager.fetchActivities e (ActivitiesManager.show toast_success st)
       (with_activities_rows
          (List.filter (fun r => negb (ActivitiesManager.eq_id i r)) (activities_rows db)) db),
     with_activities_rows
       (List.filter (fun r => negb (ActivitiesManager.eq_id i r)) (activities_rows db)) db).
Proof.
  intros Hon Ha. unfold ActivitiesManager.handleDelete, request. simpl. rewrite Hon.
  by rewrite (delete_by_admin activities_table) by (done || constructor).
Qed.

(** X10. When an admin confirms the deletion of a record, in each panel:
    the rows with that key leave the table and nothing else of the store
    changes, the list is fetched anew and shows rows of the old store only,
    none of them with that key, and one success toast appears. The form and
    the record being edited are left as they are, also when it is the
    deleted record that is being edited. A deletion that is not confirmed
    does nothing. *)
Theorem an_admin_deletes_a_record (e : env) (db : database) (i : uuid) :
  online e = true -> is_admin db (who e) = true ->
  (forall st,
     let res := NewsManager.handleDelete true i e st db in
     res.2 = with_news_rows
               (List.filter (fun r => negb (NewsManager.eq_id i r)) (news_rows db)) db
     /\ (forall r, r ∈ news_rows res.2 -> news.id r <> Some i)
     /\ (forall n, n ∈ NewsManager.newsList res.1 ->
           exists r, r ∈ news_rows db /\ news.id r <> Some i /\ n = NewsManager.of_row r)
     /\ NewsManager.toasts res.1 = NewsManager.toasts st ++ [toast_success]
     /\ NewsManager.editingId res.1 = NewsManager.editingId st
     /\ NewsManager.formData res.1 = NewsManager.formData st
     /\ NewsManager.handleDelete false i e st db = (st, db))
  /\ (forall st,
        let res := StaffManager.handleDelete true i e st db in
        res.2 = with_staff_rows
                  (List.filter (fun r => negb (StaffManager.eq_id i r)) (staff_rows db)) db
        /\ (forall r, r ∈ staff_rows res.2 -> staff.id r <> Some i)
        /\ (forall n, n ∈ StaffManager.staffList res.1 ->
              exists r, r ∈ staff_rows db /\ staff.id r <> Some i
                        /\ n = StaffManager.of_row r)
        /\ StaffManager.toasts res.1 = StaffManager.toasts st ++ [toast_success]
        /\ StaffManager.editingId res.1 = StaffManager.editingId st
        /\ StaffManager.formData res.1 = StaffManager.formData st
        /\ StaffManager.handleDelete false i e st db = (st, db))
  /\ (forall st,
        let res := ActivitiesManager.handleDelete true i e st db in
        res.2 = with_activities_rows
                  (List.filter (fun r => negb (ActivitiesManager.eq_id i r))
                               (activities_rows db)) db
        /\ (forall r, r ∈ activities_rows res.2 -> activities.id r <> Some i)
        /\ (forall n, n ∈ ActivitiesManager.activitiesList res.1 ->
              exists r, r ∈ activities_rows db /\ activities.id r <> Some i
                        /\ n = ActivitiesManager.of_row r)
        /\ ActivitiesManager.toasts res.1 = ActivitiesManager.toasts st ++ [toast_success]
        /\ ActivitiesManager.editingId res.1 = ActivitiesManager.editingId st
        /\ ActivitiesManager.formData res.1 = ActivitiesManager.formData st
        /\ ActivitiesManager.handleDelete false i e st db = (st, db)).
Proof.
  intros Hon Ha. split_and!; intros st res; subst res.
  - rewrite news_delete_by_admin, fetchNews_online by done. simpl.
    assert (forall r, r ∈ List.filter (fun r => negb (NewsManager.eq_id i r)) (news_rows db) ->
                      r ∈ news_rows db /\ news.id r <> Some i) as Hleft.
    { intros r [Hr Hi%negb_true_iff]%filter_In_elem. split; [done|].
      intros Hid%holds_sql_eq_some. unfold NewsManager.eq_id in Hi. congruence. }
    split_and!; try done.
    + intros r Hr. by apply Hleft.
    + intros n (r & Hr & ->)%listed. exists r. destruct (Hleft r Hr). by split_and!.
  - rewrite staff_delete_by_admin, fetchStaff_online by done. simpl.
    assert (forall r, r ∈ List.filter (fun r => negb (StaffManager.eq_id i r)) (staff_rows db) ->
                      r ∈ staff_rows db /\ staff.id r <> Some i) as Hleft.
    { intros r [Hr Hi%negb_true_iff]%filter_In_elem. split; [done|].
      intros Hid%holds_sql_eq_some. unfold StaffManager.eq_id in Hi. congruence. }
    split_and!; try done.
    + intros r Hr. by apply Hleft.
    + intros n (r & Hr & ->)%listed. exists r. destruct (Hleft r Hr). by split_and!.
  - rewrite activities_delete_by_admin, fetchActivities_online by done. simpl.
    assert (forall r, r ∈ List.filter (fun r => negb (ActivitiesManager.eq_id i r))
                                      (activities_rows db) ->
                      r ∈ activities_rows db /\ activities.id r <> Some i) as Hleft.
    { intros r [Hr Hi%negb_true_iff]%filter_In_elem. split; [done|].
      intros Hid%holds_sql_eq_some. unfold ActivitiesManager.eq_id in Hi. congruence. }
    split_and!; try done.
    + intros r Hr. by apply Hleft.
    + intros n (r & Hr & ->)%listed. exists r. destruct (Hleft r Hr). by split_and!.
Qed.
End Deletes.

(** Alice deletes the news item of the sample store: the table is empty. *)
Lemma an_admin_deletes_a_record_witness :
  news_rows (@NewsManager.handleDelete sample.browser true sample.news_item
               sample.alice_online NewsManager.initial sample.store).2 = [].
Proof.
  destruct (@an_admin_deletes_a_record sample.browser sample.alice_online sample.store
              sample.news_item eq_refl eq_refl) as (Hnews & _).
  destruct (Hnews NewsManager.initial) as (-> & _). reflexivity.
Defined.

(** ** Writes that reach no row *)

Lemma truthy_some (i : string) : i <> "" -> truthy (Some i) = Some i.
Proof. intros Hi. simpl. by rewrite bool_decide_eq_false_2. Qed.

Section NoRow.
Context `{platform}.

(** X11. A write that reaches no row is reported as a success. When the
    caller does not hold the admin role, or no row has the key (the record
    has been deleted meanwhile, by this panel or by somebody else), then in
    each panel a confirmed deletion, and the submit of the form while that
    record is being edited, leave the store as it was and still show the
    success toast; the submit also empties the form and ends the editing, so
    what was typed is lost. (For the submit in the activities panel: when
    the store can read the text of the date input.) *)
Theorem a_write_of_no_row_is_reported_as_success (e : env) (db : database) (i : uuid) :
  online e = true ->
  (is_admin db (who e) = false \/ forall r, r ∈ news_rows db -> news.id r <> Some i) ->
  (is_admin db (who e) = false \/ forall r, r ∈ staff_rows db -> staff.id r <> Some i) ->
  (is_admin db (who e) = false
   \/ forall r, r ∈ activities_rows db -> activities.id r <> Some i) ->
  (forall st,
     (let res := NewsManager.handleDelete true i e st db in
      res.2 = db /\ NewsManager.toasts res.1 = NewsManager.toasts st ++ [toast_success])
     /\ (NewsManager.editingId st = Some i -> i <> "" ->
         let res := NewsManager.handleSubmit e st db in
         res.2 = db
         /\ NewsManager.toasts res.1 = NewsManager.toasts st ++ [toast_success]
         /\ NewsManager.editingId res.1 = None
         /\ NewsManager.formData res.1 = NewsManager.empty_form))
  /\ (forall st,
        (let res := StaffManager.handleDelete true i e st db in
         res.2 = db /\ StaffManager.toasts res.1 = StaffManager.toasts st ++ [toast_success])
        /\ (StaffManager.editingId st = Some i -> i <> "" ->
            let res := StaffManager.handleSubmit e st db in
            res.2 = db
            /\ StaffManager.toasts res.1 = StaffManager.toasts st ++ [toast_success]
            /\ StaffManager.editingId res.1 = None
            /\ StaffManager.formData res.1 = StaffManager.empty_form))
  /\ (forall st,
        (let res := ActivitiesManager.handleDelete true i e st db in
         res.2 = db
         /\ ActivitiesManager.toasts res.1 = ActivitiesManager.toasts st ++ [toast_success])
        /\ (ActivitiesManager.editingId st = Some i -> i <> "" ->
            is_Some (timestamptz_in
                       (ActivitiesManager.formData.activity_date
                          (ActivitiesManager.formData st))) ->
            let res := ActivitiesManager.handleSubmit e st db in
            res.2 = db
            /\ ActivitiesManager.toasts res.1 = ActivitiesManager.toasts st ++ [toast_success]
            /\ ActivitiesManager.editingId res.1 = None
            /\ ActivitiesManager.formData res.1 = ActivitiesManager.empty_form)).
Proof.
  intros Hon Hn Hs Ha.
  assert (forall r, r ∈ rows news_table db -> news.id r <> Some i ->
                    NewsManager.eq_id i r = false) as Hkn.
  { intros r _ Hr. destruct (NewsManager.eq_id i r) eqn:Hk; [|done].
    by apply holds_sql_eq_some in Hk. }
  assert (forall r, r ∈ rows staff_table db -> staff.id r <> Some i ->
                    StaffManager.eq_id i r = false) as Hks.
  { intros r _ Hr. destruct (StaffManager.eq_id i r) eqn:Hk; [|done].
    by apply holds_sql_eq_some in Hk. }
  assert (forall r, r ∈ rows activities_table db -> activities.id r <> Some i ->
                    ActivitiesManager.eq_id i r = false) as Hka.
  { intros r _ Hr. destruct (ActivitiesManager.eq_id i r) eqn:Hk; [|done].
    by apply holds_sql_eq_some in Hk. }
  split_and!; intros st.
  - destruct (nothing_to_write news_table (who e) (NewsManager.eq_id i) db) as [Hu Hd];
      [constructor|destruct Hn; [by left|right; by auto]|].
    split.
    + unfold NewsManager.handleDelete, request. simpl. rewrite Hon, Hd. simpl.
      by rewrite fetchNews_online.
    + intros Hed Hi. unfold NewsManager.handleSubmit, NewsManager.save, request.
      rewrite Hed, truthy_some, Hon, Hu by done. simpl. by rewrite fetchNews_online.
  - destruct (nothing_to_write staff_table (who e) (StaffManager.eq_id i) db) as [Hu Hd];
      [constructor|destruct Hs; [by left|right; by auto]|].
    split.
    + unfold StaffManager.handleDelete, request. simpl. rewrite Hon, Hd. simpl.
      by rewrite fetchStaff_online.
    + intros Hed Hi. unfold StaffManager.handleSubmit, StaffManager.save, request.
      rewrite Hed, truthy_some, Hon, Hu by done. simpl. by rewrite fetchStaff_online.
  - destruct (nothing_to_write activities_table (who e) (ActivitiesManager.eq_id i) db)
      as [Hu Hd]; [constructor|destruct Ha; [by left|right; by auto]|].
    split.
    + unfold ActivitiesManager.handleDelete, request. simpl. rewrite Hon, Hd. simpl.
      by rewrite fetchActivities_online.
    + intros Hed Hi [t Ht].
      unfold ActivitiesManager.handleSubmit, ActivitiesManager.save, request,
        ActivitiesManager.body.
      rewrite Hed, truthy_some, Hon, Ht by done. simpl. rewrite Hu. simpl.
      by rewrite fetchActivities_online.
Qed.
End NoRow.

(** Bob, who is no admin, edits the news item of the sample store, types a
    new title and submits: he is shown the success toast, and the store is
    as it was. *)
Lemma a_write_of_no_row_is_reported_as_success_witness :
  let st := NewsManager.onChange_title "Sports week"
              (@NewsManager.handleEdit
                 (@NewsManager.of_row sample.browser
                    {| news.id := Some sample.news_item; news.title := Some "Sports day";
                       news.content := Some "On Friday."; news.image_url := Some "";
                       news.published_date := Some 4000%Z;
                       news.created_by := Some sample.alice;
                       news.created_at := Some 4000%Z; news.updated_at := Some 9000%Z |})
                 NewsManager.initial) in
  let res := @NewsManager.handleSubmit sample.browser sample.bob_online st sample.store in
  res.2 = sample.store /\ NewsManager.toasts res.1 = [toast_success].
Proof.
  intros st res.
  destruct (@a_write_of_no_row_is_reported_as_success sample.browser sample.bob_online
              sample.store sample.news_item) as (Hnews & _); [reflexivity|by left..|].
  destruct (Hnews st) as (_ & Hsubmit).
  destruct Hsubmit as (Hdb & Htoasts & _); [reflexivity|discriminate|]. by split.
Defined.

(** ** Editing a record and saving it *)

Lemma no_conflict_lookup {R} (conf : R -> R -> bool) (l : list R) j k x y :
  (forall a b, conf a b = conf b a) ->
  no_conflict conf l -> l !! j = Some x -> l !! k = Some y -> j <> k -> conf x y = false.
Proof.
  intros Hsym. revert j k. induction l as [|a l IH]; intros j k Hnc Hj Hk Hjk; [done|].
  destruct Hnc as [Ha Hl]. destruct j as [|j], k as [|k]; simpl in *; try done.
  - injection Hj as ->. apply Ha. by eapply list_elem_of_lookup_2.
  - injection Hk as ->. rewrite Hsym. apply Ha. by eapply list_elem_of_lookup_2.
  - eapply (IH j k); [done..|]. congruence.
Qed.

Lemma map_at {R} (w : R -> bool) (g : R -> R) (l : list R) k r :
  l !! k = Some r -> w r = true ->
  (forall j x, l !! j = Some x -> j <> k -> w x = false) ->
  map (fun x => if w x then g x else x) l = <[k := g r]> l.
Proof.
  revert k. induction l as [|a l IH]; intros k Hk Hr Hothers; [done|].
  destruct k as [|k]; simpl in *.
  - injection Hk as ->. rewrite Hr. f_equal.
    transitivity (map (fun x => x) l); [|apply map_id].
    apply map_ext_in. intros x [j Hj]%list_elem_of_In%list_elem_of_lookup.
    by rewrite (Hothers (S j) x).
  - rewrite (Hothers 0 a) by done. f_equal. apply IH; [done..|].
    intros j x Hj Hjk. apply (Hothers (S j)); [done|congruence].
Qed.

Section RoundTrip.
Context `{platform}.

Lemma news_key_is_one db k r (i : uuid) :
  constraints_hold db -> news_rows db !! k = Some r -> news.id r = Some i ->
  forall j x, news_rows db !! j = Some x -> j <> k -> NewsManager.eq_id i x = false.
Proof.
  intros Hc Hk Hi j x Hj Hjk. destruct (Hc _ _ news_table declared_news) as [Hnc _].
  pose proof (no_conflict_lookup _ _ j k x r (conflicts_sym news_table declared_news)
                Hnc Hj Hk Hjk) as Hx.
  simpl in Hx. unfold NewsManager.eq_id. by rewrite <- Hi.
Qed.

Lemma staff_key_is_one db k r (i : uuid) :
  constraints_hold db -> staff_rows db !! k = Some r -> staff.id r = Some i ->
  forall j x, staff_rows db !! j = Some x -> j <> k -> StaffManager.eq_id i x = false.
Proof.
  intros Hc Hk Hi j x Hj Hjk. destruct (Hc _ _ staff_table declared_staff) as [Hnc _].
  pose proof (no_conflict_lookup _ _ j k x r (conflicts_sym staff_table declared_staff)
                Hnc Hj Hk Hjk) as Hx.
  simpl in Hx. unfold StaffManager.eq_id. by rewrite <- Hi.
Qed.

Lemma activities_key_is_one db k r (i : uuid) :
  constraints_hold db -> activities_rows db !! k = Some r -> activities.id r = Some i ->
  forall j x, activities_rows db !! j = Some x -> j <> k ->
              ActivitiesManager.eq_id i x = false.
Proof.
  intros Hc Hk Hi j x Hj Hjk.
  destruct (Hc _ _ activities_table declared_activities) as [Hnc _].
  pose proof (no_conflict_lookup _ _ j k x r
                (conflicts_sym activities_table declared_activities) Hnc Hj Hk Hjk) as Hx.
  simpl in Hx. unfold ActivitiesManager.eq_id. by rewrite <- Hi.
Qed.

Lemma news_edit_submit e st db k r (i : uuid) :
  online e = true -> is_admin db (who e) = true ->
  constraints_hold db -> references_hold db ->
  news_rows db !! k = Some r -> news.id r = Some i -> i <> "" ->
  NewsManager.editingId st = Some i ->
  NewsManager.handleSubmit e st db
  = (let db' := with_news_rows
                  (<[k := news_saved (NOW (at_ e)) (NewsManager.formData st) r]>
                     (news_rows db)) db in
     (NewsManager.fetchNews e
        (NewsManager.setEditingId None
           (NewsManager.setFormData NewsManager.empty_form
              (NewsManager.show toast_success st))) db', db')).
Proof.
  intros Hon Ha Hc Hr Hk Hi Hne Hed.
  unfold NewsManager.handleSubmit, NewsManager.save, request.
  rewrite Hed, truthy_some, Hon, news_form_update by done. simpl.
  by rewrite (map_at _ _ _ k r Hk);
    [|by apply holds_sql_eq_some|by eapply news_key_is_one].
Qed.

Lemma staff_edit_submit e st db k r (i : uuid) :
  online e = true -> is_admin db (who e) = true ->
  constraints_hold db -> references_hold db ->
  staff_rows db !! k = Some r -> staff.id r = Some i -> i <> "" ->
  StaffManager.editingId st = Some i ->
  StaffManager.handleSubmit e st db
  = (let db' := with_staff_rows
                  (<[k := staff_saved (NOW (at_ e)) (StaffManager.formData st) r]>
                     (staff_rows db)) db in
     (StaffManager.fetchStaff e
        (StaffManager.setEditingId None
           (StaffManager.setFormData StaffManager.empty_form
              (StaffManager.show toast_success st))) db', db')).
Proof.
  intros Hon Ha Hc Hr Hk Hi Hne Hed.
  unfold StaffManager.handleSubmit, StaffManager.save, request.
  rewrite Hed, truthy_some, Hon, staff_form_update by done. simpl.
  by rewrite (map_at _ _ _ k r Hk);
    [|by apply holds_sql_eq_some|by eapply staff_key_is_one].
Qed.

Lemma activities_edit_submit e st db k r (i : uuid) t :
  online e = true -> is_admin db (who e) = true ->
  constraints_hold db -> references_hold db ->
  activities_rows db !! k = Some r -> activities.id r = Some i -> i <> "" ->
  ActivitiesManager.editingId st = Some i ->
  timestamptz_in (ActivitiesManager.formData.activity_date (ActivitiesManager.formData st))
  = Some t ->
  ActivitiesManager.handleSubmit e st db
  = (let db' := with_activities_rows
                  (<[k := activities_saved (NOW (at_ e)) t (ActivitiesManager.formData st) r]>
                     (activities_rows db)) db in
     (ActivitiesManager.fetchActivities e
        (ActivitiesManager.setEditingId None
           (ActivitiesManager.setFormData ActivitiesManager.empty_form
              (ActivitiesManager.show toast_success st))) db', db')).
Proof.
  intros Hon Ha Hc Hr Hk Hi Hne Hed Ht.
  unfold ActivitiesManager.handleSubmit, ActivitiesManager.save, request,
    ActivitiesManager.body.
  rewrite Hed, truthy_some, Hon, Ht by done. cbn [mbind result_bind].
  rewrite activities_form_update by (done || by eexists). simpl.
  by rewrite (map_at _ _ _ k r Hk);
    [|by apply holds_sql_eq_some|by eapply activities_key_is_one].
Qed.

(** X12. An admin's edit is stored. When an admin submits the form while the
    record of a row is being edited, in a store whose constraints hold, the
    call succeeds: that row takes the text of the inputs (for an activity,
    the instant the store reads from the date input) and the [NOW()] of the
    statement as its [updated_at], it keeps its other columns, and every
    other row of the store is as it was; the success toast is shown, the
    form is emptied, the editing ends, and the list fetched anew shows the
    record as saved. *)
Theorem an_admin_edit_is_stored (e : env) (db : database) :
  online e = true -> is_admin db (who e) = true ->
  constraints_hold db -> references_hold db ->
  (forall st k r (i : uuid),
     news_rows db !! k = Some r -> news.id r = Some i -> i <> "" ->
     NewsManager.editingId st = Some i ->
     let res := NewsManager.handleSubmit e st db in
     let saved := news_saved (NOW (at_ e)) (NewsManager.formData st) r in
     res.2 = with_news_rows (<[k := saved]> (news_rows db)) db
     /\ NewsManager.of_row saved ∈ NewsManager.newsList res.1
     /\ NewsManager.toasts res.1 = NewsManager.toasts st ++ [toast_success]
     /\ NewsManager.formData res.1 = NewsManager.empty_form
     /\ NewsManager.editingId res.1 = None)
  /\ (forall st k r (i : uuid),
        staff_rows db !! k = Some r -> staff.id r = Some i -> i <> "" ->
        StaffManager.editingId st = Some i ->
        let res := StaffManager.handleSubmit e st db in
        let saved := staff_saved (NOW (at_ e)) (StaffManager.formData st) r in
        res.2 = with_staff_rows (<[k := saved]> (staff_rows db)) db
        /\ StaffManager.of_row saved ∈ StaffManager.staffList res.1
        /\ StaffManager.toasts res.1 = StaffManager.toasts st ++ [toast_success]
        /\ StaffManager.formData res.1 = StaffManager.empty_form
        /\ StaffManager.editingId res.1 = None)
  /\ (forall st k r (i : uuid) t,
        activities_rows db !! k = Some r -> activities.id r = Some i -> i <> "" ->
        ActivitiesManager.editingId st = Some i ->
        timestamptz_in (ActivitiesManager.formData.activity_date
                          (ActivitiesManager.formData st)) = Some t ->
        let res := ActivitiesManager.handleSubmit e st db in
        let saved := activities_saved (NOW (at_ e)) t (ActivitiesManager.formData st) r in
        res.2 = with_activities_rows (<[k := saved]> (activities_rows db)) db
        /\ ActivitiesManager.of_row saved ∈ ActivitiesManager.activitiesList res.1
        /\ ActivitiesManager.toasts res.1 = ActivitiesManager.toasts st ++ [toast_success]
        /\ ActivitiesManager.formData res.1 = ActivitiesManager.empty_form
        /\ ActivitiesManager.editingId res.1 = None).
Proof.
  intros Hon Ha Hc Hr. split_and!.
  - intros st k r i Hk Hi Hne Hed res saved. subst res saved.
    rewrite (news_edit_submit e st db k r i) by done. cbv zeta.
    rewrite fetchNews_online by done. simpl. split_and!; try done.
    apply list_elem_of_fmap_2, in_sorted.
    eapply list_elem_of_lookup_2, list_lookup_insert_eq. by eapply lookup_lt_Some.
  - intros st k r i Hk Hi Hne Hed res saved. subst res saved.
    rewrite (staff_edit_submit e st db k r i) by done. cbv zeta.
    rewrite fetchStaff_online by done. simpl. split_and!; try done.
    apply list_elem_of_fmap_2, in_sorted.
    eapply list_elem_of_lookup_2, list_lookup_insert_eq. by eapply lookup_lt_Some.
  - intros st k r i t Hk Hi Hne Hed Ht res saved. subst res saved.
    rewrite (activities_edit_submit e st db k r i t) by done. cbv zeta.
    rewrite fetchActivities_online by done. simpl. split_and!; try done.
    apply list_elem_of_fmap_2, in_sorted.
    eapply list_elem_of_lookup_2, list_lookup_insert_eq. by eapply lookup_lt_Some.
Qed.

(** X13. Editing a record and saving it without a change is not the
    identity on the store. When an admin chooses edit on a listed record and
    submits the form as it was filled, the row of that record, and no other
    row, is written: its key, its required columns, its creator and its dates
    of creation stay, its [updated_at] becomes [NOW()], and each optional
    column that was [NULL] now holds the empty string. For an activity the
    date is replaced by the instant the store reads from the first 16
    characters of the ISO form of the old date. *)
Theorem saving_an_unchanged_record (e : env) (db : database) :
  online e = true -> is_admin db (who e) = true ->
  constraints_hold db -> references_hold db ->
  (forall st k r (i : uuid),
     news_rows db !! k = Some r -> news.id r = Some i -> i <> "" ->
     let res := NewsManager.handleSubmit e
                  (NewsManager.handleEdit (NewsManager.of_row r) st) db in
     res.2 = with_news_rows (<[k := news_resaved (NOW (at_ e)) r]> (news_rows db)) db
     /\ NewsManager.toasts res.1 = NewsManager.toasts st ++ [toast_success])
  /\ (forall st k r (i : uuid),
        staff_rows db !! k = Some r -> staff.id r = Some i -> i <> "" ->
        let res := StaffManager.handleSubmit e
                     (StaffManager.handleEdit (StaffManager.of_row r) st) db in
        res.2 = with_staff_rows (<[k := staff_resaved (NOW (at_ e)) r]> (staff_rows db)) db
        /\ StaffManager.toasts res.1 = StaffManager.toasts st ++ [toast_success])
  /\ (forall st k r (i : uuid) t iso t',
        activities_rows db !! k = Some r -> activities.id r = Some i -> i <> "" ->
        activities.activity_date r = Some t ->
        Date_toISOString (timestamptz_out t) = Some iso ->
        timestamptz_in (String.substring 0 16 iso) = Some t' ->
        let res := ActivitiesManager.handleSubmit e
                     (ActivitiesManager.handleEdit (ActivitiesManager.of_row r) st) db in
        res.2 = with_activities_rows
                  (<[k := activities_resaved (NOW (at_ e)) t' r]> (activities_rows db)) db
        /\ ActivitiesManager.toasts res.1
           = ActivitiesManager.toasts st ++ [toast_success]).
Proof.
  intros Hon Ha Hc Hr. split_and!.
  - intros st k r i Hk Hi Hne res. subst res.
    destruct (of_row_exact db Hc) as (Hex & _).
    destruct (Hex r) as (_ & Ht & Hco); [by eapply list_elem_of_lookup_2|].
    rewrite (news_edit_submit e _ db k r i) by (done || (simpl; by rewrite Hi)).
    cbv zeta. rewrite fetchNews_online by done. simpl. split; [|done]. do 2 f_equal.
    unfold news_saved, news_resaved. simpl. rewrite or_empty_shown, Ht, Hco. done.
  - intros st k r i Hk Hi Hne res. subst res.
    destruct (of_row_exact db Hc) as (_ & Hex & _).
    destruct (Hex r) as (_ & Hn & Hp); [by eapply list_elem_of_lookup_2|].
    rewrite (staff_edit_submit e _ db k r i) by (done || (simpl; by rewrite Hi)).
    cbv zeta. rewrite fetchStaff_online by done. simpl. split; [|done]. do 2 f_equal.
    unfold staff_saved, staff_resaved. simpl. rewrite !or_empty_shown, Hn, Hp. done.
  - intros st k r i t iso t' Hk Hi Hne Hdate Hiso Hin res. subst res.
    destruct (of_row_exact db Hc) as (_ & _ & Hex).
    destruct (Hex r) as (_ & Ht & Hd & _); [by eapply list_elem_of_lookup_2|].
    assert (ActivitiesManager.handleEdit (ActivitiesManager.of_row r) st
            = ActivitiesManager.setFormData
                {| ActivitiesManager.formData.title :=
                     ActivitiesManager.Activity.title (ActivitiesManager.of_row r);
                   ActivitiesManager.formData.description :=
                     ActivitiesManager.Activity.description (ActivitiesManager.of_row r);
                   ActivitiesManager.formData.activity_date := String.substring 0 16 iso;
                   ActivitiesManager.formData.location := shown (activities.location r);
                   ActivitiesManager.formData.image_url := shown (activities.image_url r) |}
                (ActivitiesManager.setEditingId (Some i) st)) as ->.
    { unfold ActivitiesManager.handleEdit.
      replace (ActivitiesManager.Activity.activity_date (ActivitiesManager.of_row r))
        with (timestamptz_out t)
        by (unfold ActivitiesManager.of_row; simpl; by rewrite Hdate).
      rewrite Hiso, <- !or_empty_shown.
      replace (ActivitiesManager.Activity.id (ActivitiesManager.of_row r)) with i
        by (simpl; by rewrite Hi).
      done. }
    rewrite (activities_edit_submit e _ db k r i t') by done.
    cbv zeta. rewrite fetchActivities_online by done. simpl. split; [|done]. do 2 f_equal.
    unfold activities_saved, activities_resaved. simpl. rewrite Ht, Hd. done.
Qed.
End RoundTrip.

(** Alice edits the news item of the sample store, types a new title and
    submits. *)
Lemma an_admin_edit_is_stored_witness :
  exists r,
    news_rows sample.store !! 0 = Some r
    /\ news_rows
         (@NewsManager.handleSubmit sample.browser sample.alice_online
            (NewsManager.onChange_title "Sports week"
               (NewsManager.handleEdit (@NewsManager.of_row sample.browser r)
                  NewsManager.initial))
            sample.store).2
       = [news_saved 5000
            {| NewsManager.formData.title := "Sports week";
               NewsManager.formData.content := "On Friday.";
               NewsManager.formData.image_url := "" |} r].
Proof.
  eexists. split; [reflexivity|].
  destruct (@an_admin_edit_is_stored sample.browser sample.alice_online sample.store)
    as (Hnews & _);
    [reflexivity|reflexivity|apply reachable_constraints, sample_store_reachable
    |apply reachable_references, sample_store_reachable|].
  match goal with
  | |- news_rows (NewsManager.handleSubmit _ ?st _).2 = _ =>
      edestruct (Hnews st 0) as [Hdb _];
        [reflexivity|reflexivity|discriminate|reflexivity|]
  end.
  rewrite Hdb. reflexivity.
Defined.

(** Alice edits the news item of the sample store and saves it as it is. *)
Lemma saving_an_unchanged_record_witness :
  exists r,
    news_rows sample.store !! 0 = Some r
    /\ (@NewsManager.handleSubmit sample.browser sample.alice_online
          (NewsManager.handleEdit (@NewsManager.of_row sample.browser r) NewsManager.initial)
          sample.store).2
       = with_news_rows [news_resaved 5000 r] sample.store.
Proof.
  eexists. split; [reflexivity|].
  destruct (@saving_an_unchanged_record sample.browser sample.alice_online sample.store)
    as (Hnews & _);
    [reflexivity|reflexivity|apply reachable_constraints, sample_store_reachable
    |apply reachable_references, sample_store_reachable|].
  edestruct (Hnews NewsManager.initial 0) as [Hdb _]; [reflexivity|reflexivity|discriminate|].
  exact Hdb.
Defined.

(** A notice without an image: saved unchanged, its image is the empty
    string. *)
Example a_missing_image_becomes_the_empty_string :
  map news.image_url
    (news_rows
       (@NewsManager.handleSubmit sample.browser sample.alice_online
          (NewsManager.handleEdit
             (@NewsManager.of_row sample.browser (sample.item "n-8000" (Some 8000%Z)))
             NewsManager.initial)
          sample.board).2)
  = [None; Some ""; None; None].
Proof. by vm_compute. Qed.

(** ** What the forms leave alone *)

Section Frames.
Context `{platform}.

(** X14. What a submit that succeeded has written, whoever sent it. A new
    record is one row appended to the panel's table: its key is the
    identifier generated for it, its dates of creation and of update (and,
    for a news item, of publication) are [NOW()], and it names no creator,
    for no form sends one. A record being edited keeps its key, its creator
    and its date of creation (a news item also its date of publication),
    and every other row is as it was. No other table changes. *)
Theorem forms_write_their_own_columns (e : env) (db db' : database) :
  (forall st, NewsManager.save e st db = data db' ->
     exists l, db' = with_news_rows l db
       /\ match truthy (NewsManager.editingId st) with
          | None =>
              exists r, l = news_rows db ++ [r]
                /\ news.id r = Some (uuid_generate_v4 (at_ e))
                /\ news.created_by r = None
                /\ news.published_date r = Some (NOW (at_ e))
                /\ news.created_at r = Some (NOW (at_ e))
                /\ news.updated_at r = Some (NOW (at_ e))
          | Some i =>
              Forall2 (fun old new =>
                         new = old \/ (news.id old = Some i /\ news_kept old new))
                      (news_rows db) l
          end)
  /\ (forall st, StaffManager.save e st db = data db' ->
        exists l, db' = with_staff_rows l db
          /\ match truthy (StaffManager.editingId st) with
             | None =>
                 exists r, l = staff_rows db ++ [r]
                   /\ staff.id r = Some (uuid_generate_v4 (at_ e))
                   /\ staff.created_by r = None
                   /\ staff.created_at r = Some (NOW (at_ e))
                   /\ staff.updated_at r = Some (NOW (at_ e))
             | Some i =>
                 Forall2 (fun old new =>
                            new = old \/ (staff.id old = Some i /\ staff_kept old new))
                         (staff_rows db) l
             end)
  /\ (forall st, ActivitiesManager.save e st db = data db' ->
        exists l, db' = with_activities_rows l db
          /\ match truthy (ActivitiesManager.editingId st) with
             | None =>
                 exists r, l = activities_rows db ++ [r]
                   /\ activities.id r = Some (uuid_generate_v4 (at_ e))
                   /\ activities.created_by r = None
                   /\ activities.created_at r = Some (NOW (at_ e))
                   /\ activities.updated_at r = Some (NOW (at_ e))
             | Some i =>
                 Forall2 (fun old new =>
                            new = old
                            \/ (activities.id old = Some i /\ activities_kept old new))
                         (activities_rows db) l
             end).
Proof.
  split_and!; intros st Hsave.
  - unfold NewsManager.save in Hsave. destruct (truthy _) as [i|].
    + apply request_data in Hsave as [_ Hsave].
      apply bind_ok in Hsave as ([d k] & Hup & Heq). injection Heq as <-.
      apply exec_update_frame in Hup as (l & -> & Hall); [|apply news_lens].
      exists l. split; [done|]. eapply Forall2_impl; [done|].
      intros old new [->|[Hw ->]]; [by left|right].
      by apply holds_sql_eq_some in Hw.
    + apply request_data in Hsave as [_ Hsave].
      apply exec_insert_frame in Hsave as ->. eexists. split; [done|].
      eexists. by split_and!.
  - unfold StaffManager.save in Hsave. destruct (truthy _) as [i|].
    + apply request_data in Hsave as [_ Hsave].
      apply bind_ok in Hsave as ([d k] & Hup & Heq). injection Heq as <-.
      apply exec_update_frame in Hup as (l & -> & Hall); [|apply staff_lens].
      exists l. split; [done|]. eapply Forall2_impl; [done|].
      intros old new [->|[Hw ->]]; [by left|right].
      by apply holds_sql_eq_some in Hw.
    + apply request_data in Hsave as [_ Hsave].
      apply exec_insert_frame in Hsave as ->. eexists. split; [done|].
      eexists. by split_and!.
  - unfold ActivitiesManager.save in Hsave. destruct (truthy _) as [i|].
    + apply request_data in Hsave as [_ Hsave].
      apply bind_ok in Hsave as (a & Hbody & Hsave).
      apply bind_ok in Hsave as ([d k] & Hup & Heq). injection Heq as <-.
      unfold ActivitiesManager.body in Hbody.
      destruct (timestamptz_in _); [|done]. injection Hbody as <-.
      apply exec_update_frame in Hup as (l & -> & Hall); [|apply activities_lens].
      exists l. split; [done|]. eapply Forall2_impl; [done|].
      intros old new [->|[Hw ->]]; [by left|right].
      by apply holds_sql_eq_some in Hw.
    + apply request_data in Hsave as [_ Hsave].
      apply bind_ok in Hsave as (a & Hbody & Hsave).
      unfold ActivitiesManager.body in Hbody.
      destruct (timestamptz_in _); [|done]. injection Hbody as <-.
      apply exec_insert_frame in Hsave as ->. eexists. split; [done|].
      eexists. by split_and!.
Qed.
End Frames.

(** Alice submits the sample draft: the new row names no creator. *)
Lemma forms_write_their_own_columns_witness :
  exists l r,
    NewsManager.save sample.alice_online sample.draft sample.store
    = data (with_news_rows l sample.store)
    /\ l = news_rows sample.store ++ [r]
    /\ news.created_by r = None.
Proof.
  destruct (@forms_write_their_own_columns sample.browser sample.alice_online sample.store
              (with_news_rows
                 (news_rows sample.store
                  ++ [new_row news_table sample.later
                        (NewsManager.body (NewsManager.formData sample.draft))])
                 sample.store)) as (Hnews & _).
  destruct (Hnews sample.draft) as (l & Heq & r & Hl & _ & Hby & _);
    [vm_compute; reflexivity|].
  exists l, r. split; [|by split]. rewrite <- Heq. vm_compute. reflexivity.
Defined.

(** ** A new record *)

Lemma insert_by_admin {R A} (T : table R A) c m a db :
  names_profiles T -> is_admin db c = true ->
  not_null T (new_row T m a) = true ->
  (forall o, o ∈ rows T db -> conflicts T (new_row T m a) o = false) ->
  foreign_key T (new_row T m a) = None ->
  exec_insert T c m a db = Ok (with_rows T (rows T db ++ [new_row T m a]) db).
Proof.
  intros HT Ha Hnn Hfresh Hfk.
  destruct (admin_only_declared T HT db c) as (_ & _ & _ & _ & Hyes & _).
  destruct (Hyes Ha) as (-> & _). apply insert_row_intro; [done..|].
  unfold references_ok. by rewrite Hfk.
Qed.

Section Creates.
Context `{platform}.

(** X15. A new record submitted by an admin is stored and listed. When no
    record is being edited, the API is reached and the identifier generated
    for the row is not the key of a row of the table, the submit of an admin
    appends one row that holds the text of the inputs, leaves the other rows
    alone, shows the success toast, empties the form, and fetches the list
    anew: the list has one record more than the table had rows, the new
    record among them, with the fields of the form. (For an activity the
    store must be able to read the date input.) *)
Theorem a_new_record_is_stored_and_listed (e : env) (db : database) :
  online e = true -> is_admin db (who e) = true ->
  (forall st,
     truthy (NewsManager.editingId st) = None ->
     (forall r, r ∈ news_rows db -> news.id r <> Some (uuid_generate_v4 (at_ e))) ->
     let res := NewsManager.handleSubmit e st db in
     let f := NewsManager.formData st in
     exists r,
       res.2 = with_news_rows (news_rows db ++ [r]) db
       /\ news.title r = Some (NewsManager.formData.title f)
       /\ news.content r = Some (NewsManager.formData.content f)
       /\ news.image_url r = Some (NewsManager.formData.image_url f)
       /\ NewsManager.of_row r ∈ NewsManager.newsList res.1
       /\ length (NewsManager.newsList res.1) = S (length (news_rows db))
       /\ NewsManager.toasts res.1 = NewsManager.toasts st ++ [toast_success]
       /\ NewsManager.formData res.1 = NewsManager.empty_form
       /\ NewsManager.editingId res.1 = None)
  /\ (forall st,
        truthy (StaffManager.editingId st) = None ->
        (forall r, r ∈ staff_rows db -> staff.id r <> Some (uuid_generate_v4 (at_ e))) ->
        let res := StaffManager.handleSubmit e st db in
        let f := StaffManager.formData st in
        exists r,
          res.2 = with_staff_rows (staff_rows db ++ [r]) db
          /\ staff.full_name r = Some (StaffManager.formData.full_name f)
          /\ staff.position r = Some (StaffManager.formData.position f)
          /\ staff_holds f r
          /\ StaffManager.of_row r ∈ StaffManager.staffList res.1
          /\ length (StaffManager.staffList res.1) = S (length (staff_rows db))
          /\ StaffManager.toasts res.1 = StaffManager.toasts st ++ [toast_success]
          /\ StaffManager.formData res.1 = StaffManager.empty_form
          /\ StaffManager.editingId res.1 = None)
  /\ (forall st t,
        truthy (ActivitiesManager.editingId st) = None ->
        (forall r, r ∈ activities_rows db ->
                   activities.id r <> Some (uuid_generate_v4 (at_ e))) ->
        timestamptz_in (ActivitiesManager.formData.activity_date
                          (ActivitiesManager.formData st)) = Some t ->
        let res := ActivitiesManager.handleSubmit e st db in
        let f := ActivitiesManager.formData st in
        exists r,
          res.2 = with_activities_rows (activities_rows db ++ [r]) db
          /\ activities.title r = Some (ActivitiesManager.formData.title f)
          /\ activities.description r = Some (ActivitiesManager.formData.description f)
          /\ activities.activity_date r = Some t
          /\ activities_holds f r
          /\ ActivitiesManager.of_row r ∈ ActivitiesManager.activitiesList res.1
          /\ length (ActivitiesManager.activitiesList res.1)
             = S (length (activities_rows db))
          /\ ActivitiesManager.toasts res.1
             = ActivitiesManager.toasts st ++ [toast_success]
          /\ ActivitiesManager.formData res.1 = ActivitiesManager.empty_form
          /\ ActivitiesManager.editingId res.1 = None).
Proof.
  intros Hon Ha. split_and!.
  - intros st Hed Hfresh res f. subst res f.
    unfold NewsManager.handleSubmit, NewsManager.save, request.
    rewrite Hed, Hon, (insert_by_admin news_table); [|constructor|done|done| |done].
    2:{ intros o Ho. specialize (Hfresh o Ho). simpl.
        destruct (news.id o); simpl; [|done]. case_bool_decide; congruence. }
    rewrite fetchNews_online by done. simpl.
    eexists. split_and!; try done.
    + apply list_elem_of_fmap_2, in_sorted, elem_of_app. right. by left.
    + rewrite length_map, sorted_length, length_app. simpl. lia.
  - intros st Hed Hfresh res f. subst res f.
    unfold StaffManager.handleSubmit, StaffManager.save, request.
    rewrite Hed, Hon, (insert_by_admin staff_table); [|constructor|done|done| |done].
    2:{ intros o Ho. specialize (Hfresh o Ho). simpl.
        destruct (staff.id o); simpl; [|done]. case_bool_decide; congruence. }
    rewrite fetchStaff_online by done. simpl.
    eexists. split_and!; try done.
    + apply list_elem_of_fmap_2, in_sorted, elem_of_app. right. by left.
    + rewrite length_map, sorted_length, length_app. simpl. lia.
  - intros st t Hed Hfresh Ht res f. subst res f.
    unfold ActivitiesManager.handleSubmit, ActivitiesManager.save, request,
      ActivitiesManager.body.
    rewrite Hed, Hon, Ht. cbn [mbind result_bind].
    rewrite (insert_by_admin activities_table); [|constructor|done|done| |done].
    2:{ intros o Ho. specialize (Hfresh o Ho). simpl.
        destruct (activities.id o); simpl; [|done]. case_bool_decide; congruence. }
    rewrite fetchActivities_online by done. simpl.
    eexists. split_and!; try done.
    + apply list_elem_of_fmap_2, in_sorted, elem_of_app. right. by left.
    + rewrite length_map, sorted_length, length_app. simpl. lia.
Qed.
End Creates.

(** Alice submits the sample draft: the list shows two items. *)
Lemma a_new_record_is_stored_and_listed_witness :
  length (NewsManager.newsList
            (@NewsManager.handleSubmit sample.browser sample.alice_online sample.draft
               sample.store).1) = 2.
Proof.
  destruct (@a_new_record_is_stored_and_listed sample.browser sample.alice_online
              sample.store eq_refl eq_refl) as (Hnews & _).
  destruct (Hnews sample.draft) as (r & _ & _ & _ & _ & _ & Hlen & _); [reflexivity| |done].
  intros r Hr. simpl in Hr. apply list_elem_of_singleton in Hr as ->. discriminate.
Defined.

(** ** What the panels show *)

Lemma truthy_none (x : option string) : truthy x = None <-> x = None \/ x = Some "".
Proof.
  destruct x as [s|]; simpl.
  - case_bool_decide as Hs.
    + subst. split; [by right|done].
    + split; [done|]. intros [?|[= ?]]; done.
  - split; [by left|done].
Qed.

Section Views.
Context `{platform}.
Variables Date_toLocaleDateString Date_toLocaleString : string -> string.

(** X16. What each panel renders. It shows the placeholder from its mount
    until its first fetch has ended, whether the fetch succeeded or not, and
    the form and the list from then on. After a fetch that reached the API
    the list is the message that there is nothing yet exactly when the
    panel's table has no row, and otherwise one card for every row, in the
    order of the fetch. A card shows an image (for staff also a department,
    an email, a phone; for an activity also a location) only when the column
    is neither [NULL] nor the empty string: what a form stored for an input
    left blank is shown like a missing value. *)
Theorem what_the_panels_show :
  (NewsManager_view.render Date_toLocaleDateString NewsManager.initial
   = NewsManager_view.Loading
   /\ (forall e st db,
         NewsManager_view.render Date_toLocaleDateString (NewsManager.fetchNews e st db)
         <> NewsManager_view.Loading)
   /\ (forall e st db, online e = true ->
         NewsManager_view.render Date_toLocaleDateString (NewsManager.fetchNews e st db)
         = NewsManager_view.Panel
             (bool_decide (is_Some (truthy (NewsManager.editingId st))))
             (NewsManager.formData st)
             (match news_rows db with
              | [] => NewsManager_view.nothing_yet
              | _ => NewsManager_view.cards
                       (map (fun r => NewsManager_view.card_of Date_toLocaleDateString
                                        (NewsManager.of_row r))
                            (order_desc news.published_date (news_rows db)))
              end))
   /\ (forall r,
         NewsManager_view.image
           (NewsManager_view.card_of Date_toLocaleDateString (NewsManager.of_row r)) = None
         <-> news.image_url r = None \/ news.image_url r = Some ""))
  /\ (StaffManager_view.render StaffManager.initial = StaffManager_view.Loading
      /\ (forall e st db,
            StaffManager_view.render (StaffManager.fetchStaff e st db)
            <> StaffManager_view.Loading)
      /\ (forall e st db, online e = true ->
            StaffManager_view.render (StaffManager.fetchStaff e st db)
            = StaffManager_view.Panel
                (bool_decide (is_Some (truthy (StaffManager.editingId st))))
                (StaffManager.formData st)
                (match staff_rows db with
                 | [] => StaffManager_view.nothing_yet
                 | _ => StaffManager_view.cards
                          (map (fun r => StaffManager_view.card_of (StaffManager.of_row r))
                               (order_desc staff.created_at (staff_rows db)))
                 end))
      /\ (forall r,
            let card := StaffManager_view.card_of (StaffManager.of_row r) in
            (StaffManager_view.image card = None
             <-> staff.image_url r = None \/ staff.image_url r = Some "")
            /\ (StaffManager_view.department card = None
                <-> staff.department r = None \/ staff.department r = Some "")
            /\ (StaffManager_view.email card = None
                <-> staff.email r = None \/ staff.email r = Some "")
            /\ (StaffManager_view.phone card = None
                <-> staff.phone r = None \/ staff.phone r = Some "")))
  /\ (ActivitiesManager_view.render Date_toLocaleString ActivitiesManager.initial
      = ActivitiesManager_view.Loading
      /\ (forall e st db,
            ActivitiesManager_view.render Date_toLocaleString
              (ActivitiesManager.fetchActivities e st db)
            <> ActivitiesManager_view.Loading)
      /\ (forall e st db, online e = true ->
            ActivitiesManager_view.render Date_toLocaleString
              (ActivitiesManager.fetchActivities e st db)
            = ActivitiesManager_view.Panel
                (bool_decide (is_Some (truthy (ActivitiesManager.editingId st))))
                (ActivitiesManager.formData st)
                (match activities_rows db with
                 | [] => ActivitiesManager_view.nothing_yet
                 | _ => ActivitiesManager_view.cards
                          (map (fun r => ActivitiesManager_view.card_of Date_toLocaleString
                                           (ActivitiesManager.of_row r))
                               (order_desc activities.activity_date (activities_rows db)))
                 end))
      /\ (forall r,
            let card := ActivitiesManager_view.card_of Date_toLocaleString
                          (ActivitiesManager.of_row r) in
            (ActivitiesManager_view.image card = None
             <-> activities.image_url r = None \/ activities.image_url r = Some "")
            /\ (ActivitiesManager_view.location card = None
                <-> activities.location r = None \/ activities.location r = Some ""))).
Proof.
  assert (forall {R} (key : R -> option timestamptz) (l : list R),
            bool_decide (length (order_desc key l) = 0) = match l with [] => true | _ => false end)
    as Hlen.
  { intros R key l. rewrite sorted_length. by destruct l. }
  split_and!; try done.
  - intros e st db. unfold NewsManager.fetchNews. by destruct (request e _).
  - intros e st db Hon. rewrite fetchNews_online by done.
    unfold NewsManager_view.render. simpl. rewrite length_map, Hlen, map_map.
    by destruct (news_rows db).
  - intros r. apply truthy_none.
  - intros e st db. unfold StaffManager.fetchStaff. by destruct (request e _).
  - intros e st db Hon. rewrite fetchStaff_online by done.
    unfold StaffManager_view.render. simpl. rewrite length_map, Hlen, map_map.
    by destruct (staff_rows db).
  - intros r card. subst card. split_and!; apply truthy_none.
  - intros e st db. unfold ActivitiesManager.fetchActivities. by destruct (request e _).
  - intros e st db Hon. rewrite fetchActivities_online by done.
    unfold ActivitiesManager_view.render. simpl. rewrite length_map, Hlen, map_map.
    by destruct (activities_rows db).
  - intros r card. subst card. split_and!; apply truthy_none.
Qed.
End Views.

(** ** The dates of activities *)

Section Dates.
Context `{platform}.

(** X17. The date of an activity goes through the store's reading of the
    date input. A submit whose date text the store cannot read fails, new
    record or edited one: the error toast is shown and the store, the form
    and the editing are as they were. And when the call of a submit has
    succeeded the store could read the text, and every row of [activities]
    was there before or carries the instant read: the form never stores an
    activity without a date. *)
Theorem activities_are_dated_by_the_store (e : env) (st : ActivitiesManager.state)
    (db : database) :
  (online e = true ->
   timestamptz_in (ActivitiesManager.formData.activity_date (ActivitiesManager.formData st))
   = None ->
   ActivitiesManager.save e st db = error (database_error invalid_datetime_format)
   /\ ActivitiesManager.handleSubmit e st db = (ActivitiesManager.show toast_error st, db))
  /\ (forall db', ActivitiesManager.save e st db = data db' ->
        exists t,
          timestamptz_in (ActivitiesManager.formData.activity_date
                            (ActivitiesManager.formData st)) = Some t
          /\ forall r, r ∈ activities_rows db' ->
                       r ∈ activities_rows db \/ activities.activity_date r = Some t).
Proof.
  split.
  - intros Hon Hno.
    assert (ActivitiesManager.save e st db = error (database_error invalid_datetime_format))
      as Hsave.
    { unfold ActivitiesManager.save, ActivitiesManager.body, request. rewrite Hno, Hon.
      by destruct (truthy _). }
    split; [done|]. unfold ActivitiesManager.handleSubmit. by rewrite Hsave.
  - intros db' Hsave. unfold ActivitiesManager.save, ActivitiesManager.body in Hsave.
    destruct (timestamptz_in _) as [t|] eqn:Ht.
    + exists t. split; [done|]. intros r Hr. destruct (truthy _) as [i|].
      * apply request_data in Hsave as [_ Hsave]. cbn [mbind result_bind] in Hsave.
        apply bind_ok in Hsave as ([d k] & Hup & Heq). injection Heq as <-.
        destruct (exec_update_rows activities_table _ _ _ _ _ _ _ activities_lens Hup r Hr)
          as [?|[old ->]]; [by left|by right].
      * apply request_data in Hsave as [_ Hsave]. cbn [mbind result_bind] in Hsave.
        apply (exec_insert_rows activities_table) in Hsave; [|apply activities_lens].
        simpl in Hsave. rewrite Hsave in Hr.
        apply elem_of_app in Hr as [?| ->%list_elem_of_singleton]; [by left|by right].
    + destruct (truthy _); by apply request_data in Hsave as [_ ?].
Qed.
End Dates.

(** Alice submits an activity without a date: the sample platform cannot
    read the empty text, and nothing is stored. *)
Lemma activities_are_dated_by_the_store_witness :
  @ActivitiesManager.handleSubmit sample.browser sample.alice_online
    (ActivitiesManager.onChange ActivitiesManager.title "Museum visit"
       ActivitiesManager.initial) sample.store
  = (ActivitiesManager.show toast_error
       (ActivitiesManager.onChange ActivitiesManager.title "Museum visit"
          ActivitiesManager.initial), sample.store).
Proof.
  destruct (@activities_are_dated_by_the_store sample.browser sample.alice_online
              (ActivitiesManager.onChange ActivitiesManager.title "Museum visit"
                 ActivitiesManager.initial) sample.store) as (Hfail & _).
  by destruct Hfail.
Defined.

(** Bob opens the news panel on the sample board: four cards, none with an
    image. *)
Lemma what_the_panels_show_witness :
  exists cs,
    NewsManager_view.render (fun s => s)
      (@NewsManager.fetchNews sample.browser sample.bob_online NewsManager.initial
         sample.board)
    = NewsManager_view.Panel false NewsManager.empty_form (NewsManager_view.cards cs)
    /\ map NewsManager_view.image cs = [None; None; None; None].
Proof.
  destruct (@what_the_panels_show sample.browser (fun s => s) (fun s => s))
    as ((_ & _ & Hshow & _) & _).
  rewrite Hshow by done. eexists. split; [reflexivity|]. by vm_compute.
Defined.

(** ** The page *)

Lemma admin_handle_effect (st : Admin.state) (ev : Admin.event) :
  (Admin.navigations (Admin.handle st ev) = Admin.navigations st
   \/ Admin.navigations (Admin.handle st ev) = Admin.navigations st ++ ["/auth"])
  /\ (Admin.loading (Admin.handle st ev)
      = match ev with Admin.session_resolved _ => false | _ => Admin.loading st end)
  /\ (is_Some (Admin.user st) -> is_Some (Admin.user (Admin.handle st ev))).
Proof.
  destruct ev as [[s|]|name [s|]|[|]]; simpl; unfold Admin.onAuthStateChange;
    try case_bool_decide; simpl; split_and!; auto.
Qed.

(** X18. The page [Admin] while it is mounted, over every sequence of
    resolutions of the session check, changes of the auth state and answers
    to a logout. It never navigates anywhere but to [/auth]. It shows the
    placeholder exactly until the session check has resolved, with a session
    or without one: after a check that found no session the page with its
    three panels is rendered while the navigation to [/auth] is asked for.
    It keeps no record of a sign-out: once a user is set, a user stays set,
    the header showing the email of the last session reported. *)
Theorem the_page_admin_over_time (evs : list Admin.event) (st : Admin.state) :
  (exists k, Admin.navigations (Admin.run evs st)
             = Admin.navigations st ++ replicate k "/auth")
  /\ (Admin.render (Admin.run evs st) = Admin.Loading
      <-> Admin.loading st = true
          /\ forall session, Admin.session_resolved session ∉ evs)
  /\ (is_Some (Admin.user st) -> is_Some (Admin.user (Admin.run evs st)))
  /\ (forall session,
        Admin.render (Admin.run (evs ++ [Admin.session_resolved session]) st)
        = Admin.Page
            (match session with
             | Some s => Admin.User.email (Admin.Session.user s)
             | None => Admin.user (Admin.run evs st) ≫= Admin.User.email
             end) "news" ["news"; "staff"; "activities"]
        /\ Admin.navigations (Admin.run (evs ++ [Admin.session_resolved session]) st)
           = Admin.navigations (Admin.run evs st)
             ++ match session with Some _ => [] | None => ["/auth"] end).
Proof.
  split_and!.
  - revert st. induction evs as [|ev evs IH]; intros st.
    + exists 0. simpl. by rewrite app_nil_r.
    + unfold Admin.run in *. simpl. destruct (IH (Admin.handle st ev)) as [k ->].
      destruct (admin_handle_effect st ev) as ([-> | ->] & _).
      * by exists k.
      * exists (S k). by rewrite <- app_assoc.
  - assert (Admin.loading (Admin.run evs st) = true
            <-> Admin.loading st = true
                /\ forall session, Admin.session_resolved session ∉ evs) as Hload.
    { revert st. induction evs as [|ev evs IH]; intros st.
      - simpl. split; [|by intros [? _]]. intros ?. split; [done|].
        intros s Hs. by apply elem_of_nil in Hs.
      - unfold Admin.run in *. simpl. rewrite IH.
        destruct (admin_handle_effect st ev) as (_ & -> & _).
        destruct ev as [s|name s|failed].
        + split; [by intros [? _]|]. intros [_ Hno]. destruct (Hno s). by left.
        + split; intros [? Hno]; (split; [done|]); intros s' Hs'.
          * apply elem_of_cons in Hs' as [?|?]; [done|]. by apply (Hno s').
          * apply (Hno s'). by right.
        + split; intros [? Hno]; (split; [done|]); intros s' Hs'.
          * apply elem_of_cons in Hs' as [?|?]; [done|]. by apply (Hno s').
          * apply (Hno s'). by right. }
    rewrite <- Hload. unfold Admin.render. by destruct (Admin.loading _).
  - revert st. induction evs as [|ev evs IH]; intros st Hu; [done|].
    unfold Admin.run in *. simpl. apply IH. by apply admin_handle_effect.
  - intros session. unfold Admin.run. rewrite foldl_app. simpl.
    destruct session as [s|]; simpl; (split; [done|]); [by rewrite app_nil_r|done].
Qed.

(** A visitor without a session, then a sign-in, then a sign-out. *)
Example a_sign_out_leaves_the_user :
  let st := Admin.run
              [Admin.session_resolved None;
               Admin.auth_state_changed "SIGNED_IN"
                 (Some {| Admin.Session.user :=
                            {| Admin.User.email := Some "bob@school.example" |} |});
               Admin.auth_state_changed "SIGNED_OUT" None]
              Admin.initial in
  Admin.render st
  = Admin.Page (Some "bob@school.example") "news" ["news"; "staff"; "activities"]
  /\ Admin.navigations st = ["/auth"; "/auth"].
Proof. by vm_compute. Qed.

(** Bob is signed in when the session check resolves, then signs out: the
    page still holds him as its user. *)
Lemma the_page_admin_over_time_witness :
  is_Some (Admin.user
             (Admin.run [Admin.auth_state_changed "SIGNED_OUT" None]
                (Admin.onSession
                   (Some {| Admin.Session.user :=
                              {| Admin.User.email := Some "bob@school.example" |} |})
                   Admin.initial))).
Proof.
  destruct (the_page_admin_over_time
              [Admin.auth_state_changed "SIGNED_OUT" None]
              (Admin.onSession
                 (Some {| Admin.Session.user :=
                            {| Admin.User.email := Some "bob@school.example" |} |})
                 Admin.initial)) as (_ & _ & Huser & _).
  apply Huser. by eexists.
Defined.
